(** * Import modals of phone-ai: batch import and import from the global library

    A shallow embedding of the two import modals of
    [src/components/ImportRegexScriptModal.tsx]
    ([ImportRegexScriptModal] and [ImportWorldBookModal]) and of the
    merge step the specification describes in its section 4.2.

    The handlers are asynchronous React callbacks.  They are embedded in a
    small state-and-exception monad: the state holds what a handler can
    change (the character store behind the import functions, the React state
    set through [setIsImporting] and [setImportResult], the local variables of
    the running handler, and the trace of externally visible calls); a thrown
    JavaScript value keeps the state reached when it was thrown. *)

From Stdlib Require Import Ascii String List ZArith Lia Bool Arith Permutation DecimalString.
Import ListNotations.
Open Scope string_scope.

(** ** JavaScript strings and numbers *)

Module JS.

  (** [s.includes(searchString)]. *)
Fixpoint includes (s searchString : string) : bool :=
    String.prefix searchString s
    || match s with
       | EmptyString => false
       | String _ s' => includes s' searchString
       end.

  (** The suffix of [s] after its first [n] characters. *)
Fixpoint drop (n : nat) (s : string) : string :=
    match n, s with
    | O, _ => s
    | S _, EmptyString => EmptyString
    | S n', String _ s' => drop n' s'
    end.

  (** [s.replace(searchValue, replaceValue)] with a string pattern: only the
      first occurrence is replaced. *)
Fixpoint replace (s searchValue replaceValue : string) : string :=
    if String.prefix searchValue s
    then replaceValue ++ drop (String.length searchValue) s
    else match s with
         | EmptyString => EmptyString
         | String c s' => String c (replace s' searchValue replaceValue)
         end.

  (** A length interpolated in a template literal. *)
Definition show (n : nat) : string := NilEmpty.string_of_uint (Nat.to_uint n).

  (** A value that a [throw] (or a rejected promise) carries: an [Error]
      object with its message, or some other value. *)
Inductive Thrown : Type :=
  | ErrorObject (message : string)
  | NonError.

  (** [error instanceof Error ? error.message : "Unknown error"]. *)
Definition errorMessage (error : Thrown) : string :=
    match error with
    | ErrorObject m => m
    | NonError => "Unknown error"
    end.

  (** [error.message] read through [any]: a value that is not an [Error]
      has no such property and interpolates as [undefined]. *)
Definition anyMessage (error : Thrown) : string :=
    match error with
    | ErrorObject m => m
    | NonError => "undefined"
    end.

End JS.

Export JS.

(** ** Data model *)

(** A browser [File]: its name, its MIME type and what [file.text()]
    resolves to (or rejects with). *)
Record File : Type := mkFile {
  name : string;
  type : string;
  text : Thrown + string
}.

(** The report shape shared by the import functions and by the modals
    ([ImportResult] of the specification).  Counts are JavaScript numbers
    holding integers.  [errors] is read behind a guard
    ([result.errors && ...]) and the two file lists exist only on a batch
    report, so the three are optional. *)
Record ImportResult : Type := mkImportResult {
  success : bool;
  message : string;
  importedCount : Z;
  skippedCount : Z;
  errors : option (list string);
  successfulFiles : option (list string);
  failedFiles : option (list string)
}.

(** The report [handleImportFromGlobal] builds from the library's report,
    in both modals (lines 113-119 and 769-775). *)
Definition globalReport (result : ImportResult) : ImportResult :=
  mkImportResult true (message result) (importedCount result) 0 (Some []) None None.

(** The [options] argument built for each file when "save as global" is
    ticked. *)
Record ImportOptions : Type := mkImportOptions {
  saveAsGlobal : bool;
  globalName : string;
  globalDescription : string;
  sourceCharacterName : option string
}.

(** The local variables of a running [handleFilesSelect]
    ([let totalImported = 0; ... let failedFiles: string[] = [];]).  The two
    arrays named like fields of the report live in their own name space. *)
Module Locals.

Record t : Type := mk {
    totalImported : Z;
    totalSkipped : Z;
    allErrors : list string;
    successfulFiles : list string;
    failedFiles : list string
  }.

Definition initial : t := mk 0 0 [] [] [].

End Locals.

(** The sum of a list of counts. *)
Definition sumZ (l : list Z) : Z := fold_right Z.add 0%Z l.

(** Membership in a list that may be absent from a report. *)
Definition InOpt (x : string) (o : option (list string)) : Prop :=
  match o with
  | Some l => In x l
  | None => False
  end.

(** ** The handlers' machine and its monad *)

Section Machine.

Context {JSON Store : Type}.

(** Calls that leave the component, in the order they are made. *)
Inductive Call : Type :=
| ToastError (msg : string)
| ToastSuccess (msg : string)
| ShowErrorToast (msg : string)
| ConsoleError (msg : string) (error : Thrown)
| ImportFromJson (characterId : string) (jsonData : JSON) (options : option ImportOptions)
| ImportFromGlobal (characterId globalId : string)
| OnImportSuccess.

(** What a handler can change: the store behind the import functions (the
    characters' collections and the global library), the React state
    [isImporting] and [importResult], the trace of calls, and the local
    variables of the running handler. *)
Record Machine : Type := mkMachine {
  store : Store;
  isImporting : bool;
  importResult : option ImportResult;
  trace : list Call;
  locals : Locals.t
}.

Definition M (A : Type) : Type := Machine -> Machine * (Thrown + A).

Definition ret {A} (a : A) : M A := fun m => (m, inr a).

Definition bind {A B} (c : M A) (k : A -> M B) : M B :=
  fun m =>
    match c m with
    | (m', inr a) => k a m'
    | (m', inl e) => (m', inl e)
    end.

Definition throw {A} (e : Thrown) : M A := fun m => (m, inl e).

(** [try { c } catch (error) { handler error }]. *)
Definition tryCatch {A} (c : M A) (handler : Thrown -> M A) : M A :=
  fun m =>
    match c m with
    | (m', inr a) => (m', inr a)
    | (m', inl e) => handler e m'
    end.

(** [try { c } finally { fin }]. *)
Definition tryFinally {A} (c : M A) (fin : M unit) : M A :=
  fun m =>
    match c m with
    | (m', r) =>
        match fin m' with
        | (m'', inr _) => (m'', r)
        | (m'', inl e) => (m'', inl e)
        end
    end.

(** A value that is already there, or a promise that is already settled. *)
Definition await {A} (r : Thrown + A) : M A := fun m => (m, r).

Definition when (b : bool) (c : M unit) : M unit := if b then c else ret tt.

(** [for (let i = 0; i < xs.length; i++) { body xs[i] }], for an array
    the body leaves alone. *)
Fixpoint forEach {A} (body : A -> M unit) (xs : list A) : M unit :=
  match xs with
  | [] => ret tt
  | x :: xs' => bind (body x) (fun _ => forEach body xs')
  end.

Definition call (c : Call) : M unit :=
  fun m => (mkMachine (store m) (isImporting m) (importResult m)
                      (trace m ++ [c]) (locals m), inr tt).

Definition setIsImporting (b : bool) : M unit :=
  fun m => (mkMachine (store m) b (importResult m) (trace m) (locals m), inr tt).

Definition setImportResult (r : option ImportResult) : M unit :=
  fun m => (mkMachine (store m) (isImporting m) r (trace m) (locals m), inr tt).

Definition getLocals : M Locals.t := fun m => (m, inr (locals m)).

Definition modifyLocals (f : Locals.t -> Locals.t) : M unit :=
  fun m => (mkMachine (store m) (isImporting m) (importResult m) (trace m)
                      (f (locals m)), inr tt).

(** An external function run against the store. *)
Definition onStore {A} (f : Store -> Store * (Thrown + A)) : M A :=
  fun m =>
    let (st, r) := f (store m) in
    (mkMachine st (isImporting m) (importResult m) (trace m) (locals m), r).

End Machine.

Arguments Call : clear implicits.
Arguments Machine : clear implicits.
Arguments M : clear implicits.

Notation "x <- c ;; k" := (bind c (fun x => k))
  (at level 61, c at next level, right associativity).
Notation "c ;; k" := (bind c (fun _ => k))
  (at level 61, right associativity).

(** Updates of the local variables. *)
Definition addImported (n : Z) (l : Locals.t) : Locals.t :=
  Locals.mk (Locals.totalImported l + n) (Locals.totalSkipped l)
            (Locals.allErrors l) (Locals.successfulFiles l) (Locals.failedFiles l).

Definition addSkipped (n : Z) (l : Locals.t) : Locals.t :=
  Locals.mk (Locals.totalImported l) (Locals.totalSkipped l + n)
            (Locals.allErrors l) (Locals.successfulFiles l) (Locals.failedFiles l).

Definition pushErrors (es : list string) (l : Locals.t) : Locals.t :=
  Locals.mk (Locals.totalImported l) (Locals.totalSkipped l)
            (Locals.allErrors l ++ es) (Locals.successfulFiles l) (Locals.failedFiles l).

Definition pushSuccessful (f : string) (l : Locals.t) : Locals.t :=
  Locals.mk (Locals.totalImported l) (Locals.totalSkipped l)
            (Locals.allErrors l) (Locals.successfulFiles l ++ [f]) (Locals.failedFiles l).

Definition pushFailed (f : string) (l : Locals.t) : Locals.t :=
  Locals.mk (Locals.totalImported l) (Locals.totalSkipped l)
            (Locals.allErrors l) (Locals.successfulFiles l) (Locals.failedFiles l ++ [f]).

(** ** External collaborators

    The functions the modals import from modules that are not part of the
    component: [JSON.parse], which throws on malformed text; the import
    functions of [@/function/regex/import], [@/function/regex/global] and
    [@/function/worldbook/global], which
    read and write the store and return a report or throw; and the
    [onImportSuccess] callback of the parent component. *)
Class Collaborators (JSON Store : Type) : Type := {
  JSON_parse : string -> Thrown + JSON;
  importRegexScriptFromJson :
    string -> JSON -> option ImportOptions -> Store -> Store * (Thrown + ImportResult);
  importFromGlobalRegexScript :
    string -> string -> Store -> Store * (Thrown + ImportResult);
  importFromGlobalWorldBook :
    string -> string -> Store -> Store * (Thrown + ImportResult);
  onImportSuccess : Store -> Store * (Thrown + unit)
}.

(** ** [ImportRegexScriptModal] *)

Module RegexModal.

Section Handlers.

Context {JSON Store : Type} {env : Collaborators JSON Store}.

(** The [characterId] prop and the React state the handlers read. *)
Variable characterId : string.
Variable saveAsGlobalChecked : bool.
Variable selectedGlobalId : string.

(** [result.errors && result.errors.length > 0], then
    [allErrors.push(...result.errors.map(err => `${file.name}: ${err}`))]. *)
Definition pushResultErrors (file : File) (result : ImportResult) : M JSON Store unit :=
  match errors result with
  | Some errs =>
      when (0 <? List.length errs)%nat
        (modifyLocals (pushErrors (map (fun err => name file ++ ": " ++ err) errs)))
  | None => ret tt
  end.

(** The [options] built for a file (lines 161-166). *)
Definition optionsFor (file : File) : option ImportOptions :=
  if saveAsGlobalChecked
  then Some (mkImportOptions true (replace (name file) ".json" "") "" None)
  else None.

(** The body of the inner [try] of the loop (lines 158-183). *)
Definition tryBody (file : File) : M JSON Store unit :=
  text <- await (text file) ;;
  jsonData <- await (JSON_parse text) ;;
  let options := optionsFor file in
  call (ImportFromJson characterId jsonData options) ;;
  result <- onStore (importRegexScriptFromJson characterId jsonData options) ;;
  if success result then
    modifyLocals (addImported (importedCount result)) ;;
    modifyLocals (addSkipped (skippedCount result)) ;;
    modifyLocals (pushSuccessful (name file)) ;;
    pushResultErrors file result
  else
    modifyLocals (pushFailed (name file)) ;;
    modifyLocals (pushErrors [name file ++ ": " ++ message result]) ;;
    pushResultErrors file result.

(** The inner [catch] (lines 184-188). *)
Definition catchSource (file : File) (error : Thrown) : M JSON Store unit :=
  let errorMessage := errorMessage error in
  modifyLocals (pushFailed (name file)) ;;
  modifyLocals (pushErrors [name file ++ ": Failed to parse - " ++ errorMessage]).

(** One iteration of the loop (lines 156-188). *)
Definition processFile (file : File) : M JSON Store unit :=
  tryCatch (tryBody file) (catchSource file).

(** [finalResult] (lines 191-199). *)
Definition finalResult (jsonFiles : list File) (l : Locals.t) : ImportResult :=
  mkImportResult
    (0 <? List.length (Locals.successfulFiles l))%nat
    ("Processed " ++ show (List.length jsonFiles) ++ " files: "
       ++ show (List.length (Locals.successfulFiles l)) ++ " successful, "
       ++ show (List.length (Locals.failedFiles l)) ++ " failed")
    (Locals.totalImported l)
    (Locals.totalSkipped l)
    (Some (Locals.allErrors l))
    (Some (Locals.successfulFiles l))
    (Some (Locals.failedFiles l)).

(** [files.filter(file => file.type.includes("json"))]. *)
Definition jsonFilesOf (files : list File) : list File :=
  filter (fun file => includes (type file) "json") files.

(** What follows the loop in the outer [try] block (lines 191-212). *)
Definition conclude (jsonFiles : list File) : M JSON Store unit :=
  l <- getLocals ;;
  let finalResult := finalResult jsonFiles l in
  setImportResult (Some finalResult) ;;
  if success finalResult then
    (if (0 <? List.length (Locals.failedFiles l))%nat
     then call (ToastSuccess ("Successfully imported from "
                  ++ show (List.length (Locals.successfulFiles l)) ++ " files ("
                  ++ show (List.length (Locals.failedFiles l)) ++ " failed)"))
     else call (ToastSuccess ("Successfully imported from all "
                  ++ show (List.length (Locals.successfulFiles l)) ++ " files"))) ;;
    call OnImportSuccess ;;
    onStore onImportSuccess
  else
    call (ToastError ("Failed to import from all "
            ++ show (List.length jsonFiles) ++ " files")).

(** The outer [try] block (lines 155-212). *)
Definition batchBody (jsonFiles : list File) : M JSON Store unit :=
  forEach processFile jsonFiles ;;
  conclude jsonFiles.

(** The outer [catch] (lines 213-222). *)
Definition catchBatch (error : Thrown) : M JSON Store unit :=
  let errorMessage := errorMessage error in
  call (ToastError ("Batch import failed: " ++ errorMessage)) ;;
  setImportResult
    (Some (mkImportResult false ("Batch import failed: " ++ errorMessage)
             0 0 (Some [errorMessage]) None None)).

(** [handleFilesSelect] (lines 133-226). *)
Definition handleFilesSelect (files : list File) : M JSON Store unit :=
  let jsonFiles := jsonFilesOf files in
  if (List.length jsonFiles =? 0)%nat then
    call (ToastError "Please select at least one JSON file")
  else
    when (negb (List.length jsonFiles =? List.length files)%nat)
      (call (ToastError (show (List.length files - List.length jsonFiles)
                           ++ " non-JSON files were skipped"))) ;;
    setIsImporting true ;;
    setImportResult None ;;
    modifyLocals (fun _ => Locals.initial) ;;
    tryFinally
      (tryCatch (batchBody jsonFiles) catchBatch)
      (setIsImporting false).

(** [handleImportFromGlobal] of the regex modal (lines 102-131). *)
Definition handleImportFromGlobal : M JSON Store unit :=
  if (String.length selectedGlobalId =? 0)%nat then
    call (ToastError "Please select a global regex script")
  else
    setIsImporting true ;;
    tryFinally
      (tryCatch
         (call (ImportFromGlobal characterId selectedGlobalId) ;;
          result <- onStore (importFromGlobalRegexScript characterId selectedGlobalId) ;;
          if success result then
            setImportResult
              (Some (mkImportResult true (message result) (importedCount result)
                       0 (Some []) None None)) ;;
            call (ToastSuccess (message result)) ;;
            call OnImportSuccess ;;
            onStore onImportSuccess
          else
            call (ToastError (message result)))
         (fun error =>
            call (ConsoleError "Import from global failed:" error) ;;
            call (ToastError ("Import failed: " ++ anyMessage error))))
      (setIsImporting false).

(** *** What one source does, read off [processFile]

    The three ways an iteration can go: the import function returned a
    report with [success] set, it returned one without, or something in the
    [try] block threw. *)
Inductive Outcome : Type :=
| Succeeded (result : ImportResult)
| Rejected (result : ImportResult)
| Threw (error : Thrown).

(** The outcome of a source against a store, and the store it leaves. *)
Definition sourceOutcome (file : File) (st : Store) : Store * Outcome :=
  match text file with
  | inl e => (st, Threw e)
  | inr t =>
      match JSON_parse t with
      | inl e => (st, Threw e)
      | inr jsonData =>
          match importRegexScriptFromJson characterId jsonData (optionsFor file) st with
          | (st', inl e) => (st', Threw e)
          | (st', inr result) =>
              (st', if success result then Succeeded result else Rejected result)
          end
      end
  end.

(** The sources in input order, each run against the store its
    predecessor left. *)
Fixpoint outcomes (jsonFiles : list File) (st : Store) : list (File * Outcome) :=
  match jsonFiles with
  | [] => []
  | file :: rest =>
      let (st', o) := sourceOutcome file st in (file, o) :: outcomes rest st'
  end.

(** The store the loop leaves. *)
Fixpoint storeAfter (jsonFiles : list File) (st : Store) : Store :=
  match jsonFiles with
  | [] => st
  | file :: rest => storeAfter rest (fst (sourceOutcome file st))
  end.

(** The call to the import function a source gives rise to, if its text
    could be read and parsed. *)
Definition callsOf (file : File) : list (Call JSON) :=
  match text file with
  | inl _ => []
  | inr t =>
      match JSON_parse t with
      | inl _ => []
      | inr jsonData => [ImportFromJson characterId jsonData (optionsFor file)]
      end
  end.

(** A source fails by throwing [e] against store [st]: reading its text
    rejects, [JSON.parse] throws, or the import function throws. *)
Definition SourceThrows (file : File) (st : Store) (e : Thrown) : Prop :=
  text file = inl e
  \/ (exists t, text file = inr t /\ JSON_parse t = inl e)
  \/ (exists t jsonData,
        text file = inr t /\ JSON_parse t = inr jsonData
        /\ snd (importRegexScriptFromJson characterId jsonData (optionsFor file) st) = inl e).

Definition succeeded (fo : File * Outcome) : bool :=
  match snd fo with Succeeded _ => true | _ => false end.

Definition failed (fo : File * Outcome) : bool := negb (succeeded fo).

(** The counts a source adds to the totals. *)
Definition importedOf (fo : File * Outcome) : Z :=
  match snd fo with Succeeded result => importedCount result | _ => 0 end.

Definition skippedOf (fo : File * Outcome) : Z :=
  match snd fo with Succeeded result => skippedCount result | _ => 0 end.

(** The entries of a report's [errors], each behind the file's name. *)
Definition resultErrors (file : File) (result : ImportResult) : list string :=
  match errors result with
  | Some errs => map (fun err => name file ++ ": " ++ err) errs
  | None => []
  end.

(** The entries a source adds to [allErrors]. *)
Definition errorsOf (fo : File * Outcome) : list string :=
  let file := fst fo in
  match snd fo with
  | Succeeded result => resultErrors file result
  | Rejected result => (name file ++ ": " ++ message result) :: resultErrors file result
  | Threw e => [name file ++ ": Failed to parse - " ++ errorMessage e]
  end.

(** The local variables after a source with outcome [snd fo]. *)
Definition record (fo : File * Outcome) (l : Locals.t) : Locals.t :=
  Locals.mk
    (Locals.totalImported l + importedOf fo)
    (Locals.totalSkipped l + skippedOf fo)
    (Locals.allErrors l ++ errorsOf fo)
    (Locals.successfulFiles l ++ if succeeded fo then [name (fst fo)] else [])
    (Locals.failedFiles l ++ if succeeded fo then [] else [name (fst fo)]).

(** The machine when the loop starts: the handler's prologue
    (lines 141-152) has run. *)
Definition enter (files : list File) (m : Machine JSON Store) : Machine JSON Store :=
  mkMachine (store m) true None
    (trace m ++
       if (List.length (jsonFilesOf files) =? List.length files)%nat then []
       else [ToastError (show (List.length files - List.length (jsonFilesOf files))
                           ++ " non-JSON files were skipped")])
    Locals.initial.

(** The report a selection produces: [finalResult] over the local
    variables the loop leaves. *)
Definition batchReport (files : list File) (m : Machine JSON Store) : ImportResult :=
  finalResult (jsonFilesOf files)
    (locals (fst (forEach processFile (jsonFilesOf files) (enter files m)))).

(** The machine after the loop has run over some sources. *)
Definition afterSources (jsonFiles : list File) (m : Machine JSON Store)
    : Machine JSON Store :=
  fst (forEach processFile jsonFiles m).

(** The report the outer [catch] sets. *)
Definition batchFailure (e : Thrown) : ImportResult :=
  mkImportResult false ("Batch import failed: " ++ errorMessage e) 0 0
    (Some [errorMessage e]) None None.

(** The parent's callback returns normally. *)
Definition CallbackReturns : Prop :=
  forall st, snd (onImportSuccess st) = inr tt.

End Handlers.

End RegexModal.

(** ** [ImportWorldBookModal] *)

Module WorldBookModal.

Section Handlers.

Context {JSON Store : Type} {env : Collaborators JSON Store}.

Variable characterId : string.
Variable selectedGlobalId : string.

(** [handleImportFromGlobal] of the world book modal (lines 758-787);
    failures go to the modal's own error toast. *)
Definition handleImportFromGlobal : M JSON Store unit :=
  if (String.length selectedGlobalId =? 0)%nat then
    call (ShowErrorToast "Please select a global world book")
  else
    setIsImporting true ;;
    tryFinally
      (tryCatch
         (call (ImportFromGlobal characterId selectedGlobalId) ;;
          result <- onStore (importFromGlobalWorldBook characterId selectedGlobalId) ;;
          if success result then
            setImportResult
              (Some (mkImportResult true (message result) (importedCount result)
                       0 (Some []) None None)) ;;
            call (ToastSuccess (message result)) ;;
            call OnImportSuccess ;;
            onStore onImportSuccess
          else
            call (ShowErrorToast (message result)))
         (fun error =>
            call (ConsoleError "Import from global failed:" error) ;;
            call (ShowErrorToast ("Import failed: " ++ anyMessage error))))
      (setIsImporting false).

End Handlers.

End WorldBookModal.

(** ** The merge step *)

Module Merge.

Section Engine.

Context {Entry : Type}.

(** The identity key of an entry. *)
Variable identityKey : Entry -> string.

Record Result : Type := mkResult {
  updated : list Entry;
  importedCount : Z;
  skippedCount : Z;
  perEntryErrors : list string
}.

Definition hasKey (k : string) (collection : list Entry) : bool :=
  existsb (fun e => String.eqb (identityKey e) k) collection.

(** One incoming entry: skipped when its key is already in the collection
    (as it stands now, entries accepted earlier in this pass included),
    appended otherwise. *)
Definition step (acc : Result) (entry : Entry) : Result :=
  if hasKey (identityKey entry) (updated acc)
  then mkResult (updated acc) (importedCount acc) (skippedCount acc + 1)
                (perEntryErrors acc)
  else mkResult (updated acc ++ [entry]) (importedCount acc + 1) (skippedCount acc)
                (perEntryErrors acc).

(** Modelled from the spec: the merge/dedup engine of section 4.2
    ([merge(existing, incoming)]), whose code is outside the component
    ([@/function/regex/import] and [@/function/worldbook/import]).  It
    iterates the incoming entries in input order. *)
Definition merge (existing incoming : list Entry) : Result :=
  fold_left step incoming (mkResult existing 0 0 []).

(** The collisions of a bundle, counted without running the merge: the
    entries whose key is among the keys [seen] so far, which are the keys
    of the existing collection and of the entries that came earlier in the
    bundle. *)
Fixpoint collisions (seen : list string) (incoming : list Entry) : nat :=
  match incoming with
  | [] => 0
  | entry :: rest =>
      (if existsb (String.eqb (identityKey entry)) seen then 1 else 0)
      + collisions (identityKey entry :: seen) rest
  end.

End Engine.

End Merge.

(** ** A small instance of the collaborators

    Used to run the handlers on concrete selections. *)

Module Demo.

(** An entry: its identity key and its content. *)
Definition Entry : Type := (string * string)%type.

Definition Bundle : Type := list Entry.

(** The collections of the characters and the global library, both keyed
    by id. *)
Record Store : Type := mkStore {
  collections : list (string * Bundle);
  library : list (string * Bundle)
}.

Fixpoint lookup (id : string) (table : list (string * Bundle)) : option Bundle :=
  match table with
  | [] => None
  | (k, b) :: rest => if String.eqb k id then Some b else lookup id rest
  end.

Definition collectionOf (characterId : string) (st : Store) : Bundle :=
  match lookup characterId (collections st) with
  | Some b => b
  | None => []
  end.

Definition setCollection (characterId : string) (b : Bundle) (st : Store) : Store :=
  mkStore
    ((characterId, b)
       :: filter (fun kb => negb (String.eqb (fst kb) characterId)) (collections st))
    (library st).

(** A stand-in for [JSON.parse] on a toy wire format: every character of
    the text is the key of one entry, and ["!"] is a syntax error. *)
Fixpoint parse (text : string) : Thrown + Bundle :=
  match text with
  | EmptyString => inr []
  | String c rest =>
      if Ascii.eqb c "!"%char
      then inl (ErrorObject "Unexpected token ! in JSON")
      else match parse rest with
           | inl e => inl e
           | inr b => inr ((String c EmptyString, "") :: b)
           end
  end.

(** Modelled from the spec: the schema validator of section 4.1, which is
    outside the component; here an entry with key ["?"] lacks a required
    field. *)
Definition validate (b : Bundle) : option string :=
  if existsb (fun e => String.eqb (fst e) "?") b
  then Some "missing required field"
  else None.

Definition reportOf (r : Merge.Result (Entry := Entry)) : ImportResult :=
  mkImportResult true "Import complete" (Merge.importedCount r) (Merge.skippedCount r)
    (Some (Merge.perEntryErrors r)) None None.

(** Modelled from the spec: the per-source import of section 4.3 (validate,
    then merge against the character's collection and persist), whose code
    ([importRegexScriptFromJson]) is outside the component. *)
Definition importFromJson (characterId : string) (jsonData : Bundle)
    (options : option ImportOptions) (st : Store) : Store * (Thrown + ImportResult) :=
  match validate jsonData with
  | Some err =>
      (st, inr (mkImportResult false "Invalid format" 0 0 (Some [err]) None None))
  | None =>
      let r := Merge.merge fst (collectionOf characterId st) jsonData in
      let st' := setCollection characterId (Merge.updated r) st in
      let st'' :=
        match options with
        | Some o => mkStore (collections st') ((globalName o, jsonData) :: library st')
        | None => st'
        end in
      (st'', inr (reportOf r))
  end.

(** Modelled from the spec: [importFromGlobal] of section 4.4 (load the
    stored bundle, merge it against the target character's collection),
    whose code ([importFromGlobalRegexScript], [importFromGlobalWorldBook])
    is outside the component. *)
Definition importFromGlobal (characterId globalId : string) (st : Store)
    : Store * (Thrown + ImportResult) :=
  match lookup globalId (library st) with
  | None => (st, inl (ErrorObject "Global item not found"))
  | Some b =>
      let r := Merge.merge fst (collectionOf characterId st) b in
      (setCollection characterId (Merge.updated r) st, inr (reportOf r))
  end.

#[global] Instance collaborators : Collaborators Bundle Store := {
  JSON_parse := parse;
  importRegexScriptFromJson := importFromJson;
  importFromGlobalRegexScript := importFromGlobal;
  importFromGlobalWorldBook := importFromGlobal;
  onImportSuccess := fun st => (st, inr tt)
}.

(** Character [c1] already holds entry [a]; library item [g1] holds [a]
    and [b]. *)
Definition st0 : Store :=
  mkStore [("c1", [("a", "")])] [("g1", [("a", ""); ("b", "")])].

Definition machine (st : Store) : Machine Bundle Store :=
  mkMachine st false None [] Locals.initial.

Definition jsonFile (name text : string) : File :=
  mkFile name "application/json" (inr text).

(** The initial machine of the examples. *)
Definition m0 : Machine Bundle Store := machine st0.

(** Five selected files: [one.json] brings [a] (a duplicate) and [b];
    [two.json] is malformed; [notes.txt] is not a JSON file; [three.json]
    brings [b] (by then a duplicate) and [c]; [four.json] fails validation. *)
Definition one : File := jsonFile "one.json" "ab".
Definition two : File := jsonFile "two.json" "x!".
Definition notes : File := mkFile "notes.txt" "text/plain" (inr "zz").
Definition three : File := jsonFile "three.json" "bc".
Definition four : File := jsonFile "four.json" "q?".

Definition selection : list File := [one; two; notes; three; four].

(** A file whose only entry the character already has. *)
Definition dup : File := jsonFile "dup.json" "a".

End Demo.


(** ** Notions used by the further properties *)

(** The call of the parent's [onImportSuccess] callback, in a trace. *)
Definition isCallback {JSON : Type} (c : Call JSON) : bool :=
  match c with
  | OnImportSuccess => true
  | _ => false
  end.

(** A call of an import function, in a trace. *)
Definition isImportCall {JSON : Type} (c : Call JSON) : bool :=
  match c with
  | ImportFromJson _ _ _ | ImportFromGlobal _ _ => true
  | _ => false
  end.


(** ** More of JavaScript's strings *)

Module JSText.

(** A string given by its bytes.  Strings are held as their UTF-8 bytes. *)
Definition bytes (l : list nat) : string :=
  fold_right (fun n s => String (ascii_of_nat n) s) EmptyString l.

(** The white space and line terminators [trim] removes: TAB, LF, VT, FF,
    CR, SP, U+00A0, U+1680, U+2000 to U+200A, U+2028, U+2029, U+202F, U+205F,
    U+3000 and U+FEFF. *)
Definition whiteSpace : list string :=
  [bytes [9]; bytes [10]; bytes [11]; bytes [12]; bytes [13]; bytes [32];
   bytes [194; 160]; bytes [225; 154; 128];
   bytes [226; 128; 128]; bytes [226; 128; 129]; bytes [226; 128; 130];
   bytes [226; 128; 131]; bytes [226; 128; 132]; bytes [226; 128; 133];
   bytes [226; 128; 134]; bytes [226; 128; 135]; bytes [226; 128; 136];
   bytes [226; 128; 137]; bytes [226; 128; 138];
   bytes [226; 128; 168]; bytes [226; 128; 169]; bytes [226; 128; 175];
   bytes [226; 129; 159]; bytes [227; 128; 128]; bytes [239; 187; 191]].

Definition reverse (s : string) : string :=
  string_of_list_ascii (rev (list_ascii_of_string s)).

(** [s] without one leading occurrence of a member of [ws], if it has one. *)
Definition dropOne (ws : list string) (s : string) : option string :=
  match find (fun w => String.prefix w s) ws with
  | Some w => Some (drop (String.length w) s)
  | None => None
  end.

Fixpoint dropAll (fuel : nat) (ws : list string) (s : string) : string :=
  match fuel with
  | O => s
  | S fuel' =>
      match dropOne ws s with
      | Some s' => dropAll fuel' ws s'
      | None => s
      end
  end.

(** [s.trimStart()], [s.trimEnd()] and [s.trim()]. *)
Definition trimStart (s : string) : string :=
  dropAll (String.length s) whiteSpace s.

Definition trimEnd (s : string) : string :=
  reverse (dropAll (String.length s) (map reverse whiteSpace) (reverse s)).

Definition trim (s : string) : string := trimEnd (trimStart s).

(** [a || b] on strings: the empty string is falsy. *)
Definition orElse (a b : string) : string :=
  match a with
  | EmptyString => b
  | _ => a
  end.

End JSText.

(** ** [ImportWorldBookModal]: import of one file *)

(** [importWorldBookFromJson] of [@/function/worldbook/import]. *)
Class WorldBookImport (JSON Store : Type) : Type := {
  importWorldBookFromJson :
    string -> JSON -> option ImportOptions -> Store -> Store * (Thrown + ImportResult)
}.

Module WorldBookFile.

Section Handlers.

Context {JSON Store : Type} {env : Collaborators JSON Store}
        {wb : WorldBookImport JSON Store}.

(** The [characterId] prop and the React state the handler reads. *)
Variable characterId : string.
Variable saveAsGlobalChecked : bool.
Variable globalName : string.
Variable globalDescription : string.

(** The [options] built for the file (lines 802-807). *)
Definition optionsFor (file : File) : option ImportOptions :=
  if saveAsGlobalChecked
  then Some (mkImportOptions true
               (JSText.orElse (JSText.trim globalName) (replace (name file) ".json" ""))
               (JSText.trim globalDescription)
               None)
  else None.

(** The report the [catch] sets (lines 821-827). *)
Definition importFailure (error : Thrown) : ImportResult :=
  let errorMessage := errorMessage error in
  mkImportResult false ("Failed to import: " ++ errorMessage) 0 0
    (Some [errorMessage]) None None.

(** [handleFileSelect] (lines 789-831). *)
Definition handleFileSelect (file : File) : M JSON Store unit :=
  if negb (includes (type file) "json") then
    call (ShowErrorToast "Please select a JSON file")
  else
    setIsImporting true ;;
    setImportResult None ;;
    tryFinally
      (tryCatch
         (text <- await (text file) ;;
          jsonData <- await (JSON_parse text) ;;
          let options := optionsFor file in
          call (ImportFromJson characterId jsonData options) ;;
          result <- onStore (importWorldBookFromJson characterId jsonData options) ;;
          setImportResult (Some result) ;;
          if success result then
            call (ToastSuccess (message result)) ;;
            call OnImportSuccess ;;
            onStore onImportSuccess
          else
            call (ShowErrorToast (message result)))
         (fun error =>
            let errorMessage := errorMessage error in
            call (ShowErrorToast ("Failed to import: " ++ errorMessage)) ;;
            setImportResult
              (Some (mkImportResult false ("Failed to import: " ++ errorMessage) 0 0
                       (Some [errorMessage]) None None))))
      (setIsImporting false).

(** What reading the file, parsing it and calling the import function
    come to against store [st]: the store left, and a thrown value or the
    function's report. *)
Definition attempt (file : File) (st : Store) : Store * (Thrown + ImportResult) :=
  match text file with
  | inl e => (st, inl e)
  | inr t =>
      match JSON_parse t with
      | inl e => (st, inl e)
      | inr jsonData =>
          importWorldBookFromJson characterId jsonData (optionsFor file) st
      end
  end.

End Handlers.

End WorldBookFile.

(** ** [ImportRegexScriptModal]: the global library tab *)

(** What [listGlobalRegexScripts] and [deleteGlobalRegexScript] return. *)
Module ListResult.

Record t (Item : Type) : Type := mk {
  success : bool;
  globalRegexScripts : list Item
}.

Arguments mk {Item}.
Arguments success {Item}.
Arguments globalRegexScripts {Item}.

End ListResult.

Module DeleteResult.

Record t : Type := mk {
  success : bool;
  message : option string
}.

End DeleteResult.

(** [@/function/regex/global]'s list and delete functions, over library
    items of type [Item], and the translation function [t] of
    [useLanguage]. *)
Class LibraryCollaborators (Item Store : Type) : Type := {
  listGlobalRegexScripts : Store -> Store * (Thrown + ListResult.t Item);
  deleteGlobalRegexScript : string -> Store -> Store * (Thrown + DeleteResult.t);
  t : string -> string
}.

Module LibraryTab.

Section Handlers.

Context {Item Store : Type} {lib : LibraryCollaborators Item Store}.

(** Calls that leave the component, in the order they are made. *)
Inductive Event : Type :=
| ToastError (msg : string)
| ToastSuccess (msg : string)
| ConsoleError (msg : string) (error : Thrown)
| StopPropagation
| PreventDefault
| ListGlobal
| DeleteGlobal (globalId : string).

(** The store behind the library functions, the React state of the tab and
    the trace of calls. *)
Record Panel : Type := mkPanel {
  store : Store;
  globalRegexScripts : list Item;
  selectedGlobalId : string;
  isLoadingGlobal : bool;
  isDeleting : option string;
  trace : list Event
}.

(** The state-and-exception monad of the handlers, over the panel. *)
Definition M (A : Type) : Type := Panel -> Panel * (Thrown + A).

Definition ret {A} (a : A) : M A := fun p => (p, inr a).

Definition bind {A B} (c : M A) (k : A -> M B) : M B :=
  fun p =>
    match c p with
    | (p', inr a) => k a p'
    | (p', inl e) => (p', inl e)
    end.

Definition tryCatch {A} (c : M A) (handler : Thrown -> M A) : M A :=
  fun p =>
    match c p with
    | (p', inr a) => (p', inr a)
    | (p', inl e) => handler e p'
    end.

Definition tryFinally {A} (c : M A) (fin : M unit) : M A :=
  fun p =>
    match c p with
    | (p', r) =>
        match fin p' with
        | (p'', inr _) => (p'', r)
        | (p'', inl e) => (p'', inl e)
        end
    end.

Definition when (b : bool) (c : M unit) : M unit := if b then c else ret tt.

Definition call (ev : Event) : M unit :=
  fun p => (mkPanel (store p) (globalRegexScripts p) (selectedGlobalId p)
                    (isLoadingGlobal p) (isDeleting p) (trace p ++ [ev]), inr tt).

Definition setGlobalRegexScripts (items : list Item) : M unit :=
  fun p => (mkPanel (store p) items (selectedGlobalId p)
                    (isLoadingGlobal p) (isDeleting p) (trace p), inr tt).

Definition setSelectedGlobalId (id : string) : M unit :=
  fun p => (mkPanel (store p) (globalRegexScripts p) id
                    (isLoadingGlobal p) (isDeleting p) (trace p), inr tt).

Definition setIsLoadingGlobal (b : bool) : M unit :=
  fun p => (mkPanel (store p) (globalRegexScripts p) (selectedGlobalId p)
                    b (isDeleting p) (trace p), inr tt).

Definition setIsDeleting (id : option string) : M unit :=
  fun p => (mkPanel (store p) (globalRegexScripts p) (selectedGlobalId p)
                    (isLoadingGlobal p) id (trace p), inr tt).

Definition onStore {A} (f : Store -> Store * (Thrown + A)) : M A :=
  fun p =>
    let (st, r) := f (store p) in
    (mkPanel st (globalRegexScripts p) (selectedGlobalId p)
             (isLoadingGlobal p) (isDeleting p) (trace p), r).

(** [result.message || fallback]: an absent or empty message is falsy. *)
Definition messageOr (message : option string) (fallback : string) : string :=
  match message with
  | Some (String c rest) => String c rest
  | _ => fallback
  end.

(** [loadGlobalRegexScripts] (lines 85-100). *)
Definition loadGlobalRegexScripts : M unit :=
  bind (setIsLoadingGlobal true) (fun _ =>
  tryFinally
    (tryCatch
       (bind (call ListGlobal) (fun _ =>
        bind (onStore listGlobalRegexScripts) (fun result =>
        if ListResult.success result
        then setGlobalRegexScripts (ListResult.globalRegexScripts result)
        else call (ToastError "Failed to load global regex scripts"))))
       (fun error =>
          bind (call (ConsoleError "Failed to load global regex scripts:" error)) (fun _ =>
          call (ToastError "Failed to load global regex scripts"))))
    (setIsLoadingGlobal false)).

(** [handleDeleteGlobalScript] (lines 263-285), for a click while
    [selectedGlobalId] is the panel's selection.  The handler does not await
    [loadGlobalRegexScripts()]: the reload goes on after the handler's
    [finally].  It writes [isLoadingGlobal], [globalRegexScripts] and the
    trace only, which the rest of the handler leaves alone, so it is run
    here once the handler is through. *)
Definition handleDeleteGlobalScript (globalId : string) : M unit :=
  bind (call StopPropagation) (fun _ =>
  bind (call PreventDefault) (fun _ =>
  bind (setIsDeleting (Some globalId)) (fun _ =>
  bind
    (tryFinally
       (tryCatch
          (bind (call (DeleteGlobal globalId)) (fun _ =>
           bind (onStore (deleteGlobalRegexScript globalId)) (fun result =>
           if DeleteResult.success result then
             bind (call (ToastSuccess (t "regexScriptEditor.globalScriptDeleted"))) (fun _ =>
             fun p =>
               bind (when (String.eqb (selectedGlobalId p) globalId)
                          (setSelectedGlobalId ""))
                    (fun _ => ret true) p)
           else
             bind (call (ToastError
                           (messageOr (DeleteResult.message result)
                              (t "regexScriptEditor.failedToDeleteGlobalScript"))))
                  (fun _ => ret false))))
          (fun error =>
             bind (call (ConsoleError "Failed to delete global regex script:" error))
                  (fun _ =>
             bind (call (ToastError
                           (t "regexScriptEditor.failedToDeleteGlobalScript"
                              ++ ": " ++ anyMessage error)))
                  (fun _ => ret false))))
       (setIsDeleting None))
    (fun reload => when reload loadGlobalRegexScripts)))).

End Handlers.

Arguments Event : clear implicits.
Arguments Panel : clear implicits.
Arguments M : clear implicits.

End LibraryTab.


(** ** Character creation ([createCharacter], [validateCharacterData]) *)

Module JSUnits.

(** The UTF-16 code units a byte of well-formed UTF-8 stands for: a
    continuation byte none, the lead byte of a four-byte sequence two, any
    other byte one. *)
Definition units (c : ascii) : nat :=
  let n := nat_of_ascii c in
  if (n <? 128)%nat then 1
  else if (n <? 192)%nat then 0
  else if (n <? 240)%nat then 1
  else 2.

(** [s.length]: the number of UTF-16 code units. *)
Fixpoint length (s : string) : nat :=
  match s with
  | EmptyString => 0
  | String c rest => units c + length rest
  end.

(** A string is truthy unless it is empty. *)
Definition truthy (s : string) : bool :=
  match s with
  | EmptyString => false
  | String _ _ => true
  end.

(** An optional string field is truthy when present and not empty. *)
Definition given (o : option string) : bool :=
  match o with
  | Some s => truthy s
  | None => false
  end.

(** The field's text, for a template literal behind a truthiness test. *)
Definition textOf (o : option string) : string :=
  match o with
  | Some s => s
  | None => EmptyString
  end.

(** [s.split('.').pop()]: what follows the last dot, or all of [s]. *)
Fixpoint lastSegmentFrom (acc s : string) : string :=
  match s with
  | EmptyString => acc
  | String c rest =>
      if Ascii.eqb c "."%char
      then lastSegmentFrom EmptyString rest
      else lastSegmentFrom (acc ++ String c EmptyString) rest
  end.

Definition lastSegment (s : string) : string := lastSegmentFrom EmptyString s.

(** [parts.join(sep)]. *)
Fixpoint join (sep : string) (parts : list string) : string :=
  match parts with
  | [] => EmptyString
  | [x] => x
  | x :: rest => x ++ sep ++ join sep rest
  end.

(** The double quote character. *)
Definition quote : string := String (ascii_of_nat 34) EmptyString.

End JSUnits.

(** The avatar file of a request: its name, its size in bytes and its MIME
    type. *)
Module Avatar.

Record t : Type := mk {
  name : string;
  size : Z;
  type : string
}.

End Avatar.

(** [CreateCharacterRequest]. *)
Module Request.

Record t : Type := mk {
  name : string;
  nickname : option string;
  gender : option string;
  likes : option string;
  dislikes : option string;
  habits : option string;
  background : option string;
  avatar : option Avatar.t
}.

End Request.

(** [CreateCharacterResponse]. *)
Module Response.

Record t : Type := mk {
  success : bool;
  characterId : option string;
  message : option string;
  error : option string
}.

End Response.

(** [RawCharacterData], as [createCharacter] fills it: the nested [data]
    first. *)
Module RawData.

(** The entries of a character book; [createCharacter] stores none. *)
Inductive BookEntry : Type := .

Record t : Type := mk {
  name : string;
  description : string;
  personality : string;
  first_mes : string;
  scenario : string;
  mes_example : string;
  creator_notes : string;
  system_prompt : string;
  post_history_instructions : string;
  tags : list string;
  creator : string;
  character_version : string;
  alternate_greetings : list string;
  character_book : list BookEntry
}.

End RawData.

Module Raw.

Record t : Type := mk {
  id : string;
  name : string;
  description : string;
  personality : string;
  first_mes : string;
  scenario : string;
  mes_example : string;
  creatorcomment : string;
  avatar : string;
  sample_status : string;
  data : RawData.t
}.

End Raw.

Module CharacterCreate.

Import JSUnits.

(** *** [validateCharacterData] *)

Record Validation : Type := mkValidation {
  isValid : bool;
  errors : list string
}.

(** [field && field.length > limit]. *)
Definition longer (field : option string) (limit : nat) : bool :=
  given field && (limit <? JSUnits.length (textOf field))%nat.

Definition allowedTypes : list string :=
  ["image/jpeg"; "image/jpg"; "image/png"; "image/gif"; "image/webp"].

(** [errors.push(msg)] when [b] holds. *)
Definition pushIf (b : bool) (msg : string) (errors : list string) : list string :=
  if b then (errors ++ [msg])%list else errors.

(** [validateCharacterData] (lines 141-190). *)
Definition validateCharacterData (characterData : Request.t) : Validation :=
  let errors := [] in
  let errors :=
    if negb (truthy (Request.name characterData))
       || negb (truthy (JSText.trim (Request.name characterData)))
    then (errors ++ ["角色姓名不能为空"])%list
    else if (50 <? JSUnits.length (JSText.trim (Request.name characterData)))%nat
         then (errors ++ ["角色姓名不能超过50个字符"])%list
         else errors in
  let errors := pushIf (longer (Request.nickname characterData) 30)
                  "昵称不能超过30个字符" errors in
  let errors := pushIf (longer (Request.likes characterData) 500)
                  "喜好描述不能超过500个字符" errors in
  let errors := pushIf (longer (Request.dislikes characterData) 500)
                  "厌恶描述不能超过500个字符" errors in
  let errors := pushIf (longer (Request.habits characterData) 500)
                  "习惯描述不能超过500个字符" errors in
  let errors := pushIf (longer (Request.background characterData) 1000)
                  "背景资料不能超过1000个字符" errors in
  let errors :=
    match Request.avatar characterData with
    | Some avatar =>
        let maxSize := (5 * 1024 * 1024)%Z in
        let errors := pushIf (maxSize <? Avatar.size avatar)%Z
                        "头像文件不能超过5MB" errors in
        pushIf (negb (existsb (String.eqb (Avatar.type avatar)) allowedTypes))
          "头像文件格式不支持，请使用 JPG、PNG、GIF 或 WebP 格式" errors
    | None => errors
    end in
  mkValidation (List.length errors =? 0)%nat errors.

(** The limits, stated directly. *)
Definition within (field : option string) (limit : nat) : Prop :=
  match field with
  | Some s => (JSUnits.length s <= limit)%nat
  | None => True
  end.

Definition avatarAccepted (avatar : option Avatar.t) : Prop :=
  match avatar with
  | Some a => (Avatar.size a <= 5242880)%Z /\ In (Avatar.type a) allowedTypes
  | None => True
  end.

(** *** [createCharacter] *)

Section Create.

(** What is stored: blobs and character records. *)
Variable Storage : Type.

(** [setBlob] of [@/lib/data/local-storage] and
    [LocalCharacterRecordOperations.createCharacter], which returns the
    record created, of which [createCharacter] reads the [id]. *)
Variable setBlob : string -> Avatar.t -> Storage -> Storage * (Thrown + unit).
Variable createRecord :
  string -> Raw.t -> string -> Storage -> Storage * (Thrown + string).

(** Calls that leave the function, in the order they are made. *)
Inductive Event : Type :=
| SetBlob (path : string) (avatar : Avatar.t)
| CreateRecord (characterId : string) (raw : Raw.t) (imagePath : string)
| ConsoleError (msg : string) (error : Thrown).

Record World : Type := mkWorld {
  storage : Storage;
  events : list Event
}.

Definition M (A : Type) : Type := World -> World * (Thrown + A).

Definition ret {A} (a : A) : M A := fun w => (w, inr a).

Definition bind {A B} (c : M A) (k : A -> M B) : M B :=
  fun w =>
    match c w with
    | (w', inr a) => k a w'
    | (w', inl e) => (w', inl e)
    end.

Definition tryCatch {A} (c : M A) (handler : Thrown -> M A) : M A :=
  fun w =>
    match c w with
    | (w', inr a) => (w', inr a)
    | (w', inl e) => handler e w'
    end.

Definition emit (ev : Event) : M unit :=
  fun w => (mkWorld (storage w) (events w ++ [ev]), inr tt).

Definition onStorage {A} (f : Storage -> Storage * (Thrown + A)) : M A :=
  fun w => let (st, r) := f (storage w) in (mkWorld st (events w), r).

(** [if (field) personalityParts.push(`label${field}`)]. *)
Definition part (label : string) (field : option string) : list string :=
  if given field then [label ++ textOf field] else [].

(** The parts of the personality, in their fixed order (lines 66-71). *)
Definition personalityParts (characterData : Request.t) : list string :=
  (part "性别：" (Request.gender characterData)
   ++ part "喜好：" (Request.likes characterData)
   ++ part "厌恶：" (Request.dislikes characterData)
   ++ part "习惯：" (Request.habits characterData)
   ++ part "背景：" (Request.background characterData))%list.

(** [error.message || fallback] on a caught value: a value that is not an
    [Error] is taken to have no [message].  Reading [message] of a thrown
    [null] or [undefined] would itself throw; such throws are not among the
    [Thrown] values. *)
Definition messageOr (error : Thrown) (fallback : string) : string :=
  match error with
  | ErrorObject (String c rest) => String c rest
  | _ => fallback
  end.

(** The record [createCharacter] builds (lines 73-111). *)
Definition rawCharacterData (characterId imagePath : string) (characterData : Request.t)
    : Raw.t :=
  let name := Request.name characterData in
  let nickname := Request.nickname characterData in
  let personality :=
    if (0 <? List.length (personalityParts characterData))%nat
    then join "；" (personalityParts characterData)
    else "一个有趣的角色" in
  let description :=
    if given nickname
    then "被称为" ++ quote ++ textOf nickname ++ quote ++ "的角色"
    else "名为" ++ name ++ "的角色" in
  let firstMessage :=
    "你好，我是" ++ name
      ++ (if given nickname then "，你可以叫我" ++ textOf nickname else "")
      ++ "！很高兴认识你！" in
  Raw.mk characterId (JSText.trim name) description personality firstMessage
    "日常对话场景" "" "用户自定义角色" imagePath "在线"
    (RawData.mk (JSText.trim name) description personality firstMessage
       "日常对话场景" "" "用户自定义角色"
       ("你是" ++ name
          ++ (if given nickname then "（" ++ textOf nickname ++ "）" else "")
          ++ "。"
          ++ (if truthy personality then "你的特点：" ++ personality ++ "。" else "")
          ++ "请根据这些特点来回复用户的消息，保持角色的一致性。")
       "" ["自定义"; "用户创建"] "用户" "1.0" [] []).

(** [createCharacter] (lines 45-133).  [now] is what [Date.now()] returns
    and [random] what [Math.random().toString(36).substr(2, 9)] gives. *)
Definition createCharacter (now : nat) (random : string) (characterData : Request.t)
    : M Response.t :=
  tryCatch
    (if negb (truthy (Request.name characterData))
        || negb (truthy (JSText.trim (Request.name characterData)))
     then ret (Response.mk false None None (Some "角色姓名不能为空"))
     else
       let characterId := "char_" ++ show now ++ "_" ++ random in
       bind
         (match Request.avatar characterData with
          | Some avatar =>
              let imagePath := characterId ++ "." ++ lastSegment (Avatar.name avatar) in
              bind (emit (SetBlob imagePath avatar)) (fun _ =>
              bind (onStorage (setBlob imagePath avatar)) (fun _ =>
              ret imagePath))
          | None => ret ""
          end)
         (fun imagePath =>
            let raw := rawCharacterData characterId imagePath characterData in
            bind (emit (CreateRecord characterId raw imagePath)) (fun _ =>
            bind (onStorage (createRecord characterId raw imagePath)) (fun recordId =>
            ret (Response.mk true (Some recordId) (Some "角色创建成功") None)))))
    (fun error =>
       bind (emit (ConsoleError "创建角色失败:" error)) (fun _ =>
       ret (Response.mk false None None
              (Some (messageOr error "创建角色时发生未知错误"))))).

End Create.

Arguments mkWorld {Storage}.
Arguments storage {Storage}.
Arguments events {Storage}.

End CharacterCreate.

(** ** [CreateCharacterModal] *)

Module CreateModal.

Import JSUnits.

(** [CharacterFormData]: the text fields are always strings. *)
Record FormData : Type := mkForm {
  name : string;
  nickname : string;
  gender : string;
  likes : string;
  dislikes : string;
  habits : string;
  background : string;
  avatar : option Avatar.t
}.

Definition emptyForm : FormData :=
  mkForm "" "" "" "" "" "" "" None.

(** The request [handleSubmit] builds from the form (lines 168-177). *)
Definition requestOf (formData : FormData) : Request.t :=
  Request.mk (name formData) (Some (nickname formData)) (Some (gender formData))
    (Some (likes formData)) (Some (dislikes formData)) (Some (habits formData))
    (Some (background formData)) (avatar formData).

Section Handlers.

Variable Storage : Type.
Variable setBlob : string -> Avatar.t -> Storage -> Storage * (Thrown + unit).
Variable createRecord :
  string -> Raw.t -> string -> Storage -> Storage * (Thrown + string).

(** What the [onSuccess] and [onClose] props do when called, and what a
    [FileReader] loads for a file, if it loads. *)
Variable onSuccess : Thrown + unit.
Variable onClose : Thrown + unit.
Variable readAsDataURL : Avatar.t -> option string.

(** Calls that leave the component. *)
Inductive UiCall : Type :=
| PreventDefault
| OnSuccess
| OnClose
| LogError (msg : string) (error : Thrown).

(** The React state of the modal, the value of the file input behind
    [fileInputRef] (if it is mounted), the world [createCharacter] works on
    and the trace of calls. *)
Record Modal : Type := mkModal {
  formData : FormData;
  avatarPreview : string;
  isLoading : bool;
  errorToast : bool * option string;
  fileInput : option string;
  world : CharacterCreate.World Storage;
  calls : list UiCall
}.

Definition M (A : Type) : Type := Modal -> Modal * (Thrown + A).

Definition ret {A} (a : A) : M A := fun s => (s, inr a).

Definition bind {A B} (c : M A) (k : A -> M B) : M B :=
  fun s =>
    match c s with
    | (s', inr a) => k a s'
    | (s', inl e) => (s', inl e)
    end.

Definition throw {A} (e : Thrown) : M A := fun s => (s, inl e).

Definition tryCatch {A} (c : M A) (handler : Thrown -> M A) : M A :=
  fun s =>
    match c s with
    | (s', inr a) => (s', inr a)
    | (s', inl e) => handler e s'
    end.

Definition tryFinally {A} (c : M A) (fin : M unit) : M A :=
  fun s =>
    match c s with
    | (s', r) =>
        match fin s' with
        | (s'', inr _) => (s'', r)
        | (s'', inl e) => (s'', inl e)
        end
    end.

Definition call (c : UiCall) : M unit :=
  fun s => (mkModal (formData s) (avatarPreview s) (isLoading s) (errorToast s)
                    (fileInput s) (world s) (calls s ++ [c]), inr tt).

(** A callback prop: the call is made, then it returns or throws. *)
Definition invoke (c : UiCall) (outcome : Thrown + unit) : M unit :=
  bind (call c) (fun _ => fun s => (s, outcome)).

Definition setFormData (f : FormData) : M unit :=
  fun s => (mkModal f (avatarPreview s) (isLoading s) (errorToast s)
                    (fileInput s) (world s) (calls s), inr tt).

Definition setAvatarPreview (url : string) : M unit :=
  fun s => (mkModal (formData s) url (isLoading s) (errorToast s)
                    (fileInput s) (world s) (calls s), inr tt).

Definition setIsLoading (b : bool) : M unit :=
  fun s => (mkModal (formData s) (avatarPreview s) b (errorToast s)
                    (fileInput s) (world s) (calls s), inr tt).

(** [showErrorToast] (lines 82-87). *)
Definition showErrorToast (message : option string) : M unit :=
  fun s => (mkModal (formData s) (avatarPreview s) (isLoading s) (true, message)
                    (fileInput s) (world s) (calls s), inr tt).

(** [if (fileInputRef.current) fileInputRef.current.value = ""]. *)
Definition clearFileInput : M unit :=
  fun s => (mkModal (formData s) (avatarPreview s) (isLoading s) (errorToast s)
                    (match fileInput s with Some _ => Some "" | None => None end)
                    (world s) (calls s), inr tt).

(** A function of the creation module run on the modal's world. *)
Definition onWorld {A} (c : CharacterCreate.M Storage A) : M A :=
  fun s =>
    let (w, r) := c (world s) in
    (mkModal (formData s) (avatarPreview s) (isLoading s) (errorToast s)
             (fileInput s) w (calls s), r).

(** [resetForm] (lines 147-161). *)
Definition resetForm : M unit :=
  bind (setFormData emptyForm) (fun _ =>
  bind (setAvatarPreview "") (fun _ =>
  clearFileInput)).

(** [handleAvatarUpload] (lines 105-132), for the files of the change
    event; the preview is set when the reader has loaded the file. *)
Definition handleAvatarUpload (files : list Avatar.t) : M unit :=
  match files with
  | [] => ret tt
  | file :: _ =>
      if negb (String.prefix "image/" (Avatar.type file)) then
        showErrorToast (Some "请选择图片文件")
      else if (5 * 1024 * 1024 <? Avatar.size file)%Z then
        showErrorToast (Some "图片文件不能超过5MB")
      else
        bind (fun s => setFormData
                         (mkForm (name (formData s)) (nickname (formData s))
                            (gender (formData s)) (likes (formData s))
                            (dislikes (formData s)) (habits (formData s))
                            (background (formData s)) (Some file)) s)
             (fun _ =>
        match readAsDataURL file with
        | Some url => setAvatarPreview url
        | None => ret tt
        end)
  end.

(** [response.error || fallback]. *)
Definition errorOr (error : option string) (fallback : string) : string :=
  match error with
  | Some (String c rest) => String c rest
  | _ => fallback
  end.

(** [handleSubmit] (lines 164-207), with what [Date.now()] and
    [Math.random().toString(36).substr(2, 9)] give inside [createCharacter]. *)
Definition handleSubmit (now : nat) (random : string) : M unit :=
  bind (call PreventDefault) (fun _ =>
  fun s =>
    let requestData := requestOf (formData s) in
    let validation := CharacterCreate.validateCharacterData requestData in
    (if negb (CharacterCreate.isValid validation) then
       showErrorToast (hd_error (CharacterCreate.errors validation))
     else
       bind (setIsLoading true) (fun _ =>
       tryFinally
         (tryCatch
            (bind (onWorld (CharacterCreate.createCharacter Storage setBlob createRecord
                              now random requestData)) (fun response =>
             if negb (Response.success response) then
               throw (ErrorObject (errorOr (Response.error response) "创建角色失败"))
             else
               bind resetForm (fun _ =>
               bind (invoke OnSuccess onSuccess) (fun _ =>
               invoke OnClose onClose))))
            (fun error =>
               bind (call (LogError "创建角色失败:" error)) (fun _ =>
               showErrorToast
                 (Some (CharacterCreate.messageOr error "创建角色失败，请重试")))))
         (setIsLoading false))) s).

(** [handleClose] (lines 210-215). *)
Definition handleClose : M unit :=
  fun s =>
    (if negb (isLoading s)
     then bind resetForm (fun _ => invoke OnClose onClose)
     else ret tt) s.

End Handlers.

Arguments mkModal {Storage}.
Arguments formData {Storage}.
Arguments avatarPreview {Storage}.
Arguments isLoading {Storage}.
Arguments errorToast {Storage}.
Arguments fileInput {Storage}.
Arguments world {Storage}.
Arguments calls {Storage}.

End CreateModal.

(** ** The character cards page: status of a character *)

Module CharacterCards.

(** A continuation byte of UTF-8. *)
Definition continuation (c : ascii) : bool :=
  (128 <=? nat_of_ascii c)%nat && (nat_of_ascii c <? 192)%nat.

(** [s.slice(-1)]: the last character of [s], or the empty string. *)
Fixpoint lastFrom (acc s : string) : string :=
  match s with
  | EmptyString => acc
  | String c rest =>
      if continuation c
      then lastFrom (acc ++ String c EmptyString) rest
      else lastFrom (String c EmptyString) rest
  end.

Definition sliceLast (s : string) : string := lastFrom EmptyString s.

(** [parseInt] of a string of at most one character: the digit's value, or
    [None] for [NaN]. *)
Definition parseIntOfChar (s : string) : option nat :=
  match s with
  | String c EmptyString =>
      let n := nat_of_ascii c in
      if (48 <=? n)%nat && (n <=? 57)%nat then Some (n - 48) else None
  | _ => None
  end.

Definition statusMessages : list string :=
  ["在线"; "最近活跃"; "忙碌中"; "离开"; "隐身"].

(** [getCharacterStatus] (lines 331-342), on the character's id:
    [statusMessages[NaN]] is [undefined]. *)
Definition getCharacterStatus (id : string) : option string :=
  match parseIntOfChar (sliceLast id) with
  | Some n => nth_error statusMessages (n mod List.length statusMessages)
  | None => None
  end.

(** [getStatusColor] (lines 344-353), on what [getCharacterStatus]
    returned. *)
Definition getStatusColor (status : option string) : string :=
  match status with
  | Some s =>
      if String.eqb s "在线" then "bg-green-500"
      else if String.eqb s "最近活跃" then "bg-yellow-500"
      else if String.eqb s "忙碌中" then "bg-red-500"
      else if String.eqb s "离开" then "bg-gray-500"
      else if String.eqb s "隐身" then "bg-gray-400"
      else "bg-gray-500"
  | None => "bg-gray-500"
  end.

(** The decimal digit [d] as a character. *)
Definition digit (d : nat) : string := String (ascii_of_nat (48 + d)) EmptyString.

End CharacterCards.

(** Further instances of the collaborators for concrete runs. *)
Module Scenario.

(** As [Demo.collaborators], with a parent callback that throws. *)
Definition throwingCallback : Collaborators Demo.Bundle Demo.Store := {|
  JSON_parse := Demo.parse;
  importRegexScriptFromJson := Demo.importFromJson;
  importFromGlobalRegexScript := Demo.importFromGlobal;
  importFromGlobalWorldBook := Demo.importFromGlobal;
  onImportSuccess := fun st => (st, inl (ErrorObject "reload failed"))
|}.

(** The world book import of the examples: the same merge as for regex
    scripts. *)
Definition worldBook : WorldBookImport Demo.Bundle Demo.Store := {|
  importWorldBookFromJson := Demo.importFromJson
|}.

(** A library whose items are listed by id; deleting an id that is not
    there returns without [success] and without a message.  Translations
    are the keys themselves. *)
Definition library : LibraryCollaborators string Demo.Store := {|
  listGlobalRegexScripts :=
    fun st => (st, inr (ListResult.mk true (map fst (Demo.library st))));
  deleteGlobalRegexScript :=
    fun id st =>
      match Demo.lookup id (Demo.library st) with
      | Some _ =>
          (Demo.mkStore (Demo.collections st)
             (filter (fun kb => negb (String.eqb (fst kb) id)) (Demo.library st)),
           inr (DeleteResult.mk true None))
      | None => (st, inr (DeleteResult.mk false None))
      end;
  t := fun key => key
|}.

(** The tab showing the one library item [g1], selected. *)
Definition p0 : LibraryTab.Panel string Demo.Store :=
  LibraryTab.mkPanel Demo.st0 ["g1"] "g1" false None [].

(** A storage that lists what was written, newest first. *)
Definition Storage : Type := list string.

Definition setBlob (path : string) (_ : Avatar.t) (st : Storage)
    : Storage * (Thrown + unit) :=
  (path :: st, inr tt).

(** A blob store that is full. *)
Definition fullBlobs (_ : string) (_ : Avatar.t) (st : Storage)
    : Storage * (Thrown + unit) :=
  (st, inl (ErrorObject "quota exceeded")).

Definition createRecord (id : string) (_ : Raw.t) (_ : string) (st : Storage)
    : Storage * (Thrown + string) :=
  (id :: st, inr id).

Definition w0 : CharacterCreate.World Storage := CharacterCreate.mkWorld [] [].

Definition portrait : Avatar.t := Avatar.mk "alice.v2.png" 1024 "image/png".

Definition alice : Request.t :=
  Request.mk " Alice " None None None None None None (Some portrait).

Definition blank : Request.t :=
  Request.mk "   " None None None None None None None.

Definition aliceForm : CreateModal.FormData :=
  CreateModal.mkForm "Alice" "" "" "" "" "" "" (Some portrait).

Definition blankForm : CreateModal.FormData :=
  CreateModal.mkForm "  " "" "" "" "" "" "" None.

(** The modal with a form typed in and its file input mounted. *)
Definition modalOf (form : CreateModal.FormData) : CreateModal.Modal Storage :=
  CreateModal.mkModal form "data:image/png;base64," false (false, None)
    (Some "alice.v2.png") w0 [].

End Scenario.

(** * Properties of the batch import *)

(** Runs the monad's combinators on the machine at hand. *)
Ltac step_monad :=
  unfold bind, ret, await, call, setIsImporting, setImportResult, getLocals,
    modifyLocals, onStore, when, tryCatch, tryFinally in *; simpl in *.

Section BatchFacts.

Context {JSON Store : Type} {env : Collaborators JSON Store}.

Variable characterId : string.
Variable saveAsGlobalChecked : bool.

Import RegexModal.

Lemma locals_eq a b c d e a' b' c' d' e' :
  a = a' -> b = b' -> c = c' -> d = d' -> e = e' ->
  Locals.mk a b c d e = Locals.mk a' b' c' d' e'.
Proof. intros; subst; reflexivity. Qed.

(** One iteration never throws; it leaves the store of [sourceOutcome] and
    the local variables of [record]. *)
Lemma processFile_run (file : File) (m : Machine JSON Store) :
  processFile characterId saveAsGlobalChecked file m =
  (mkMachine
     (fst (sourceOutcome characterId saveAsGlobalChecked file (store m)))
     (isImporting m) (importResult m)
     (trace m ++ callsOf characterId saveAsGlobalChecked file)
     (record (file, snd (sourceOutcome characterId saveAsGlobalChecked file (store m)))
             (locals m)),
   inr tt).
Proof.
  unfold processFile, tryBody, catchSource, pushResultErrors, sourceOutcome, callsOf,
    record, errorsOf, resultErrors, importedOf, skippedOf, succeeded.
  destruct m as [st imp res tr [ti ts ae sf ff]].
  step_monad.
  destruct (text file) as [e | t]; simpl.
  - f_equal. f_equal; [now rewrite app_nil_r |].
    apply locals_eq; simpl; rewrite ?Z.add_0_r, ?app_nil_r; reflexivity.
  - destruct (JSON_parse t) as [e | jsonData]; simpl.
    + f_equal. f_equal; [now rewrite app_nil_r |].
      apply locals_eq; simpl; rewrite ?Z.add_0_r, ?app_nil_r; reflexivity.
    + destruct (importRegexScriptFromJson characterId jsonData
                  (optionsFor saveAsGlobalChecked file) st) as [st' [e | result]]; simpl.
      * f_equal. f_equal.
        apply locals_eq; simpl; rewrite ?Z.add_0_r, ?app_nil_r; reflexivity.
      * destruct (success result); simpl;
          destruct (errors result) as [[| err errs] |]; simpl;
          f_equal; f_equal; apply locals_eq; simpl;
          rewrite ?Z.add_0_r, ?app_nil_r, <- ?app_assoc; reflexivity.
Qed.

(** The loop never throws; it runs the sources in input order. *)
Lemma forEach_run (jsonFiles : list File) (m : Machine JSON Store) :
  forEach (processFile characterId saveAsGlobalChecked) jsonFiles m =
  (mkMachine
     (storeAfter characterId saveAsGlobalChecked jsonFiles (store m))
     (isImporting m) (importResult m)
     (trace m ++ flat_map (callsOf characterId saveAsGlobalChecked) jsonFiles)
     (fold_left (fun l fo => record fo l)
        (outcomes characterId saveAsGlobalChecked jsonFiles (store m)) (locals m)),
   inr tt).
Proof.
  revert m; induction jsonFiles as [| file rest IH]; intros m.
  - destruct m; simpl; unfold ret; simpl; now rewrite app_nil_r.
  - simpl. unfold bind. rewrite processFile_run, IH. simpl.
    destruct (sourceOutcome characterId saveAsGlobalChecked file (store m)) as [st' o].
    simpl. now rewrite <- app_assoc.
Qed.

Lemma outcomes_files (jsonFiles : list File) (st : Store) :
  map fst (outcomes characterId saveAsGlobalChecked jsonFiles st) = jsonFiles.
Proof.
  revert st; induction jsonFiles as [| file rest IH]; intros st; simpl; [reflexivity |].
  destruct (sourceOutcome characterId saveAsGlobalChecked file st) as [st' o].
  simpl. now rewrite IH.
Qed.

(** The local variables after a run of sources, field by field. *)
Lemma record_all (os : list (File * Outcome)) (l : Locals.t) :
  fold_left (fun l fo => record fo l) os l =
  Locals.mk
    (Locals.totalImported l + sumZ (map importedOf (filter succeeded os)))
    (Locals.totalSkipped l + sumZ (map skippedOf (filter succeeded os)))
    (Locals.allErrors l ++ flat_map errorsOf os)
    (Locals.successfulFiles l ++ map (fun fo => name (fst fo)) (filter succeeded os))
    (Locals.failedFiles l ++ map (fun fo => name (fst fo)) (filter failed os)).
Proof.
  revert l; induction os as [| [file o] os IH]; intros [ti ts ae sf ff]; simpl.
  - apply locals_eq; rewrite ?Z.add_0_r, ?app_nil_r; reflexivity.
  - rewrite IH. unfold record, failed; simpl.
    unfold importedOf, skippedOf, succeeded.
    destruct o; simpl; apply locals_eq;
      rewrite ?Z.add_0_r, ?app_nil_r, <- ?app_assoc, <- ?Z.add_assoc; reflexivity.
Qed.

(** After the prologue the handler runs its two [try] blocks from
    [enter files m]. *)
Lemma handleFilesSelect_enter (files : list File) (m : Machine JSON Store) :
  jsonFilesOf files <> [] ->
  handleFilesSelect characterId saveAsGlobalChecked files m =
  tryFinally
    (tryCatch (batchBody characterId saveAsGlobalChecked (jsonFilesOf files)) catchBatch)
    (setIsImporting false)
    (enter files m).
Proof.
  intros Hne. unfold handleFilesSelect, enter.
  destruct (jsonFilesOf files) as [| f fs] eqn:E; [congruence |].
  replace (List.length (f :: fs) =? 0)%nat with false by reflexivity.
  destruct m as [st imp res tr l].
  destruct (List.length (f :: fs) =? List.length files)%nat; simpl;
    unfold bind at 1; simpl; rewrite ?app_nil_r; reflexivity.
Qed.

(** The outer [try] and [catch] once the loop has run: nothing is thrown
    further, a report is set, and it is [finalResult] unless the parent's
    callback threw. *)
Lemma conclude_run (jsonFiles : list File) (m1 : Machine JSON Store) :
  let out := tryCatch (conclude jsonFiles) catchBatch m1 in
  snd out = inr tt
  /\ locals (fst out) = locals m1
  /\ isImporting (fst out) = isImporting m1
  /\ (importResult (fst out) = Some (finalResult jsonFiles (locals m1))
      \/ exists e, importResult (fst out) = Some (batchFailure e))
  /\ (CallbackReturns ->
      importResult (fst out) = Some (finalResult jsonFiles (locals m1))).
Proof.
  cbv zeta. unfold conclude, catchBatch, batchFailure. step_monad.
  destruct (0 <? List.length (Locals.successfulFiles (locals m1)))%nat; simpl.
  - destruct (0 <? List.length (Locals.failedFiles (locals m1)))%nat; simpl;
      (destruct (onImportSuccess (store m1)) as [st' [e | []]] eqn:E; simpl;
       repeat split; eauto;
       intros Hcb; specialize (Hcb (store m1)); rewrite E in Hcb; discriminate).
  - repeat split; eauto.
Qed.

(** The trace is write-only: the outer [try] and [catch] do the same from
    two machines that differ in their traces only. *)
Lemma conclude_trace_irrelevant (jsonFiles : list File) (m1 : Machine JSON Store)
    (tr : list (Call JSON)) :
  let out := tryCatch (conclude jsonFiles) catchBatch m1 in
  let out' := tryCatch (conclude jsonFiles) catchBatch
                (mkMachine (store m1) (isImporting m1) (importResult m1) tr (locals m1)) in
  store (fst out') = store (fst out)
  /\ importResult (fst out') = importResult (fst out)
  /\ locals (fst out') = locals (fst out).
Proof.
  cbv zeta. unfold conclude, catchBatch. step_monad.
  destruct (0 <? List.length (Locals.successfulFiles (locals m1)))%nat; simpl.
  - destruct (0 <? List.length (Locals.failedFiles (locals m1)))%nat; simpl;
      (destruct (onImportSuccess (store m1)) as [st' [e | []]]; simpl; auto).
  - auto.
Qed.

Lemma batchBody_loop (jsonFiles : list File) (m : Machine JSON Store) :
  tryCatch (batchBody characterId saveAsGlobalChecked jsonFiles) catchBatch m =
  tryCatch (conclude jsonFiles) catchBatch
    (fst (forEach (processFile characterId saveAsGlobalChecked) jsonFiles m)).
Proof.
  unfold batchBody, tryCatch, bind at 1. now rewrite forEach_run.
Qed.

(** The handler on a selection with at least one JSON file. *)
Lemma handleFilesSelect_run (files : list File) (m : Machine JSON Store) :
  jsonFilesOf files <> [] ->
  let out := handleFilesSelect characterId saveAsGlobalChecked files m in
  snd out = inr tt
  /\ isImporting (fst out) = false
  /\ (importResult (fst out) = Some (batchReport characterId saveAsGlobalChecked files m)
      \/ exists e, importResult (fst out) = Some (batchFailure e))
  /\ (CallbackReturns ->
      importResult (fst out) = Some (batchReport characterId saveAsGlobalChecked files m)).
Proof.
  intros Hne. cbv zeta. rewrite (handleFilesSelect_enter files m Hne).
  unfold tryFinally. rewrite batchBody_loop.
  set (m1 := fst (forEach _ _ _)).
  destruct (conclude_run (jsonFilesOf files) m1) as (Hs & Hl & Hi & Hr & Hcb).
  destruct (tryCatch _ _ m1) as [m2 o]. simpl in *. subst o.
  unfold setIsImporting; simpl. repeat split; auto.
Qed.

(** The report in terms of the sources' outcomes. *)
Lemma batchReport_outcomes (files : list File) (m : Machine JSON Store) :
  let os := outcomes characterId saveAsGlobalChecked (jsonFilesOf files) (store m) in
  batchReport characterId saveAsGlobalChecked files m =
  mkImportResult
    (0 <? List.length (filter succeeded os))%nat
    ("Processed " ++ show (List.length (jsonFilesOf files)) ++ " files: "
       ++ show (List.length (filter succeeded os)) ++ " successful, "
       ++ show (List.length (filter failed os)) ++ " failed")
    (sumZ (map importedOf (filter succeeded os)))
    (sumZ (map skippedOf (filter succeeded os)))
    (Some (flat_map errorsOf os))
    (Some (map (fun fo => name (fst fo)) (filter succeeded os)))
    (Some (map (fun fo => name (fst fo)) (filter failed os))).
Proof.
  cbv zeta. unfold batchReport, finalResult.
  rewrite forEach_run. cbn [fst locals]. rewrite record_all.
  unfold enter; cbn [store Locals.initial Locals.totalImported Locals.totalSkipped
    Locals.allErrors Locals.successfulFiles Locals.failedFiles].
  rewrite !app_nil_l, !length_map, !Z.add_0_l. reflexivity.
Qed.

Lemma forEach_app (pre post : list File) (m : Machine JSON Store) :
  forEach (processFile characterId saveAsGlobalChecked) (pre ++ post) m =
  forEach (processFile characterId saveAsGlobalChecked) post
    (afterSources characterId saveAsGlobalChecked pre m).
Proof.
  unfold afterSources. revert m; induction pre as [| f pre IH]; intros m; simpl.
  - reflexivity.
  - unfold bind. rewrite processFile_run. cbn [fst]. apply IH.
Qed.

(** A source that throws has outcome [Threw]. *)
Lemma SourceThrows_outcome (file : File) (st : Store) (e : Thrown) :
  SourceThrows characterId saveAsGlobalChecked file st e ->
  snd (sourceOutcome characterId saveAsGlobalChecked file st) = Threw e.
Proof.
  unfold SourceThrows, sourceOutcome.
  intros [H | [(t & Ht & Hp) | (t & j & Ht & Hp & Hi)]].
  - now rewrite H.
  - now rewrite Ht, Hp.
  - rewrite Ht, Hp.
    destruct (importRegexScriptFromJson characterId j _ st) as [st' [e' | r]];
      simpl in *; congruence.
Qed.

Lemma prefix_append (s t : string) : String.prefix s (s ++ t) = true.
Proof.
  induction s as [| c s IH]; simpl; [now destruct t |].
  destruct (ascii_dec c c); [exact IH | congruence].
Qed.

Lemma some_filtered {A} (f : A -> bool) (l : list A) :
  (0 <? List.length (filter f l))%nat = true <-> exists x, In x l /\ f x = true.
Proof.
  rewrite Nat.ltb_lt. split.
  - destruct (filter f l) as [| x xs] eqn:E; simpl; [lia |].
    intros _. exists x. apply filter_In. rewrite E. now left.
  - intros (x & Hx). apply filter_In in Hx.
    destruct (filter f l); simpl in *; [tauto | lia].
Qed.


Lemma sumZ_failed_nothing (g : File * Outcome -> Z) (os : list (File * Outcome)) :
  (forall fo, succeeded fo = false -> g fo = 0%Z) ->
  sumZ (map g os) = sumZ (map g (filter succeeded os)).
Proof.
  intros Hg. induction os as [| fo os IH]; simpl; [reflexivity |].
  destruct (succeeded fo) eqn:E; simpl; rewrite IH; [reflexivity |].
  now rewrite (Hg fo E).
Qed.

(** C1: a source that fails by throwing (its text cannot be read,
    [JSON.parse] throws, or the import function throws) does not leave its
    iteration: the iteration returns normally, the file's name is appended to
    [failedFiles], one message that starts with the file's name is appended
    to [allErrors], the successes and the totals stay as they were, and the
    loop goes on with every remaining source, so the whole loop returns
    normally with both entries still in place. *)
Theorem failure_isolated_per_source
    (pre post : list File) (file : File) (m : Machine JSON Store) (e : Thrown) :
  SourceThrows characterId saveAsGlobalChecked file
    (store (afterSources characterId saveAsGlobalChecked pre m)) e ->
  let m1 := afterSources characterId saveAsGlobalChecked pre m in
  let m2 := fst (processFile characterId saveAsGlobalChecked file m1) in
  let final := afterSources characterId saveAsGlobalChecked (pre ++ file :: post) m in
  let msg := name file ++ ": Failed to parse - " ++ errorMessage e in
  snd (processFile characterId saveAsGlobalChecked file m1) = inr tt
  /\ Locals.failedFiles (locals m2) = (Locals.failedFiles (locals m1) ++ [name file])%list
  /\ Locals.allErrors (locals m2) = (Locals.allErrors (locals m1) ++ [msg])%list
  /\ Locals.successfulFiles (locals m2) = Locals.successfulFiles (locals m1)
  /\ Locals.totalImported (locals m2) = Locals.totalImported (locals m1)
  /\ Locals.totalSkipped (locals m2) = Locals.totalSkipped (locals m1)
  /\ forEach (processFile characterId saveAsGlobalChecked) (pre ++ file :: post) m =
     forEach (processFile characterId saveAsGlobalChecked) post m2
  /\ snd (forEach (processFile characterId saveAsGlobalChecked) (pre ++ file :: post) m)
     = inr tt
  /\ In (name file) (Locals.failedFiles (locals final))
  /\ In msg (Locals.allErrors (locals final))
  /\ String.prefix (name file) msg = true.
Proof.
  intros Hthrow. cbv zeta.
  apply SourceThrows_outcome in Hthrow.
  set (m1 := afterSources characterId saveAsGlobalChecked pre m) in *.
  assert (Hloop :
    forEach (processFile characterId saveAsGlobalChecked) (pre ++ file :: post) m =
    forEach (processFile characterId saveAsGlobalChecked) post
      (fst (processFile characterId saveAsGlobalChecked file m1))).
  { rewrite forEach_app. fold m1. simpl. unfold bind.
    rewrite processFile_run. reflexivity. }
  unfold afterSources at 1 2. rewrite Hloop.
  rewrite processFile_run. cbn [fst snd locals]. rewrite Hthrow.
  rewrite forEach_run. cbn [fst snd locals]. rewrite record_all.
  unfold record, importedOf, skippedOf, errorsOf, succeeded.
  cbn [fst snd Locals.failedFiles Locals.allErrors Locals.successfulFiles
       Locals.totalImported Locals.totalSkipped].
  rewrite !Z.add_0_r, !app_nil_r.
  repeat split; try reflexivity.
  - apply in_or_app; left. apply in_or_app; right. now left.
  - apply in_or_app; left. apply in_or_app; right. now left.
  - apply prefix_append.
Qed.

(** C6: once the import function has returned a report for a source, the
    list the source's name goes to is decided by the report's [success] flag
    alone: [successfulFiles] when it is set, whatever [importedCount] and
    [skippedCount] are (zero imported included), [failedFiles] when it is
    not. *)
Theorem success_flag_alone_classifies
    (file : File) (m : Machine JSON Store)
    (t : string) (jsonData : JSON) (st' : Store) (result : ImportResult) :
  text file = inr t ->
  JSON_parse t = inr jsonData ->
  importRegexScriptFromJson characterId jsonData
    (optionsFor saveAsGlobalChecked file) (store m) = (st', inr result) ->
  let m' := fst (processFile characterId saveAsGlobalChecked file m) in
  Locals.successfulFiles (locals m') =
    (Locals.successfulFiles (locals m) ++ (if success result then [name file] else []))%list
  /\ Locals.failedFiles (locals m') =
    (Locals.failedFiles (locals m) ++ (if success result then [] else [name file]))%list.
Proof.
  intros Ht Hp Hi. cbv zeta. rewrite processFile_run. cbn [fst locals].
  unfold sourceOutcome. rewrite Ht, Hp, Hi. unfold record, succeeded.
  cbn [fst snd Locals.successfulFiles Locals.failedFiles].
  destruct (success result); auto.
Qed.

(** C2: the report a batch builds ([finalResult], which the handler hands
    to [setImportResult] and which stays set when the parent's callback
    returns normally) has [success] set exactly when at least one source
    succeeded, and its message gives the number of JSON files processed, the
    number of sources that succeeded and the number that failed. *)
Theorem batch_success_and_message (files : list File) (m : Machine JSON Store) :
  jsonFilesOf files <> [] ->
  let os := outcomes characterId saveAsGlobalChecked (jsonFilesOf files) (store m) in
  let r := batchReport characterId saveAsGlobalChecked files m in
  (CallbackReturns ->
   importResult (fst (handleFilesSelect characterId saveAsGlobalChecked files m)) = Some r)
  /\ (success r = true <-> exists fo, In fo os /\ succeeded fo = true)
  /\ message r =
       "Processed " ++ show (List.length (jsonFilesOf files)) ++ " files: "
         ++ show (List.length (filter succeeded os)) ++ " successful, "
         ++ show (List.length (filter failed os)) ++ " failed"
  /\ List.length os = List.length (jsonFilesOf files).
Proof.
  intros Hne. cbv zeta.
  destruct (handleFilesSelect_run files m Hne) as (_ & _ & _ & Hr).
  split; [exact Hr |].
  rewrite batchReport_outcomes. cbn [success message].
  split; [apply some_filtered |]. split; [reflexivity |].
  rewrite <- (outcomes_files (jsonFilesOf files) (store m)) at 2.
  now rewrite length_map.
Qed.

(** C4: the counts of the report a batch builds are the sums of the
    per-source [importedCount] and [skippedCount] over the sources that
    succeeded; a source that failed adds zero to both. *)
Theorem batch_counts_are_sums (files : list File) (m : Machine JSON Store) :
  jsonFilesOf files <> [] ->
  let os := outcomes characterId saveAsGlobalChecked (jsonFilesOf files) (store m) in
  let r := batchReport characterId saveAsGlobalChecked files m in
  (CallbackReturns ->
   importResult (fst (handleFilesSelect characterId saveAsGlobalChecked files m)) = Some r)
  /\ importedCount r = sumZ (map importedOf (filter succeeded os))
  /\ skippedCount r = sumZ (map skippedOf (filter succeeded os))
  /\ importedCount r = sumZ (map importedOf os)
  /\ skippedCount r = sumZ (map skippedOf os)
  /\ (forall fo, In fo os -> failed fo = true ->
        importedOf fo = 0%Z /\ skippedOf fo = 0%Z)
  /\ (forall file result, In (file, Succeeded result) os ->
        importedOf (file, Succeeded result) = importedCount result
        /\ skippedOf (file, Succeeded result) = skippedCount result).
Proof.
  intros Hne. cbv zeta.
  destruct (handleFilesSelect_run files m Hne) as (_ & _ & _ & Hr).
  split; [exact Hr |].
  rewrite batchReport_outcomes. cbn [importedCount skippedCount].
  assert (Hi : forall fo : File * Outcome, succeeded fo = false -> importedOf fo = 0%Z).
  { intros [f o]; unfold succeeded, importedOf; simpl; destruct o; congruence. }
  assert (Hs : forall fo : File * Outcome, succeeded fo = false -> skippedOf fo = 0%Z).
  { intros [f o]; unfold succeeded, skippedOf; simpl; destruct o; congruence. }
  repeat split; auto.
  - symmetry. now apply sumZ_failed_nothing.
  - symmetry. now apply sumZ_failed_nothing.
  - apply Hi. unfold failed in *. now destruct (succeeded fo).
  - apply Hs. unfold failed in *. now destruct (succeeded fo).
Qed.

(** C7: a selection with at least one JSON file never makes the handler
    throw, whatever the sources do (unreadable text, malformed JSON, an
    import function that throws or rejects): the loop returns normally, the
    handler returns normally with [isImporting] reset, and a report with its
    [errors] has been set; when the parent's callback returns normally that
    report is the batch report, with its counts, errors and both file
    lists. *)
Theorem batch_never_throws (files : list File) (m : Machine JSON Store) :
  jsonFilesOf files <> [] ->
  let out := handleFilesSelect characterId saveAsGlobalChecked files m in
  snd out = inr tt
  /\ snd (forEach (processFile characterId saveAsGlobalChecked) (jsonFilesOf files)
            (enter files m)) = inr tt
  /\ isImporting (fst out) = false
  /\ (exists r errs, importResult (fst out) = Some r /\ errors r = Some errs)
  /\ (CallbackReturns ->
      exists r errs sf ff,
        importResult (fst out) = Some r
        /\ r = batchReport characterId saveAsGlobalChecked files m
        /\ errors r = Some errs
        /\ successfulFiles r = Some sf
        /\ failedFiles r = Some ff).
Proof.
  intros Hne. cbv zeta.
  destruct (handleFilesSelect_run files m Hne) as (Hs & Hi & Hr & Hcb).
  split; [exact Hs |]. split; [now rewrite forEach_run |]. split; [exact Hi |].
  split.
  - destruct Hr as [Hr | [e Hr]]; rewrite Hr; do 2 eexists; split; reflexivity.
  - intros H. rewrite (Hcb H). do 4 eexists.
    split; [reflexivity |]. split; [reflexivity |].
    unfold batchReport, finalResult; simpl. repeat split; reflexivity.
Qed.

(** C8: the sources are run one after the other in input order, each
    against the store its predecessor left ([outcomes]), and the three
    lists of the report keep that order: [successfulFiles] and
    [failedFiles] are the names of the sources that succeeded and failed, in
    input order, and [errors] is the concatenation of the sources' messages
    in input order; the calls to the import function appear in the trace in
    input order as well. *)
Theorem batch_lists_in_input_order (files : list File) (m : Machine JSON Store) :
  jsonFilesOf files <> [] ->
  let os := outcomes characterId saveAsGlobalChecked (jsonFilesOf files) (store m) in
  let r := batchReport characterId saveAsGlobalChecked files m in
  (CallbackReturns ->
   importResult (fst (handleFilesSelect characterId saveAsGlobalChecked files m)) = Some r)
  /\ map fst os = jsonFilesOf files
  /\ successfulFiles r = Some (map (fun fo => name (fst fo)) (filter succeeded os))
  /\ failedFiles r = Some (map (fun fo => name (fst fo)) (filter failed os))
  /\ errors r = Some (flat_map errorsOf os)
  /\ trace (afterSources characterId saveAsGlobalChecked (jsonFilesOf files)
              (enter files m)) =
     (trace (enter files m)
        ++ flat_map (callsOf characterId saveAsGlobalChecked) (jsonFilesOf files))%list.
Proof.
  intros Hne. cbv zeta.
  destruct (handleFilesSelect_run files m Hne) as (_ & _ & _ & Hr).
  split; [exact Hr |].
  rewrite batchReport_outcomes. cbn [successfulFiles failedFiles errors].
  split; [apply outcomes_files |].
  repeat split. unfold afterSources. now rewrite forEach_run.
Qed.


Lemma jsonFilesOf_idempotent (files : list File) :
  jsonFilesOf (jsonFilesOf files) = jsonFilesOf files.
Proof.
  unfold jsonFilesOf. induction files as [| f files IH]; simpl; [reflexivity |].
  destruct (includes (type f) "json") eqn:E; simpl; [| exact IH].
  now rewrite E, IH.
Qed.

(** The trace is write-only for the whole of the two [try] blocks. *)
Lemma batch_trace_irrelevant (jsonFiles : list File) (m : Machine JSON Store)
    (tr : list (Call JSON)) :
  let run := tryFinally
               (tryCatch (batchBody characterId saveAsGlobalChecked jsonFiles) catchBatch)
               (setIsImporting false) in
  let m' := mkMachine (store m) (isImporting m) (importResult m) tr (locals m) in
  store (fst (run m')) = store (fst (run m))
  /\ importResult (fst (run m')) = importResult (fst (run m))
  /\ locals (fst (run m')) = locals (fst (run m)).
Proof.
  cbv zeta. unfold tryFinally. rewrite !batchBody_loop, !forEach_run.
  cbn [fst store isImporting importResult locals trace].
  set (m1 := mkMachine _ _ _ (trace m ++ _) _).
  pose proof (conclude_trace_irrelevant jsonFiles m1
    (tr ++ flat_map (callsOf characterId saveAsGlobalChecked) jsonFiles)) as Hirr.
  cbv zeta in Hirr. subst m1. cbn [store isImporting importResult locals] in Hirr.
  do 2 destruct (tryCatch _ _ _) as [? ?].
  unfold setIsImporting; simpl in *. exact Hirr.
Qed.

(** C10: files whose MIME type does not contain "json" take no part in a
    batch.  When no selected file is a JSON file the handler only shows a
    toast: no import function is called, and the store, the local variables
    and [importResult] are left as they were.  In general the store and the
    report the handler leaves are those it leaves for the JSON files alone,
    and every name in [successfulFiles] or [failedFiles] is the name of a
    selected file whose MIME type contains "json". *)
Theorem non_json_files_take_no_part (files : list File) (m : Machine JSON Store) :
  let out := handleFilesSelect characterId saveAsGlobalChecked files m in
  let out' := handleFilesSelect characterId saveAsGlobalChecked (jsonFilesOf files) m in
  (jsonFilesOf files = [] ->
     out = (mkMachine (store m) (isImporting m) (importResult m)
              (trace m ++ [ToastError "Please select at least one JSON file"])
              (locals m), inr tt))
  /\ store (fst out) = store (fst out')
  /\ importResult (fst out) = importResult (fst out')
  /\ locals (fst out) = locals (fst out')
  /\ (jsonFilesOf files <> [] ->
      forall r n,
        importResult (fst out) = Some r ->
        InOpt n (successfulFiles r) \/ InOpt n (failedFiles r) ->
        exists f, In f files /\ includes (type f) "json" = true /\ name f = n).
Proof.
  cbv zeta. split.
  { intros E. unfold handleFilesSelect. rewrite E. reflexivity. }
  assert (Hsame :
    store (fst (handleFilesSelect characterId saveAsGlobalChecked files m)) =
      store (fst (handleFilesSelect characterId saveAsGlobalChecked (jsonFilesOf files) m))
    /\ importResult (fst (handleFilesSelect characterId saveAsGlobalChecked files m)) =
      importResult
        (fst (handleFilesSelect characterId saveAsGlobalChecked (jsonFilesOf files) m))
    /\ locals (fst (handleFilesSelect characterId saveAsGlobalChecked files m)) =
      locals (fst (handleFilesSelect characterId saveAsGlobalChecked (jsonFilesOf files) m))).
  { destruct (jsonFilesOf files) as [| f fs] eqn:E.
    - unfold handleFilesSelect. simpl. rewrite E. auto.
    - rewrite <- E. assert (Hne : jsonFilesOf files <> []) by congruence.
      rewrite (handleFilesSelect_enter files m Hne).
      rewrite (handleFilesSelect_enter (jsonFilesOf files) m)
        by (now rewrite jsonFilesOf_idempotent).
      rewrite jsonFilesOf_idempotent.
      apply (batch_trace_irrelevant (jsonFilesOf files)
               (enter (jsonFilesOf files) m) (trace (enter files m))). }
  destruct Hsame as (Hst & Hres & Hloc).
  repeat (split; [assumption |]).
  intros Hne r n Hr Hin.
  destruct (handleFilesSelect_run files m Hne) as (_ & _ & [Hb | [e Hb]] & _);
    rewrite Hb in Hr; injection Hr as <-.
  - rewrite batchReport_outcomes in Hin. cbn [successfulFiles failedFiles InOpt] in Hin.
    assert (Hfo : exists fo,
              In fo (outcomes characterId saveAsGlobalChecked (jsonFilesOf files) (store m))
              /\ name (fst fo) = n).
    { destruct Hin as [Hin | Hin]; apply in_map_iff in Hin as (fo & Hn & Hfo);
        apply filter_In in Hfo as [Hfo _]; eauto. }
    destruct Hfo as (fo & Hfo & Hn).
    apply (in_map fst) in Hfo. rewrite outcomes_files in Hfo.
    apply filter_In in Hfo as [Hf Hj]. eauto.
  - simpl in Hin. tauto.
Qed.

End BatchFacts.

(** * Properties of the import from the global library *)

Section GlobalImportFacts.

Context {JSON Store : Type} {env : Collaborators JSON Store}.

Variable characterId : string.
Variable selectedGlobalId : string.

(** C3, as the code has it: when the library import succeeds, the report
    either modal sets is a single-source one, without [successfulFiles] and
    [failedFiles]; it carries the library's message and [importedCount], and
    its [skippedCount] is the constant 0 and its [errors] the empty list,
    whatever the library reported. *)
Theorem import_from_global_report
    (m : Machine JSON Store) (st' : Store) (result : ImportResult) :
  selectedGlobalId <> "" ->
  success result = true ->
  (importFromGlobalRegexScript characterId selectedGlobalId (store m) = (st', inr result) ->
   let out := RegexModal.handleImportFromGlobal characterId selectedGlobalId m in
   snd out = inr tt
   /\ importResult (fst out) = Some (globalReport result))
  /\ (importFromGlobalWorldBook characterId selectedGlobalId (store m) = (st', inr result) ->
     let out := WorldBookModal.handleImportFromGlobal characterId selectedGlobalId m in
     snd out = inr tt
     /\ importResult (fst out) = Some (globalReport result))
  /\ successfulFiles (globalReport result) = None
  /\ failedFiles (globalReport result) = None
  /\ importedCount (globalReport result) = importedCount result
  /\ skippedCount (globalReport result) = 0%Z
  /\ errors (globalReport result) = Some [].
Proof.
  intros Hsel Hok.
  assert (Hlen : (String.length selectedGlobalId =? 0)%nat = false).
  { destruct selectedGlobalId; [congruence | reflexivity]. }
  split; [| split; [| repeat split]].
  - intros Hi. cbv zeta.
    unfold RegexModal.handleImportFromGlobal, globalReport.
    rewrite Hlen. step_monad. rewrite Hi. simpl. rewrite Hok. simpl.
    destruct (onImportSuccess st') as [st'' [e | []]]; simpl; auto.
  - intros Hi. cbv zeta.
    unfold WorldBookModal.handleImportFromGlobal, globalReport.
    rewrite Hlen. step_monad. rewrite Hi. simpl. rewrite Hok. simpl.
    destruct (onImportSuccess st') as [st'' [e | []]]; simpl; auto.
Qed.

End GlobalImportFacts.

(** * Properties of the merge step *)

Section MergeFacts.

Context {Entry : Type}.

Variable identityKey : Entry -> string.

Import Merge.

Lemma hasKey_app (k : string) (c1 c2 : list Entry) :
  hasKey identityKey k (c1 ++ c2) = hasKey identityKey k c1 || hasKey identityKey k c2.
Proof. unfold hasKey. apply existsb_app. Qed.

Lemma hasKey_In (k : string) (c : list Entry) :
  hasKey identityKey k c = true <-> In k (map identityKey c).
Proof.
  unfold hasKey. rewrite existsb_exists, in_map_iff.
  split; intros (e & H1 & H2); exists e.
  - apply String.eqb_eq in H2. tauto.
  - split; [tauto |]. apply String.eqb_eq. tauto.
Qed.

Lemma hasKey_seen (k : string) (c : list Entry) :
  hasKey identityKey k c = existsb (String.eqb k) (map identityKey c).
Proof.
  unfold hasKey. induction c as [| e c IH]; simpl; [reflexivity |].
  now rewrite IH, String.eqb_sym.
Qed.

(** What a pass over [incoming] does to an accumulator. *)
Lemma fold_step (incoming : list Entry) (acc : Result) :
  let r := fold_left (step identityKey) incoming acc in
  (exists added,
      updated r = (updated acc ++ added)%list
      /\ importedCount r = (importedCount acc + Z.of_nat (List.length added))%Z
      /\ incl added incoming)
  /\ (importedCount r + skippedCount r =
       importedCount acc + skippedCount acc + Z.of_nat (List.length incoming))%Z
  /\ perEntryErrors r = perEntryErrors acc
  /\ (forall e, In e incoming -> hasKey identityKey (identityKey e) (updated r) = true)
  /\ (NoDup (map identityKey (updated acc)) -> NoDup (map identityKey (updated r))).
Proof.
  revert acc; induction incoming as [| e rest IH]; intros acc; cbv zeta; simpl.
  - split; [exists []; rewrite app_nil_r; simpl; repeat split; [lia | apply incl_refl] |].
    repeat split; try lia; tauto.
  - specialize (IH (step identityKey acc e)). cbv zeta in IH.
    destruct IH as ((added & Hu & Hi & Hincl) & Hsum & Herr & Hkeys & Hnd).
    unfold step in *.
    destruct (hasKey identityKey (identityKey e) (updated acc)) eqn:Hk; simpl in *.
    + split; [exists added; repeat split; auto using incl_tl |].
      split; [lia |]. split; [exact Herr |]. split; [| exact Hnd].
      intros e' [<- | Hin]; [| now apply Hkeys].
      rewrite Hu, hasKey_app, Hk. reflexivity.
    + split.
      { exists (e :: added). rewrite Hu, <- app_assoc. simpl.
        repeat split; [lia |]. apply incl_cons; [now left | now apply incl_tl]. }
      split; [lia |]. split; [exact Herr |]. split.
      * intros e' [<- | Hin]; [| now apply Hkeys].
        rewrite Hu, !hasKey_app. simpl. rewrite String.eqb_refl.
        now rewrite orb_true_r.
      * intros Hnd0. apply Hnd. rewrite map_app. simpl.
        apply NoDup_app; [exact Hnd0 | repeat constructor; simpl; tauto |].
        intros k Hin1 [<- | []].
        apply hasKey_In in Hin1. congruence.
Qed.

(** A pass in which every key is already present skips every entry. *)
Lemma fold_all_skipped (incoming : list Entry) (acc : Result) :
  (forall e, In e incoming -> hasKey identityKey (identityKey e) (updated acc) = true) ->
  fold_left (step identityKey) incoming acc =
  mkResult (updated acc) (importedCount acc)
           (skippedCount acc + Z.of_nat (List.length incoming)) (perEntryErrors acc).
Proof.
  revert acc; induction incoming as [| e rest IH]; intros acc Hall.
  - destruct acc; simpl. now rewrite Z.add_0_r.
  - cbn [fold_left]. unfold step at 2. rewrite (Hall e) by now left.
    rewrite IH by (intros e' He'; apply Hall; now right).
    cbn [updated importedCount skippedCount perEntryErrors List.length].
    f_equal. lia.
Qed.

(** The skip count is the number of collisions. *)
Lemma fold_collisions (incoming : list Entry) (acc : Result) (seen : list string) :
  (forall k, hasKey identityKey k (updated acc) = existsb (String.eqb k) seen) ->
  skippedCount (fold_left (step identityKey) incoming acc) =
  (skippedCount acc + Z.of_nat (collisions identityKey seen incoming))%Z.
Proof.
  revert acc seen; induction incoming as [| e rest IH]; intros acc seen Hseen.
  - simpl. lia.
  - cbn [fold_left collisions].
    rewrite (IH (step identityKey acc e) (identityKey e :: seen)).
    + unfold step. rewrite <- Hseen.
      destruct (hasKey identityKey (identityKey e) (updated acc)); simpl; lia.
    + intros k. unfold step.
      destruct (hasKey identityKey (identityKey e) (updated acc)) eqn:Hk; simpl.
      * rewrite Hseen.
        destruct (String.eqb k (identityKey e)) eqn:Ek; [| reflexivity].
        apply String.eqb_eq in Ek; subst k. rewrite <- Hseen, Hk. reflexivity.
      * rewrite hasKey_app, Hseen. simpl. rewrite orb_false_r.
        rewrite (String.eqb_sym (identityKey e) k). apply orb_comm.
Qed.

(** The keys a pass leaves are those it found and those of the entries it
    went over. *)
Lemma fold_keys (incoming : list Entry) (acc : Result) (k : string) :
  hasKey identityKey k (updated (fold_left (step identityKey) incoming acc)) = true <->
  In k (map identityKey (updated acc ++ incoming)).
Proof.
  destruct (fold_step incoming acc) as ((added & Hu & _ & Hincl) & _ & _ & Hkeys & _).
  rewrite Hu, hasKey_app, orb_true_iff, !hasKey_In, map_app, in_app_iff.
  split; intros [H | H]; auto.
  - right. apply in_map_iff in H as (e & <- & He). apply in_map, Hincl, He.
  - apply in_map_iff in H as (e & <- & He).
    specialize (Hkeys e He). rewrite Hu, hasKey_app, orb_true_iff, !hasKey_In in Hkeys.
    exact Hkeys.
Qed.

(** C5: the merge step of the specification appends and never overwrites:
    the updated collection is the existing one followed by the accepted
    entries; every incoming entry is either imported or skipped and none
    raises an error; the skip count is the number of entries whose key is in
    the existing collection or came earlier in the bundle; merging the same
    bundle a second time imports nothing and skips all N entries, leaving the
    collection as it is; and keys that were unique stay unique.  Which
    entries are accepted is fixed entry by entry: an entry whose key is in
    the existing collection or is carried by an entry before it in the
    bundle is skipped (the collection stays as the entries before it left
    it and the skip count goes up by one), any other entry is appended and
    counted as imported, and what the entries up to it leave stays in place
    at the front of the final collection.  So the first occurrence of a key
    wins. *)
Theorem merge_skips_duplicates (existing incoming : list Entry) :
  let r := merge identityKey existing incoming in
  let r2 := merge identityKey (updated r) incoming in
  (exists added,
      updated r = (existing ++ added)%list
      /\ importedCount r = Z.of_nat (List.length added)
      /\ incl added incoming)
  /\ (importedCount r + skippedCount r = Z.of_nat (List.length incoming))%Z
  /\ skippedCount r =
       Z.of_nat (collisions identityKey (map identityKey existing) incoming)
  /\ perEntryErrors r = []
  /\ importedCount r2 = 0%Z
  /\ skippedCount r2 = Z.of_nat (List.length incoming)
  /\ updated r2 = updated r
  /\ perEntryErrors r2 = []
  /\ (NoDup (map identityKey existing) -> NoDup (map identityKey (updated r)))
  /\ (forall pre entry post,
        incoming = (pre ++ entry :: post)%list ->
        let before := merge identityKey existing pre in
        let after := merge identityKey existing (pre ++ [entry]) in
        (In (identityKey entry) (map identityKey (existing ++ pre)) ->
         updated after = updated before
         /\ importedCount after = importedCount before
         /\ skippedCount after = (skippedCount before + 1)%Z)
        /\ (~ In (identityKey entry) (map identityKey (existing ++ pre)) ->
            updated after = (updated before ++ [entry])%list
            /\ importedCount after = (importedCount before + 1)%Z
            /\ skippedCount after = skippedCount before)
        /\ exists later,
             updated r = (updated after ++ later)%list /\ incl later post).
Proof.
  cbv zeta. unfold merge.
  destruct (fold_step incoming (mkResult existing 0 0 []))
    as ((added & Hu & Hi & Hincl) & Hsum & Herr & Hkeys & Hnd).
  cbn [updated importedCount skippedCount perEntryErrors] in *.
  split; [exists added; repeat split; auto; lia |].
  split; [lia |]. split.
  { rewrite (fold_collisions incoming _ (map identityKey existing)); [simpl; lia |].
    intros k. cbn [updated]. apply hasKey_seen. }
  split; [exact Herr |].
  rewrite (fold_all_skipped incoming) by exact Hkeys.
  cbn [updated importedCount skippedCount perEntryErrors].
  do 4 (split; [auto |]). split; [exact Hnd |].
  intros pre entry post ->.
  pose proof (fold_keys pre (mkResult existing 0 0 []) (identityKey entry)) as Hk.
  cbn [updated] in Hk.
  rewrite !fold_left_app. cbn [fold_left].
  set (before := fold_left (step identityKey) pre (mkResult existing 0 0 [])) in *.
  split; [| split].
  - intros Hin. apply Hk in Hin. unfold step. rewrite Hin. cbn. auto.
  - intros Hnot. unfold step.
    destruct (hasKey identityKey (identityKey entry) (updated before)) eqn:E.
    + exfalso. apply Hnot, Hk. reflexivity.
    + cbn. auto.
  - destruct (fold_step post (step identityKey before entry))
      as ((later & Hlater & _ & Hin) & _).
    exists later. split; [exact Hlater | exact Hin].
Qed.

End MergeFacts.

(** * The theorems on concrete selections *)

(** The batch over [Demo.selection], for character [c1] who already holds
    entry [a]. *)
Example selection_run :
  importResult (fst (RegexModal.handleFilesSelect "c1" false Demo.selection Demo.m0)) =
  Some (mkImportResult true "Processed 4 files: 2 successful, 2 failed" 2 2
          (Some ["two.json: Failed to parse - Unexpected token ! in JSON";
                 "four.json: Invalid format";
                 "four.json: missing required field"])
          (Some ["one.json"; "three.json"])
          (Some ["two.json"; "four.json"])).
Proof. reflexivity. Qed.

Lemma failure_isolated_per_source_witness :
  RegexModal.SourceThrows "c1" false Demo.two
    (store (RegexModal.afterSources "c1" false [Demo.one] Demo.m0))
    (ErrorObject "Unexpected token ! in JSON")
  /\ snd (forEach (RegexModal.processFile "c1" false)
            ([Demo.one] ++ Demo.two :: [Demo.three; Demo.four]) Demo.m0) = inr tt
  /\ In "two.json"
       (Locals.failedFiles
          (locals (RegexModal.afterSources "c1" false
                     ([Demo.one] ++ Demo.two :: [Demo.three; Demo.four]) Demo.m0)))
  /\ In "two.json: Failed to parse - Unexpected token ! in JSON"
       (Locals.allErrors
          (locals (RegexModal.afterSources "c1" false
                     ([Demo.one] ++ Demo.two :: [Demo.three; Demo.four]) Demo.m0))).
Proof.
  assert (H : RegexModal.SourceThrows "c1" false Demo.two
                (store (RegexModal.afterSources "c1" false [Demo.one] Demo.m0))
                (ErrorObject "Unexpected token ! in JSON")).
  { right; left. exists "x!". split; reflexivity. }
  split; [exact H |].
  pose proof (failure_isolated_per_source "c1" false [Demo.one] [Demo.three; Demo.four]
                Demo.two Demo.m0 (ErrorObject "Unexpected token ! in JSON") H) as T.
  cbv zeta in T.
  destruct T as (_ & _ & _ & _ & _ & _ & _ & Hret & Hff & Herr & _).
  split; [exact Hret |]. split; [exact Hff | exact Herr].
Defined.

Lemma batch_success_and_message_witness :
  RegexModal.jsonFilesOf Demo.selection <> []
  /\ @RegexModal.CallbackReturns Demo.Bundle Demo.Store Demo.collaborators
  /\ exists r,
       importResult (fst (RegexModal.handleFilesSelect "c1" false Demo.selection Demo.m0))
         = Some r
       /\ success r = true
       /\ message r = "Processed 4 files: 2 successful, 2 failed".
Proof.
  assert (Hne : RegexModal.jsonFilesOf Demo.selection <> []) by (simpl; discriminate).
  assert (Hcb : @RegexModal.CallbackReturns Demo.Bundle Demo.Store Demo.collaborators)
    by (intros st; reflexivity).
  split; [exact Hne |]. split; [exact Hcb |].
  pose proof (batch_success_and_message "c1" false Demo.selection Demo.m0 Hne) as T.
  cbv zeta in T. destruct T as (Hr & Hs & Hm & _).
  eexists. split; [exact (Hr Hcb) |]. split.
  - apply Hs. exists (Demo.one, RegexModal.Succeeded
                        (mkImportResult true "Import complete" 1 1 (Some []) None None)).
    split; [simpl; now left | reflexivity].
  - rewrite Hm. reflexivity.
Defined.

Lemma batch_counts_are_sums_witness :
  RegexModal.jsonFilesOf Demo.selection <> []
  /\ @RegexModal.CallbackReturns Demo.Bundle Demo.Store Demo.collaborators
  /\ exists r,
       importResult (fst (RegexModal.handleFilesSelect "c1" false Demo.selection Demo.m0))
         = Some r
       /\ importedCount r = 2%Z
       /\ skippedCount r = 2%Z.
Proof.
  assert (Hne : RegexModal.jsonFilesOf Demo.selection <> []) by (simpl; discriminate).
  assert (Hcb : @RegexModal.CallbackReturns Demo.Bundle Demo.Store Demo.collaborators)
    by (intros st; reflexivity).
  split; [exact Hne |]. split; [exact Hcb |].
  pose proof (batch_counts_are_sums "c1" false Demo.selection Demo.m0 Hne) as T.
  cbv zeta in T. destruct T as (Hr & Hi & Hs & _).
  eexists. split; [exact (Hr Hcb) |]. split.
  - rewrite Hi. reflexivity.
  - rewrite Hs. reflexivity.
Defined.

Lemma success_flag_alone_classifies_witness :
  text Demo.dup = inr "a"
  /\ Demo.parse "a" = inr [("a", "")]
  /\ Demo.importFromJson "c1" [("a", "")] None Demo.st0 =
       (Demo.mkStore [("c1", [("a", "")])] [("g1", [("a", ""); ("b", "")])],
        inr (mkImportResult true "Import complete" 0 1 (Some []) None None))
  /\ Locals.successfulFiles
       (locals (fst (RegexModal.processFile "c1" false Demo.dup Demo.m0))) = ["dup.json"]
  /\ Locals.failedFiles
       (locals (fst (RegexModal.processFile "c1" false Demo.dup Demo.m0))) = [].
Proof.
  split; [reflexivity |]. split; [reflexivity |]. split; [reflexivity |].
  exact (success_flag_alone_classifies "c1" false Demo.dup Demo.m0 "a" [("a", "")]
           (Demo.mkStore [("c1", [("a", "")])] [("g1", [("a", ""); ("b", "")])])
           (mkImportResult true "Import complete" 0 1 (Some []) None None)
           eq_refl eq_refl eq_refl).
Defined.

Lemma batch_never_throws_witness :
  RegexModal.jsonFilesOf [Demo.two; Demo.notes; Demo.four] <> []
  /\ snd (RegexModal.handleFilesSelect "c1" true [Demo.two; Demo.notes; Demo.four] Demo.m0)
     = inr tt
  /\ exists r errs,
       importResult
         (fst (RegexModal.handleFilesSelect "c1" true [Demo.two; Demo.notes; Demo.four]
                 Demo.m0)) = Some r
       /\ errors r = Some errs.
Proof.
  assert (Hne : RegexModal.jsonFilesOf [Demo.two; Demo.notes; Demo.four] <> [])
    by (simpl; discriminate).
  split; [exact Hne |].
  pose proof (batch_never_throws "c1" true [Demo.two; Demo.notes; Demo.four] Demo.m0 Hne)
    as T.
  cbv zeta in T. destruct T as (Hret & _ & _ & Hrep & _).
  split; [exact Hret | exact Hrep].
Defined.

Lemma batch_lists_in_input_order_witness :
  RegexModal.jsonFilesOf Demo.selection <> []
  /\ @RegexModal.CallbackReturns Demo.Bundle Demo.Store Demo.collaborators
  /\ exists r,
       importResult (fst (RegexModal.handleFilesSelect "c1" false Demo.selection Demo.m0))
         = Some r
       /\ successfulFiles r = Some ["one.json"; "three.json"]
       /\ failedFiles r = Some ["two.json"; "four.json"]
       /\ errors r = Some ["two.json: Failed to parse - Unexpected token ! in JSON";
                           "four.json: Invalid format";
                           "four.json: missing required field"].
Proof.
  assert (Hne : RegexModal.jsonFilesOf Demo.selection <> []) by (simpl; discriminate).
  assert (Hcb : @RegexModal.CallbackReturns Demo.Bundle Demo.Store Demo.collaborators)
    by (intros st; reflexivity).
  split; [exact Hne |]. split; [exact Hcb |].
  pose proof (batch_lists_in_input_order "c1" false Demo.selection Demo.m0 Hne) as T.
  cbv zeta in T. destruct T as (Hr & _ & Hsf & Hff & Herr & _).
  eexists. split; [exact (Hr Hcb) |].
  split; [rewrite Hsf; reflexivity |].
  split; [rewrite Hff; reflexivity | rewrite Herr; reflexivity].
Defined.


Lemma non_json_files_take_no_part_witness :
  RegexModal.jsonFilesOf [Demo.notes] = []
  /\ RegexModal.handleFilesSelect "c1" false [Demo.notes] Demo.m0 =
     (mkMachine Demo.st0 false None
        [ToastError "Please select at least one JSON file"] Locals.initial, inr tt).
Proof.
  split; [reflexivity |].
  pose proof (non_json_files_take_no_part "c1" false [Demo.notes] Demo.m0) as T.
  cbv zeta in T. destruct T as (Hnone & _).
  exact (Hnone eq_refl).
Defined.

Lemma import_from_global_report_witness :
  "g1" <> ""
  /\ importResult (fst (RegexModal.handleImportFromGlobal "c1" "g1" Demo.m0)) =
       Some (mkImportResult true "Import complete" 1 0 (Some []) None None)
  /\ importResult (fst (WorldBookModal.handleImportFromGlobal "c1" "g1" Demo.m0)) =
       Some (mkImportResult true "Import complete" 1 0 (Some []) None None).
Proof.
  assert (Hsel : "g1" <> "") by discriminate.
  split; [exact Hsel |].
  pose proof (import_from_global_report "c1" "g1" Demo.m0
                (Demo.mkStore [("c1", [("a", ""); ("b", "")])]
                              [("g1", [("a", ""); ("b", "")])])
                (mkImportResult true "Import complete" 1 1 (Some []) None None)
                Hsel eq_refl) as T.
  cbv zeta in T. destruct T as (Hregex & Hworld & _).
  split; [exact (proj2 (Hregex eq_refl)) | exact (proj2 (Hworld eq_refl))].
Defined.

(** C3, as stated, fails: character [c1] already holds entry [a], library
    item [g1] holds [a] and [b]; the library import succeeds and reports one
    imported entry and one skipped by dedup, and the report the modal sets
    says that none was skipped. *)
Lemma import_from_global_drops_skipped :
  exists result r,
    snd (Demo.importFromGlobal "c1" "g1" Demo.st0) = inr result
    /\ success result = true
    /\ skippedCount result =
         Merge.skippedCount
           (Merge.merge fst (Demo.collectionOf "c1" Demo.st0) [("a", ""); ("b", "")])
    /\ skippedCount result = 1%Z
    /\ importResult (fst (RegexModal.handleImportFromGlobal "c1" "g1" Demo.m0)) = Some r
    /\ skippedCount r = 0%Z
    /\ skippedCount r <> skippedCount result.
Proof.
  exists (mkImportResult true "Import complete" 1 1 (Some []) None None),
    (mkImportResult true "Import complete" 1 0 (Some []) None None).
  repeat split; discriminate.
Defined.

Lemma merge_skips_duplicates_witness :
  NoDup (map fst [("a", "")])
  /\ Merge.updated (Merge.merge fst [("a", "")] [("a", "x"); ("b", ""); ("b", "y")]) =
       [("a", ""); ("b", "")]
  /\ NoDup (map fst
              (Merge.updated
                 (Merge.merge fst [("a", "")] [("a", "x"); ("b", ""); ("b", "y")])))
  /\ Merge.skippedCount
       (Merge.merge fst
          (Merge.updated (Merge.merge fst [("a", "")] [("a", "x"); ("b", ""); ("b", "y")]))
          [("a", "x"); ("b", ""); ("b", "y")]) = 3%Z
  /\ Merge.updated (Merge.merge fst [("a", "")] [("a", "x"); ("b", ""); ("b", "y")]) =
       Merge.updated (Merge.merge fst [("a", "")] [("a", "x"); ("b", "")])
  /\ Merge.updated (Merge.merge fst [("a", "")] [("a", "x"); ("b", "")]) =
       (Merge.updated (Merge.merge fst [("a", "")] [("a", "x")]) ++ [("b", "")])%list.
Proof.
  assert (Hnd : NoDup (map (@fst string string) [("a", "")]))
    by (repeat constructor; simpl; tauto).
  split; [exact Hnd |]. split; [reflexivity |].
  pose proof (merge_skips_duplicates (@fst string string) [("a", "")]
                [("a", "x"); ("b", ""); ("b", "y")]) as T.
  cbv zeta in T. destruct T as (_ & _ & _ & _ & _ & Hsk & _ & _ & Hkeep & Hfirst).
  split; [exact (Hkeep Hnd) |]. split; [exact Hsk |]. split.
  - destruct (Hfirst [("a", "x"); ("b", "")] ("b", "y") [] eq_refl) as (Hskip & _ & _).
    apply Hskip. simpl. tauto.
  - destruct (Hfirst [("a", "x")] ("b", "") [("b", "y")] eq_refl) as (_ & Hadd & _).
    apply Hadd. simpl. intros [H | [H | []]]; discriminate.
Defined.

(** * Further properties of [ImportRegexScriptModal]'s batch import *)

Section BatchMore.

Context {JSON Store : Type} {env : Collaborators JSON Store}.

Variable characterId : string.
Variable saveAsGlobalChecked : bool.

Import RegexModal.

(** What the outer [try] and [catch] leave, case by case. *)
Lemma conclude_cases (jsonFiles : list File) (m1 : Machine JSON Store) :
  let r := finalResult jsonFiles (locals m1) in
  let out := tryCatch (conclude jsonFiles) catchBatch m1 in
  snd out = inr tt
  /\ (success r = false ->
      store (fst out) = store m1
      /\ importResult (fst out) = Some r
      /\ trace (fst out) =
           (trace m1 ++ [ToastError ("Failed to import from all "
                                      ++ show (List.length jsonFiles) ++ " files")])%list)
  /\ (success r = true ->
      store (fst out) = fst (onImportSuccess (store m1))
      /\ exists toast,
           (snd (onImportSuccess (store m1)) = inr tt ->
            importResult (fst out) = Some r
            /\ trace (fst out) = (trace m1 ++ [ToastSuccess toast; OnImportSuccess])%list)
           /\ (forall e, snd (onImportSuccess (store m1)) = inl e ->
                importResult (fst out) = Some (batchFailure e)
                /\ trace (fst out) =
                     (trace m1 ++ [ToastSuccess toast; OnImportSuccess;
                                   ToastError ("Batch import failed: " ++ errorMessage e)])%list)).
Proof.
  cbv zeta. unfold conclude, catchBatch, batchFailure. step_monad.
  destruct (0 <? List.length (Locals.successfulFiles (locals m1)))%nat; simpl.
  - split; [| split; [discriminate |]].
    + destruct (0 <? List.length (Locals.failedFiles (locals m1)))%nat; simpl;
        destruct (onImportSuccess (store m1)) as [st' [e | []]]; reflexivity.
    + intros _.
      destruct (0 <? List.length (Locals.failedFiles (locals m1)))%nat; simpl;
        (destruct (onImportSuccess (store m1)) as [st' [e | []]]; simpl;
         (split; [reflexivity |]); eexists;
         (split;
          [ intros H; try discriminate; rewrite <- ?app_assoc; split; reflexivity
          | intros e0 H; try discriminate; injection H as <-;
            rewrite <- ?app_assoc; split; reflexivity ])).
  - split; [reflexivity |]. split; [intros _; repeat split | discriminate].
Qed.

(** The handler on a selection with a JSON file, case by case. *)
Lemma handleFilesSelect_cases (files : list File) (m : Machine JSON Store) :
  jsonFilesOf files <> [] ->
  let js := jsonFilesOf files in
  let r := batchReport characterId saveAsGlobalChecked files m in
  let st1 := storeAfter characterId saveAsGlobalChecked js (store m) in
  let tr1 := (trace (enter files m)
                ++ flat_map (callsOf characterId saveAsGlobalChecked) js)%list in
  let out := handleFilesSelect characterId saveAsGlobalChecked files m in
  snd out = inr tt
  /\ (success r = false ->
      store (fst out) = st1
      /\ importResult (fst out) = Some r
      /\ trace (fst out) =
           (tr1 ++ [ToastError ("Failed to import from all "
                                 ++ show (List.length js) ++ " files")])%list)
  /\ (success r = true ->
      store (fst out) = fst (onImportSuccess st1)
      /\ exists toast,
           (snd (onImportSuccess st1) = inr tt ->
            importResult (fst out) = Some r
            /\ trace (fst out) = (tr1 ++ [ToastSuccess toast; OnImportSuccess])%list)
           /\ (forall e, snd (onImportSuccess st1) = inl e ->
                importResult (fst out) = Some (batchFailure e)
                /\ trace (fst out) =
                     (tr1 ++ [ToastSuccess toast; OnImportSuccess;
                              ToastError ("Batch import failed: " ++ errorMessage e)])%list)).
Proof.
  intros Hne. cbv zeta. rewrite (handleFilesSelect_enter _ _ files m Hne).
  unfold tryFinally. rewrite batchBody_loop.
  unfold batchReport.
  set (m1 := fst (forEach _ _ _)).
  assert (Hst : store m1 =
                storeAfter characterId saveAsGlobalChecked (jsonFilesOf files) (store m)).
  { subst m1. now rewrite forEach_run. }
  assert (Htr : trace m1 =
                (trace (enter files m)
                   ++ flat_map (callsOf characterId saveAsGlobalChecked)
                        (jsonFilesOf files))%list).
  { subst m1. now rewrite forEach_run. }
  rewrite <- Hst, <- Htr.
  destruct (conclude_cases (jsonFilesOf files) m1) as (Hs & Hf & Ht).
  destruct (tryCatch _ _ m1) as [m2 o]. simpl in *. subst o.
  unfold setIsImporting; simpl. auto.
Qed.

Lemma success_existsb (files : list File) (m : Machine JSON Store) :
  success (batchReport characterId saveAsGlobalChecked files m) =
  existsb succeeded
    (outcomes characterId saveAsGlobalChecked (jsonFilesOf files) (store m)).
Proof.
  rewrite batchReport_outcomes. cbn [success].
  induction (outcomes _ _ _ _) as [| fo os IH]; simpl; [reflexivity |].
  destruct (succeeded fo); simpl; [reflexivity | exact IH].
Qed.

Lemma callsOf_kind (file : File) :
  filter isCallback (callsOf characterId saveAsGlobalChecked file) = []
  /\ filter isImportCall (callsOf characterId saveAsGlobalChecked file) =
     callsOf characterId saveAsGlobalChecked file
  /\ (List.length (callsOf characterId saveAsGlobalChecked file) <= 1)%nat.
Proof.
  unfold callsOf. destruct (text file) as [e | t]; simpl; auto.
  destruct (JSON_parse t); simpl; auto.
Qed.

Lemma calls_kind (jsonFiles : list File) :
  filter isCallback (flat_map (callsOf characterId saveAsGlobalChecked) jsonFiles) = []
  /\ filter isImportCall (flat_map (callsOf characterId saveAsGlobalChecked) jsonFiles) =
     flat_map (callsOf characterId saveAsGlobalChecked) jsonFiles
  /\ (List.length (flat_map (callsOf characterId saveAsGlobalChecked) jsonFiles)
      <= List.length jsonFiles)%nat.
Proof.
  induction jsonFiles as [| f fs (IH1 & IH2 & IH3)]; simpl; [auto |].
  destruct (callsOf_kind f) as (H1 & H2 & H3).
  rewrite !filter_app, H1, H2, IH1, IH2, length_app. repeat split; auto. lia.
Qed.

(** X1: the parent's [onImportSuccess] callback is invoked exactly once when
    at least one source of the batch succeeded and not at all otherwise, and
    the import function is called at most once per JSON file and never for
    any other file: with no JSON file it is not called at all. *)
Theorem callback_once_iff_a_source_succeeded (files : list File) (m : Machine JSON Store) :
  let os := outcomes characterId saveAsGlobalChecked (jsonFilesOf files) (store m) in
  let out := handleFilesSelect characterId saveAsGlobalChecked files m in
  exists new,
    trace (fst out) = (trace m ++ new)%list
    /\ List.length (filter isCallback new) = (if existsb succeeded os then 1 else 0)%nat
    /\ filter isImportCall new =
         flat_map (callsOf characterId saveAsGlobalChecked) (jsonFilesOf files)
    /\ (List.length (filter isImportCall new) <= List.length (jsonFilesOf files))%nat.
Proof.
  cbv zeta.
  destruct (jsonFilesOf files) as [| f fs] eqn:E.
  { unfold handleFilesSelect. rewrite E. simpl.
    eexists; split; [reflexivity |]. simpl. auto. }
  rewrite <- E. assert (Hne : jsonFilesOf files <> []) by congruence.
  destruct (handleFilesSelect_cases files m Hne) as (_ & Hf & Ht). cbv zeta in Hf, Ht.
  rewrite <- success_existsb.
  destruct (calls_kind (jsonFilesOf files)) as (Hc1 & Hc2 & Hc3).
  assert (Henter : exists pre,
            trace (enter files m) = (trace m ++ pre)%list
            /\ filter isCallback pre = [] /\ filter isImportCall pre = []).
  { unfold enter; simpl.
    destruct (List.length (jsonFilesOf files) =? List.length files)%nat;
      eexists; split; try reflexivity; simpl; auto. }
  destruct Henter as (pre & Hpre & Hp1 & Hp2). rewrite Hpre in Hf, Ht.
  destruct (success (batchReport characterId saveAsGlobalChecked files m)) eqn:Hs.
  - destruct (Ht eq_refl) as (_ & toast & Hret & Hthrow).
    destruct (snd (onImportSuccess
                (storeAfter characterId saveAsGlobalChecked (jsonFilesOf files) (store m))))
      as [e | []] eqn:Hcb.
    + destruct (Hthrow e eq_refl) as (_ & Htr). rewrite Htr, <- !app_assoc.
      eexists; split; [reflexivity |].
      rewrite !filter_app, Hp1, Hp2, Hc1, Hc2. simpl. rewrite app_nil_r. auto.
    + destruct (Hret eq_refl) as (_ & Htr). rewrite Htr, <- !app_assoc.
      eexists; split; [reflexivity |].
      rewrite !filter_app, Hp1, Hp2, Hc1, Hc2. simpl. rewrite app_nil_r. auto.
  - destruct (Hf eq_refl) as (_ & _ & Htr). rewrite Htr, <- !app_assoc.
    eexists; split; [reflexivity |].
    rewrite !filter_app, Hp1, Hp2, Hc1, Hc2. simpl. rewrite app_nil_r. auto.
Qed.

(** X2: when every source of a batch fails, the handler still returns
    normally and sets a report with [success] unset and both counts zero,
    whose [failedFiles] has one entry per JSON file; the parent's callback
    is not invoked, the last call is the error toast, and the store is the
    one the failed imports left. *)
Theorem batch_of_failures (files : list File) (m : Machine JSON Store) :
  jsonFilesOf files <> [] ->
  (forall fo,
      In fo (outcomes characterId saveAsGlobalChecked (jsonFilesOf files) (store m)) ->
      failed fo = true) ->
  let out := handleFilesSelect characterId saveAsGlobalChecked files m in
  exists r ff pre,
    snd out = inr tt
    /\ importResult (fst out) = Some r
    /\ success r = false
    /\ importedCount r = 0%Z
    /\ skippedCount r = 0%Z
    /\ successfulFiles r = Some []
    /\ failedFiles r = Some ff
    /\ ff = map name (jsonFilesOf files)
    /\ store (fst out) =
         storeAfter characterId saveAsGlobalChecked (jsonFilesOf files) (store m)
    /\ trace (fst out) =
         (pre ++ [ToastError ("Failed to import from all "
                               ++ show (List.length (jsonFilesOf files)) ++ " files")])%list
    /\ filter isCallback pre = filter isCallback (trace m).
Proof.
  intros Hne Hall. cbv zeta.
  destruct (handleFilesSelect_cases files m Hne) as (Hret & Hf & _). cbv zeta in Hf.
  set (os := outcomes characterId saveAsGlobalChecked (jsonFilesOf files) (store m)) in *.
  assert (Hnone : filter succeeded os = []).
  { induction os as [| fo os IH]; simpl; [reflexivity |].
    assert (failed fo = true) as Hfo by (apply Hall; now left).
    unfold failed in Hfo. destruct (succeeded fo); [discriminate |].
    apply IH. intros fo' Hin. apply Hall. now right. }
  assert (Hevery : filter failed os = os).
  { induction os as [| fo os IH]; simpl; [reflexivity |].
    rewrite (Hall fo) by now left.
    f_equal. apply IH.
    - intros fo' Hin. apply Hall. now right.
    - simpl in Hnone. destruct (succeeded fo); [discriminate | exact Hnone]. }
  pose proof (batchReport_outcomes characterId saveAsGlobalChecked files m) as Hrep. cbv zeta in Hrep. fold os in Hrep.
  rewrite Hnone, Hevery in Hrep. simpl in Hrep.
  assert (Hs : success (batchReport characterId saveAsGlobalChecked files m) = false)
    by (rewrite Hrep; reflexivity).
  destruct (Hf Hs) as (Hst & Hres & Htr).
  exists (batchReport characterId saveAsGlobalChecked files m),
    (map name (jsonFilesOf files)),
    (trace (enter files m)
       ++ flat_map (callsOf characterId saveAsGlobalChecked) (jsonFilesOf files))%list.
  split; [exact Hret |]. split; [exact Hres |].
  rewrite Hrep. cbn [success importedCount skippedCount successfulFiles failedFiles].
  repeat (split; [reflexivity |]).
  split.
  { f_equal. transitivity (map name (map fst os)); [now rewrite map_map |].
    unfold os. now rewrite outcomes_files. }
  split; [reflexivity |]. split; [exact Hst |]. split; [exact Htr |].
  destruct (calls_kind (jsonFilesOf files)) as (Hc1 & _).
  rewrite filter_app, Hc1, app_nil_r. unfold enter; simpl.
  destruct (List.length (jsonFilesOf files) =? List.length files)%nat;
    rewrite filter_app; simpl; now rewrite app_nil_r.
Qed.

(** X3: when a source succeeded and the parent's callback then throws, the
    handler still returns normally, but the report it leaves is the one of
    the outer [catch]: [success] unset, both counts zero and no file lists,
    although the imports stay in the store. *)
Theorem report_replaced_when_callback_throws
    (files : list File) (m : Machine JSON Store) (e : Thrown) :
  existsb succeeded
    (outcomes characterId saveAsGlobalChecked (jsonFilesOf files) (store m)) = true ->
  snd (onImportSuccess
         (storeAfter characterId saveAsGlobalChecked (jsonFilesOf files) (store m)))
    = inl e ->
  let out := handleFilesSelect characterId saveAsGlobalChecked files m in
  snd out = inr tt
  /\ importResult (fst out) =
       Some (mkImportResult false ("Batch import failed: " ++ errorMessage e) 0 0
               (Some [errorMessage e]) None None)
  /\ store (fst out) =
       fst (onImportSuccess
              (storeAfter characterId saveAsGlobalChecked (jsonFilesOf files) (store m)))
  /\ success (batchReport characterId saveAsGlobalChecked files m) = true.
Proof.
  intros Hsome Hthrow. cbv zeta.
  rewrite <- success_existsb in Hsome.
  assert (Hne : jsonFilesOf files <> []).
  { intros E. rewrite success_existsb, E in Hsome. discriminate. }
  destruct (handleFilesSelect_cases files m Hne) as (Hret & _ & Ht). cbv zeta in Ht.
  destruct (Ht Hsome) as (Hst & toast & _ & Hcatch).
  destruct (Hcatch e Hthrow) as (Hres & _).
  repeat split; assumption.
Qed.

Lemma errorsOf_prefixed (fo : File * Outcome) (msg : string) :
  In msg (errorsOf fo) -> String.prefix (name (fst fo) ++ ": ") msg = true.
Proof.
  destruct fo as [file o]. unfold errorsOf, resultErrors. cbn [fst snd].
  assert (Hpre : forall rest, String.prefix (name file ++ ": ") (name file ++ ": " ++ rest)
                              = true).
  { intros rest.
    replace (name file ++ ": " ++ rest) with ((name file ++ ": ") ++ rest).
    - apply prefix_append.
    - induction (name file) as [| c n IH]; simpl; [reflexivity | now rewrite IH]. }
  destruct o as [r | r | e]; simpl.
  - destruct (errors r) as [errs |]; [| simpl; intros []].
    intros Hin. apply in_map_iff in Hin as (err & <- & _). apply Hpre.
  - intros [<- | Hin]; [apply Hpre |].
    destruct (errors r) as [errs |]; [| destruct Hin].
    apply in_map_iff in Hin as (err & <- & _). apply Hpre.
  - intros [<- | []]. apply Hpre.
Qed.

Lemma failed_has_error (fo : File * Outcome) :
  failed fo = true -> (1 <= List.length (errorsOf fo))%nat.
Proof.
  destruct fo as [file o]. unfold failed, succeeded, errorsOf. cbn [fst snd].
  destruct o; simpl; intros H; try discriminate; lia.
Qed.

(** X4: every entry of a batch report's [errors] starts with the name of
    one of the JSON files of the selection, followed by a colon and a space,
    and every failed file has at least one entry: [errors] is at least as
    long as [failedFiles]. *)
Theorem batch_errors_name_their_source (files : list File) (m : Machine JSON Store) :
  let r := batchReport characterId saveAsGlobalChecked files m in
  exists errs ff,
    errors r = Some errs
    /\ failedFiles r = Some ff
    /\ (forall msg, In msg errs ->
          exists file, In file (jsonFilesOf files)
                       /\ String.prefix (name file ++ ": ") msg = true)
    /\ (List.length ff <= List.length errs)%nat.
Proof.
  cbv zeta. rewrite batchReport_outcomes. cbn [errors failedFiles].
  do 2 eexists. split; [reflexivity |]. split; [reflexivity |].
  pose proof (outcomes_files characterId saveAsGlobalChecked (jsonFilesOf files) (store m))
    as Hfiles.
  set (os := outcomes _ _ _ _) in *. split.
  - intros msg Hin. apply in_flat_map in Hin as (fo & Hfo & Hmsg).
    exists (fst fo). split; [| now apply errorsOf_prefixed].
    rewrite <- Hfiles. now apply in_map.
  - rewrite length_map. clear Hfiles.
    induction os as [| fo os IH]; simpl; [lia |].
    rewrite length_app. destruct (failed fo) eqn:Hfo; simpl; [| lia].
    pose proof (failed_has_error fo Hfo). lia.
Qed.

Lemma outcomes_app (a b : list File) (st : Store) :
  outcomes characterId saveAsGlobalChecked (a ++ b) st =
  (outcomes characterId saveAsGlobalChecked a st
     ++ outcomes characterId saveAsGlobalChecked b
          (storeAfter characterId saveAsGlobalChecked a st))%list.
Proof.
  revert st; induction a as [| f a IH]; intros st; simpl; [reflexivity |].
  destruct (sourceOutcome characterId saveAsGlobalChecked f st) as [st' o]. simpl.
  now rewrite IH.
Qed.

Lemma storeAfter_app (a b : list File) (st : Store) :
  storeAfter characterId saveAsGlobalChecked (a ++ b) st =
  storeAfter characterId saveAsGlobalChecked b
    (storeAfter characterId saveAsGlobalChecked a st).
Proof.
  revert st; induction a as [| f a IH]; intros st; simpl; [reflexivity | apply IH].
Qed.

Lemma sumZ_app (l1 l2 : list Z) : sumZ (l1 ++ l2) = (sumZ l1 + sumZ l2)%Z.
Proof.
  unfold sumZ. induction l1 as [| x l1 IH]; simpl; [reflexivity | rewrite IH; lia].
Qed.

(** X5: a selection imported in one batch gives the report of its two
    halves imported one after the other, the second against the store the
    first left: the counts add up, [success] is the disjunction, and
    [errors], [successfulFiles] and [failedFiles] are the concatenations;
    the loop leaves the same store either way. *)
Theorem batch_of_concatenation (a b : list File) (m m' : Machine JSON Store) :
  store m' = storeAfter characterId saveAsGlobalChecked (jsonFilesOf a) (store m) ->
  let ra := batchReport characterId saveAsGlobalChecked a m in
  let rb := batchReport characterId saveAsGlobalChecked b m' in
  let r := batchReport characterId saveAsGlobalChecked (a ++ b) m in
  success r = success ra || success rb
  /\ importedCount r = (importedCount ra + importedCount rb)%Z
  /\ skippedCount r = (skippedCount ra + skippedCount rb)%Z
  /\ (exists ea eb, errors ra = Some ea /\ errors rb = Some eb
                    /\ errors r = Some (ea ++ eb)%list)
  /\ (exists sa sb, successfulFiles ra = Some sa /\ successfulFiles rb = Some sb
                    /\ successfulFiles r = Some (sa ++ sb)%list)
  /\ (exists fa fb, failedFiles ra = Some fa /\ failedFiles rb = Some fb
                    /\ failedFiles r = Some (fa ++ fb)%list)
  /\ storeAfter characterId saveAsGlobalChecked (jsonFilesOf (a ++ b)) (store m) =
     storeAfter characterId saveAsGlobalChecked (jsonFilesOf b) (store m').
Proof.
  intros Hst. cbv zeta.
  rewrite !success_existsb, !batchReport_outcomes.
  cbn [importedCount skippedCount errors successfulFiles failedFiles].
  assert (Hjs : jsonFilesOf (a ++ b) = (jsonFilesOf a ++ jsonFilesOf b)%list)
    by apply filter_app.
  rewrite Hjs, outcomes_app, storeAfter_app, <- Hst.
  rewrite existsb_app, !filter_app, !map_app, !sumZ_app, flat_map_app.
  repeat split; try reflexivity; do 2 eexists; repeat split; reflexivity.
Qed.

Lemma prefix_empty (s : string) : String.prefix "" s = true.
Proof. now destruct s. Qed.

Lemma prefix_String (a b : ascii) (s1 s2 : string) :
  String.prefix (String a s1) (String b s2) = Ascii.eqb a b && String.prefix s1 s2.
Proof.
  simpl. destruct (ascii_dec a b) as [-> | Hne].
  - now rewrite Ascii.eqb_refl.
  - apply Ascii.eqb_neq in Hne. now rewrite Hne.
Qed.

Lemma prefix_json_straddle (b : string) :
  b <> "" ->
  String.prefix ".json" b = false ->
  String.prefix ".json" (b ++ ".json") = false.
Proof.
  intros Hne.
  destruct b as [| c1 [| c2 [| c3 [| c4 [| c5 b]]]]]; [congruence | ..];
    cbn [append]; rewrite !prefix_String;
    rewrite ?prefix_empty;
    intros H; try exact H;
    repeat match goal with
           | |- context [Ascii.eqb ?x ?y] => is_var y; destruct (Ascii.eqb x y)
           end;
    reflexivity.
Qed.

Lemma replace_absent (s searchValue replaceValue : string) :
  includes s searchValue = false -> replace s searchValue replaceValue = s.
Proof.
  induction s as [| c s IH]; simpl; intros H;
    apply orb_false_iff in H as [Hp Hi]; rewrite Hp; [reflexivity |].
  now rewrite IH.
Qed.

Lemma replace_json_suffix (base : string) :
  includes base ".json" = false -> replace (base ++ ".json") ".json" "" = base.
Proof.
  induction base as [| c base IH]; intros H; [reflexivity |].
  assert (Hp : String.prefix ".json" (String c base) = false).
  { simpl in H. apply orb_false_iff in H. tauto. }
  assert (Hi : includes base ".json" = false).
  { simpl in H. apply orb_false_iff in H. tauto. }
  change (String c base ++ ".json") with (String c (base ++ ".json")).
  cbn [replace].
  change (String c (base ++ ".json")) with (String c base ++ ".json").
  rewrite (prefix_json_straddle (String c base)) by (congruence || assumption).
  now rewrite IH.
Qed.

(** X6: the name under which a file is saved to the global library.  With
    "save as global" ticked, a file [base.json] whose [base] does not contain
    ".json" is saved as [base]; a file whose name does not contain ".json" is
    saved under its whole name; in both cases the description is empty and
    no source character is named.  Without the tick no options are passed. *)
Theorem global_name_of_a_file (file : File) (base : string) :
  (name file = base ++ ".json" -> includes base ".json" = false ->
   optionsFor true file = Some (mkImportOptions true base "" None))
  /\ (includes (name file) ".json" = false ->
      optionsFor true file = Some (mkImportOptions true (name file) "" None))
  /\ optionsFor false file = None.
Proof.
  unfold optionsFor. split; [| split; [| reflexivity]].
  - intros -> H. now rewrite replace_json_suffix.
  - intros H. now rewrite replace_absent.
Qed.

End BatchMore.

(** * Further properties of the import from the global library *)

Section GlobalImportMore.

Context {JSON Store : Type} {env : Collaborators JSON Store}.

Variable characterId : string.
Variable selectedGlobalId : string.

(** X7: [handleImportFromGlobal] never throws, in either modal, whatever the
    library function and the parent's callback do (short of throwing [null]
    or [undefined], whose [message] cannot be read: every [Thrown] value is
    an [Error] or a value without a [message]).  With a library item
    selected [isImporting] is reset at the end; with none selected the
    handler only shows its toast: the store, [isImporting] and the report
    are left as they were and no import function is called. *)
Theorem import_from_global_never_throws (m : Machine JSON Store) :
  let regex := RegexModal.handleImportFromGlobal characterId selectedGlobalId m in
  let world := WorldBookModal.handleImportFromGlobal characterId selectedGlobalId m in
  snd regex = inr tt
  /\ snd world = inr tt
  /\ (selectedGlobalId <> "" ->
      isImporting (fst regex) = false /\ isImporting (fst world) = false)
  /\ (selectedGlobalId = "" ->
      fst regex = mkMachine (store m) (isImporting m) (importResult m)
                    (trace m ++ [ToastError "Please select a global regex script"])
                    (locals m)
      /\ fst world = mkMachine (store m) (isImporting m) (importResult m)
                       (trace m ++ [ShowErrorToast "Please select a global world book"])
                       (locals m)).
Proof.
  cbv zeta.
  unfold RegexModal.handleImportFromGlobal, WorldBookModal.handleImportFromGlobal.
  destruct selectedGlobalId as [| c rest] eqn:E; simpl.
  - unfold call; simpl. repeat split; congruence.
  - step_monad.
    destruct (importFromGlobalRegexScript characterId (String c rest) (store m))
      as [st1 [e1 | r1]];
    destruct (importFromGlobalWorldBook characterId (String c rest) (store m))
      as [st2 [e2 | r2]]; simpl;
    try destruct (success r1); try destruct (success r2); simpl;
    try (destruct (onImportSuccess st1) as [? [? | []]]); simpl;
    try (destruct (onImportSuccess st2) as [? [? | []]]); simpl;
    repeat split; auto; discriminate.
Qed.

(** X8: a library import that fails, by throwing or by returning a report
    without [success], leaves the modal's report as it was and does not
    invoke the parent's callback: the regex modal shows one error toast and
    the world book modal its own error toast, with the library's message (a
    thrown error is also logged to the console); the store is the one the
    library function left. *)
Theorem failed_global_import_keeps_report (m : Machine JSON Store) (st' : Store)
    (outcome : Thrown + ImportResult) :
  selectedGlobalId <> "" ->
  (forall result, outcome = inr result -> success result = false) ->
  let shown := match outcome with
               | inl e => "Import failed: " ++ anyMessage e
               | inr result => message result
               end in
  let logged := match outcome with
                | inl e => [ConsoleError "Import from global failed:" e]
                | inr _ => []
                end in
  (importFromGlobalRegexScript characterId selectedGlobalId (store m) = (st', outcome) ->
   fst (RegexModal.handleImportFromGlobal characterId selectedGlobalId m) =
   mkMachine st' false (importResult m)
     (trace m ++ [ImportFromGlobal characterId selectedGlobalId] ++ logged
        ++ [ToastError shown])
     (locals m))
  /\ (importFromGlobalWorldBook characterId selectedGlobalId (store m) = (st', outcome) ->
      fst (WorldBookModal.handleImportFromGlobal characterId selectedGlobalId m) =
      mkMachine st' false (importResult m)
        (trace m ++ [ImportFromGlobal characterId selectedGlobalId] ++ logged
           ++ [ShowErrorToast shown])
        (locals m)).
Proof.
  intros Hsel Hfail. cbv zeta.
  assert (Hlen : (String.length selectedGlobalId =? 0)%nat = false).
  { destruct selectedGlobalId; [congruence | reflexivity]. }
  unfold RegexModal.handleImportFromGlobal, WorldBookModal.handleImportFromGlobal.
  rewrite Hlen. step_monad.
  split; intros Hi; rewrite Hi; simpl;
    (destruct outcome as [e | result]; simpl;
     [ rewrite <- !app_assoc; reflexivity
     | rewrite (Hfail result eq_refl); simpl; rewrite <- !app_assoc; reflexivity ]).
Qed.

(** X9: when the library import succeeds and the parent's callback then
    throws, the handler catches it: the success report stays set and the
    success toast has been shown, and it is followed by a console log and an
    "Import failed" error toast carrying the callback's message. *)
Theorem global_import_callback_throws (m : Machine JSON Store) (st' st'' : Store)
    (result : ImportResult) (e : Thrown) :
  selectedGlobalId <> "" ->
  success result = true ->
  onImportSuccess st' = (st'', inl e) ->
  let closing := [ToastSuccess (message result); OnImportSuccess;
                  ConsoleError "Import from global failed:" e] in
  (importFromGlobalRegexScript characterId selectedGlobalId (store m) = (st', inr result) ->
   RegexModal.handleImportFromGlobal characterId selectedGlobalId m =
   (mkMachine st'' false (Some (globalReport result))
      (trace m ++ [ImportFromGlobal characterId selectedGlobalId] ++ closing
         ++ [ToastError ("Import failed: " ++ anyMessage e)])
      (locals m), inr tt))
  /\ (importFromGlobalWorldBook characterId selectedGlobalId (store m) = (st', inr result) ->
      WorldBookModal.handleImportFromGlobal characterId selectedGlobalId m =
      (mkMachine st'' false (Some (globalReport result))
         (trace m ++ [ImportFromGlobal characterId selectedGlobalId] ++ closing
            ++ [ShowErrorToast ("Import failed: " ++ anyMessage e)])
         (locals m), inr tt)).
Proof.
  intros Hsel Hok Hcb. cbv zeta.
  assert (Hlen : (String.length selectedGlobalId =? 0)%nat = false).
  { destruct selectedGlobalId; [congruence | reflexivity]. }
  unfold RegexModal.handleImportFromGlobal, WorldBookModal.handleImportFromGlobal,
    globalReport.
  rewrite Hlen. step_monad.
  split; intros Hi; rewrite Hi; simpl; rewrite Hok; simpl; rewrite Hcb; simpl;
    rewrite <- !app_assoc; reflexivity.
Qed.

End GlobalImportMore.

(** * Properties of the world book modal's import of one file *)

Section WorldBookFileFacts.

Context {JSON Store : Type} {env : Collaborators JSON Store}
        {wb : WorldBookImport JSON Store}.

Variable characterId : string.
Variable saveAsGlobalChecked : bool.
Variable globalName : string.
Variable globalDescription : string.

Import WorldBookFile.

#[local] Ltac leaf :=
  repeat split; intros; simpl in *;
  repeat match goal with
         | H : (_, _) = (_, _) |- _ => inversion H; subst; clear H
         | H : inl _ = inl _ |- _ => inversion H; subst; clear H
         | H : inr _ = inr _ |- _ => inversion H; subst; clear H
         end;
  try congruence;
  try (rewrite !filter_app; simpl; rewrite ?app_nil_r; reflexivity);
  try (eexists; reflexivity).

(** The handler on a JSON file, by what reading, parsing and importing
    come to. *)
Lemma handleFileSelect_cases (file : File) (m : Machine JSON Store) :
  includes (type file) "json" = true ->
  let out := handleFileSelect characterId saveAsGlobalChecked globalName globalDescription
               file m in
  let tried := attempt characterId saveAsGlobalChecked globalName globalDescription
                 file (store m) in
  snd out = inr tt
  /\ isImporting (fst out) = false
  /\ locals (fst out) = locals m
  /\ (forall e,
        snd tried = inl e ->
        importResult (fst out) = Some (importFailure e)
        /\ store (fst out) = fst tried
        /\ filter isCallback (trace (fst out)) = filter isCallback (trace m)
        /\ exists pre,
             trace (fst out) =
             (pre ++ [ShowErrorToast ("Failed to import: " ++ errorMessage e)])%list)
  /\ (forall result,
        snd tried = inr result -> success result = false ->
        importResult (fst out) = Some result
        /\ store (fst out) = fst tried
        /\ filter isCallback (trace (fst out)) = filter isCallback (trace m)
        /\ exists pre,
             trace (fst out) = (pre ++ [ShowErrorToast (message result)])%list)
  /\ (forall result,
        snd tried = inr result -> success result = true ->
        store (fst out) = fst (onImportSuccess (fst tried))
        /\ filter isCallback (trace (fst out)) =
             (filter isCallback (trace m) ++ [OnImportSuccess])%list
        /\ (snd (onImportSuccess (fst tried)) = inr tt ->
             importResult (fst out) = Some result)
        /\ (forall e, snd (onImportSuccess (fst tried)) = inl e ->
             importResult (fst out) = Some (importFailure e))).
Proof.
  intros Hjson. cbv zeta.
  unfold handleFileSelect, attempt, importFailure.
  rewrite Hjson. cbn [negb]. step_monad.
  destruct (text file) as [e0 | t]; simpl; [leaf |].
  destruct (JSON_parse t) as [e0 | jsonData]; simpl; [leaf |].
  destruct (importWorldBookFromJson characterId jsonData
              (optionsFor saveAsGlobalChecked globalName globalDescription file) (store m))
    as [st1 [e0 | r]] eqn:Hi; simpl; [leaf |].
  destruct (success r) eqn:Hs; simpl; [| leaf].
  destruct (onImportSuccess st1) as [st2 [e1 | []]] eqn:Hcb; simpl; leaf.
Qed.

(** X10: the world book modal's [handleFileSelect] never throws.  For a
    file whose MIME type does not contain "json" it only shows its error
    toast: nothing is imported and the store, [isImporting] and the report
    are left as they were.  For a JSON file it always ends with
    [isImporting] reset and a report set, whatever reading, parsing, the
    import function and the parent's callback do. *)
Theorem world_book_file_never_throws (file : File) (m : Machine JSON Store) :
  let out := handleFileSelect characterId saveAsGlobalChecked globalName globalDescription
               file m in
  snd out = inr tt
  /\ (includes (type file) "json" = false ->
      fst out = mkMachine (store m) (isImporting m) (importResult m)
                  (trace m ++ [ShowErrorToast "Please select a JSON file"]) (locals m))
  /\ (includes (type file) "json" = true ->
      isImporting (fst out) = false
      /\ exists r, importResult (fst out) = Some r).
Proof.
  cbv zeta. destruct (includes (type file) "json") eqn:Hjson.
  - destruct (handleFileSelect_cases file m Hjson) as (Hret & Himp & _ & Hthrow & Hrej & Hok).
    cbv zeta in *. split; [exact Hret |]. split; [discriminate |]. intros _.
    split; [exact Himp |].
    destruct (snd (attempt characterId saveAsGlobalChecked globalName globalDescription
                     file (store m))) as [e | result] eqn:Ht.
    + destruct (Hthrow e eq_refl) as (H & _). eauto.
    + destruct (success result) eqn:Hs.
      * destruct (Hok result eq_refl Hs) as (_ & _ & Hr & Hc).
        destruct (snd (onImportSuccess _)) as [e | []]; eauto.
      * destruct (Hrej result eq_refl Hs) as (H & _). eauto.
  - unfold handleFileSelect. rewrite Hjson. simpl.
    split; [reflexivity |]. split; [reflexivity | discriminate].
Qed.

(** X11: when reading the file, [JSON.parse] or the import function throws,
    the world book modal sets the failure report: [success] unset, message
    "Failed to import: " followed by the error's message, that message as
    the only entry of [errors] and both counts zero; the same text is shown
    in the error toast, which is the last call, and the parent's callback is
    not invoked. *)
Theorem world_book_file_failure_report (file : File) (m : Machine JSON Store) (e : Thrown) :
  includes (type file) "json" = true ->
  snd (attempt characterId saveAsGlobalChecked globalName globalDescription
         file (store m)) = inl e ->
  let out := handleFileSelect characterId saveAsGlobalChecked globalName globalDescription
               file m in
  importResult (fst out) =
    Some (mkImportResult false ("Failed to import: " ++ errorMessage e) 0 0
            (Some [errorMessage e]) None None)
  /\ filter isCallback (trace (fst out)) = filter isCallback (trace m)
  /\ exists pre,
       trace (fst out) =
       (pre ++ [ShowErrorToast ("Failed to import: " ++ errorMessage e)])%list.
Proof.
  intros Hjson Hthrow. cbv zeta.
  destruct (handleFileSelect_cases file m Hjson) as (_ & _ & _ & H & _).
  destruct (H e Hthrow) as (Hr & _ & Hc & Ht). auto.
Qed.

(** X12: when the import function returns a report, the world book modal
    shows that very report, also when its [success] is unset; the parent's
    callback is invoked once exactly when [success] is set, and then the
    store is the one the callback left.  (The report stays set provided the
    callback returns normally.) *)
Theorem world_book_file_report_is_result
    (file : File) (m : Machine JSON Store) (st' : Store) (result : ImportResult) :
  includes (type file) "json" = true ->
  attempt characterId saveAsGlobalChecked globalName globalDescription
    file (store m) = (st', inr result) ->
  (success result = true -> snd (onImportSuccess st') = inr tt) ->
  let out := handleFileSelect characterId saveAsGlobalChecked globalName globalDescription
               file m in
  importResult (fst out) = Some result
  /\ store (fst out) = (if success result then fst (onImportSuccess st') else st')
  /\ filter isCallback (trace (fst out)) =
       (filter isCallback (trace m)
          ++ if success result then [OnImportSuccess] else [])%list.
Proof.
  intros Hjson Hret Hcb. cbv zeta.
  destruct (handleFileSelect_cases file m Hjson) as (_ & _ & _ & _ & Hrej & Hok).
  cbv zeta in *. rewrite Hret in *. cbn [fst snd] in *.
  destruct (success result) eqn:Hs.
  - destruct (Hok result eq_refl Hs) as (Hst & Hc & Hr & _). auto.
  - destruct (Hrej result eq_refl Hs) as (Hr & Hst & Hc & _).
    rewrite app_nil_r. auto.
Qed.

End WorldBookFileFacts.

Section WorldBookNameFacts.

Variable globalName : string.
Variable globalDescription : string.

(** X13: the name under which the world book modal saves a file to the
    global library.  With "save as global" ticked, a name field that is
    empty or blank once trimmed falls back to the file's name without its
    first ".json" (so [base.json] is saved as [base] when [base] does not
    contain ".json"); otherwise the trimmed name field is used.  The
    description is the trimmed description field.  Without the tick no
    options are passed. *)
Theorem world_book_global_name (file : File) (base : string) :
  (JSText.trim globalName = "" ->
   name file = base ++ ".json" -> includes base ".json" = false ->
   WorldBookFile.optionsFor true globalName globalDescription file =
   Some (mkImportOptions true base (JSText.trim globalDescription) None))
  /\ (JSText.trim globalName <> "" ->
      WorldBookFile.optionsFor true globalName globalDescription file =
      Some (mkImportOptions true (JSText.trim globalName)
              (JSText.trim globalDescription) None))
  /\ WorldBookFile.optionsFor false globalName globalDescription file = None.
Proof.
  unfold WorldBookFile.optionsFor. split; [| split; [| reflexivity]].
  - intros -> -> H. simpl. now rewrite replace_json_suffix.
  - intros H. destruct (JSText.trim globalName); [congruence | reflexivity].
Qed.

End WorldBookNameFacts.

(** * Properties of the global library tab *)

Section LibraryTabFacts.

Context {Item Store : Type} {lib : LibraryCollaborators Item Store}.

Import LibraryTab.

#[local] Ltac run_panel :=
  unfold LibraryTab.bind, LibraryTab.ret, LibraryTab.call, LibraryTab.when,
    LibraryTab.tryCatch, LibraryTab.tryFinally, LibraryTab.onStore,
    setGlobalRegexScripts, setSelectedGlobalId, setIsLoadingGlobal, setIsDeleting in *;
  simpl in *.

#[local] Ltac close_case :=
  repeat split; intros; simpl in *;
  repeat match goal with
         | H : inr _ = inr _ |- _ => inversion H; subst; clear H
         | H : inl _ = inl _ |- _ => inversion H; subst; clear H
         | H : (_, _) = (_, _) |- _ => inversion H; subst; clear H
         | H : forall r, inr ?x = inr r -> _ |- _ => specialize (H x eq_refl)
         end;
  try congruence;
  try (eexists; reflexivity).

(** The reload leaves the selection alone. *)
Lemma loadGlobalRegexScripts_selection (p : Panel Item Store) :
  selectedGlobalId (fst (loadGlobalRegexScripts p)) = selectedGlobalId p.
Proof.
  unfold loadGlobalRegexScripts. run_panel.
  destruct (listGlobalRegexScripts (store p)) as [st [e | result]]; simpl;
    [reflexivity |].
  destruct (ListResult.success result); reflexivity.
Qed.

(** X14: [loadGlobalRegexScripts] never throws and always ends with
    [isLoadingGlobal] reset; it leaves the selection and [isDeleting] alone.
    The list shown is replaced by the listed items exactly when the list
    function returns with [success] set; when it returns without, or
    throws, the list is kept as it was and the last call is the error
    toast "Failed to load global regex scripts". *)
Theorem load_global_scripts (p : Panel Item Store) :
  let out := loadGlobalRegexScripts p in
  let listed := listGlobalRegexScripts (store p) in
  snd out = inr tt
  /\ isLoadingGlobal (fst out) = false
  /\ selectedGlobalId (fst out) = selectedGlobalId p
  /\ isDeleting (fst out) = isDeleting p
  /\ store (fst out) = fst listed
  /\ (forall result,
        snd listed = inr result -> ListResult.success result = true ->
        globalRegexScripts (fst out) = ListResult.globalRegexScripts result
        /\ trace (fst out) = (trace p ++ [ListGlobal])%list)
  /\ ((forall result, snd listed = inr result -> ListResult.success result = false) ->
      globalRegexScripts (fst out) = globalRegexScripts p
      /\ exists pre,
           trace (fst out) =
           (pre ++ [ToastError "Failed to load global regex scripts"])%list).
Proof.
  cbv zeta. unfold loadGlobalRegexScripts. run_panel.
  destruct (listGlobalRegexScripts (store p)) as [st [e | result]]; simpl;
    [close_case |].
  destruct (ListResult.success result) eqn:Hs; simpl; close_case.
Qed.

(** A successful delete is its bookkeeping followed by the reload. *)
Lemma handleDeleteGlobalScript_success
    (globalId : string) (p : Panel Item Store) (result : DeleteResult.t) :
  snd (deleteGlobalRegexScript globalId (store p)) = inr result ->
  DeleteResult.success result = true ->
  handleDeleteGlobalScript globalId p =
  loadGlobalRegexScripts
    (mkPanel (fst (deleteGlobalRegexScript globalId (store p)))
       (globalRegexScripts p)
       (if String.eqb (selectedGlobalId p) globalId then "" else selectedGlobalId p)
       (isLoadingGlobal p) None
       (trace p ++ [StopPropagation; PreventDefault; DeleteGlobal globalId;
                    ToastSuccess (t "regexScriptEditor.globalScriptDeleted")])).
Proof.
  intros Hdel Hok.
  unfold handleDeleteGlobalScript.
  unfold LibraryTab.bind at 1 2 3 4, LibraryTab.tryFinally at 1,
    LibraryTab.tryCatch at 1.
  unfold LibraryTab.call at 1 2, setIsDeleting at 1. cbn [fst snd].
  unfold LibraryTab.bind at 1 2, LibraryTab.call at 1, LibraryTab.onStore at 1.
  cbn [store globalRegexScripts selectedGlobalId isLoadingGlobal isDeleting trace].
  destruct (deleteGlobalRegexScript globalId (store p)) as [st [e | r]];
    simpl in Hdel; [discriminate |].
  injection Hdel as ->. rewrite Hok.
  unfold LibraryTab.bind at 1, LibraryTab.call at 1.
  cbn [store globalRegexScripts selectedGlobalId isLoadingGlobal isDeleting trace].
  unfold LibraryTab.bind at 1, LibraryTab.when at 1.
  cbn [store globalRegexScripts selectedGlobalId isLoadingGlobal isDeleting trace fst].
  destruct (String.eqb (selectedGlobalId p) globalId);
    unfold setSelectedGlobalId, LibraryTab.ret, setIsDeleting, LibraryTab.when;
    cbn [store globalRegexScripts selectedGlobalId isLoadingGlobal isDeleting trace];
    rewrite <- !app_assoc; reflexivity.
Qed.

(** X15: [handleDeleteGlobalScript] never throws and always ends with
    [isDeleting] cleared, whatever the delete and list functions do (short
    of throwing [null] or [undefined], whose [message] cannot be read: every
    [Thrown] value is an [Error] or a value without a [message]). *)
Theorem delete_global_script_never_throws (globalId : string) (p : Panel Item Store) :
  let out := handleDeleteGlobalScript globalId p in
  snd out = inr tt /\ isDeleting (fst out) = None.
Proof.
  cbv zeta. unfold handleDeleteGlobalScript, loadGlobalRegexScripts. run_panel.
  destruct (deleteGlobalRegexScript globalId (store p)) as [st [e | result]]; simpl;
    [auto |].
  destruct (DeleteResult.success result); simpl; [| auto].
  destruct (String.eqb (selectedGlobalId p) globalId); simpl;
    (destruct (listGlobalRegexScripts st) as [st2 [e | listed]]; simpl; [auto |];
     destruct (ListResult.success listed); simpl; auto).
Qed.

(** X16: a successful delete shows the success toast, clears the selection
    exactly when the deleted item was the selected one (any other selection
    is kept), and then reloads the list against the store the delete left. *)
Theorem delete_clears_own_selection
    (globalId : string) (p : Panel Item Store) (result : DeleteResult.t) :
  snd (deleteGlobalRegexScript globalId (store p)) = inr result ->
  DeleteResult.success result = true ->
  let out := handleDeleteGlobalScript globalId p in
  let kept := if String.eqb (selectedGlobalId p) globalId
              then "" else selectedGlobalId p in
  selectedGlobalId (fst out) = kept
  /\ (selectedGlobalId p = globalId -> selectedGlobalId (fst out) = "")
  /\ (selectedGlobalId p <> globalId -> selectedGlobalId (fst out) = selectedGlobalId p)
  /\ out =
     loadGlobalRegexScripts
       (mkPanel (fst (deleteGlobalRegexScript globalId (store p)))
          (globalRegexScripts p) kept (isLoadingGlobal p) None
          (trace p ++ [StopPropagation; PreventDefault; DeleteGlobal globalId;
                       ToastSuccess (t "regexScriptEditor.globalScriptDeleted")])).
Proof.
  intros Hdel Hok. cbv zeta.
  rewrite (handleDeleteGlobalScript_success globalId p result Hdel Hok).
  pose proof (loadGlobalRegexScripts_selection
                (mkPanel (fst (deleteGlobalRegexScript globalId (store p)))
                   (globalRegexScripts p)
                   (if String.eqb (selectedGlobalId p) globalId
                    then "" else selectedGlobalId p)
                   (isLoadingGlobal p) None
                   (trace p ++ [StopPropagation; PreventDefault; DeleteGlobal globalId;
                                ToastSuccess
                                  (t "regexScriptEditor.globalScriptDeleted")])))
    as Hsel.
  cbn [selectedGlobalId] in Hsel.
  split; [exact Hsel |]. split; [| split; [| reflexivity]].
  - intros E. rewrite Hsel. apply String.eqb_eq in E. now rewrite E.
  - intros E. rewrite Hsel. apply String.eqb_neq in E. now rewrite E.
Qed.

(** X17: a delete that fails, by throwing or by returning without
    [success], changes neither the selection nor the list shown and does not
    reload the list: after the delete call there is one error toast (and a
    console log for a thrown error).  The toast carries the result's message,
    or the translated default when the message is absent or empty; for a
    thrown error it is the translated default, a colon and the error's
    message. *)
Theorem failed_delete_changes_nothing (globalId : string) (p : Panel Item Store) :
  let deleted := deleteGlobalRegexScript globalId (store p) in
  let fallback := t "regexScriptEditor.failedToDeleteGlobalScript" in
  (forall result, snd deleted = inr result -> DeleteResult.success result = false) ->
  fst (handleDeleteGlobalScript globalId p) =
  mkPanel (fst deleted) (globalRegexScripts p) (selectedGlobalId p)
    (isLoadingGlobal p) None
    (trace p ++ [StopPropagation; PreventDefault; DeleteGlobal globalId]
       ++ match snd deleted with
          | inl e => [ConsoleError "Failed to delete global regex script:" e;
                      ToastError (fallback ++ ": " ++ anyMessage e)]
          | inr result =>
              [ToastError
                 (match DeleteResult.message result with
                  | Some (String c rest) => String c rest
                  | Some EmptyString | None => fallback
                  end)]
          end).
Proof.
  cbv zeta. intros Hfail.
  unfold handleDeleteGlobalScript, messageOr. run_panel.
  destruct (deleteGlobalRegexScript globalId (store p)) as [st [e | result]]; simpl.
  - rewrite <- !app_assoc. reflexivity.
  - rewrite (Hfail result eq_refl). simpl. rewrite <- !app_assoc.
    destruct (DeleteResult.message result) as [[| c rest] |]; reflexivity.
Qed.

End LibraryTabFacts.

Section DeleteThenImport.

Context {JSON Item Store : Type} {env : Collaborators JSON Store}
        {lib : LibraryCollaborators Item Store}.

(** X18: once the selected library item has been deleted, a click on
    "import from global" with the selection the delete left imports
    nothing: the handler only shows "Please select a global regex script",
    no import function is called and the store and the report are left as
    they were. *)
Theorem deleted_selection_cannot_be_imported
    (characterId : string) (p : LibraryTab.Panel Item Store)
    (result : DeleteResult.t) (m : Machine JSON Store) :
  snd (deleteGlobalRegexScript (LibraryTab.selectedGlobalId p) (LibraryTab.store p))
    = inr result ->
  DeleteResult.success result = true ->
  let p' := fst (LibraryTab.handleDeleteGlobalScript (LibraryTab.selectedGlobalId p) p) in
  RegexModal.handleImportFromGlobal characterId (LibraryTab.selectedGlobalId p') m =
  (mkMachine (store m) (isImporting m) (importResult m)
     (trace m ++ [ToastError "Please select a global regex script"]) (locals m),
   inr tt).
Proof.
  intros Hdel Hok. cbv zeta.
  rewrite (handleDeleteGlobalScript_success _ p result Hdel Hok).
  rewrite loadGlobalRegexScripts_selection. cbn [LibraryTab.selectedGlobalId].
  rewrite String.eqb_refl. reflexivity.
Qed.

End DeleteThenImport.

(** * The further properties on concrete runs *)

Lemma batch_of_failures_witness :
  RegexModal.jsonFilesOf [Demo.two; Demo.notes; Demo.four] <> []
  /\ (forall fo,
        In fo (RegexModal.outcomes "c1" false
                 (RegexModal.jsonFilesOf [Demo.two; Demo.notes; Demo.four])
                 (store Demo.m0)) ->
        RegexModal.failed fo = true)
  /\ exists r,
       importResult
         (fst (RegexModal.handleFilesSelect "c1" false
                 [Demo.two; Demo.notes; Demo.four] Demo.m0)) = Some r
       /\ success r = false
       /\ failedFiles r = Some ["two.json"; "four.json"].
Proof.
  assert (Hne : RegexModal.jsonFilesOf [Demo.two; Demo.notes; Demo.four] <> [])
    by (simpl; discriminate).
  assert (Hall : forall fo,
             In fo (RegexModal.outcomes "c1" false
                      (RegexModal.jsonFilesOf [Demo.two; Demo.notes; Demo.four])
                      (store Demo.m0)) ->
             RegexModal.failed fo = true).
  { simpl. intros fo [<- | [<- | []]]; reflexivity. }
  split; [exact Hne |]. split; [exact Hall |].
  pose proof (batch_of_failures "c1" false [Demo.two; Demo.notes; Demo.four] Demo.m0
                Hne Hall) as T.
  cbv zeta in T. destruct T as (r & ff & pre & _ & Hr & Hs & _ & _ & _ & Hff & Hnames & _).
  exists r. split; [exact Hr |]. split; [exact Hs |]. rewrite Hff, Hnames. reflexivity.
Defined.

Lemma report_replaced_when_callback_throws_witness :
  existsb RegexModal.succeeded
    (@RegexModal.outcomes _ _ Scenario.throwingCallback "c1" false
       (RegexModal.jsonFilesOf Demo.selection) (store Demo.m0)) = true
  /\ snd (@onImportSuccess _ _ Scenario.throwingCallback
            (@RegexModal.storeAfter _ _ Scenario.throwingCallback "c1" false
               (RegexModal.jsonFilesOf Demo.selection) (store Demo.m0)))
     = inl (ErrorObject "reload failed")
  /\ importResult
       (fst (@RegexModal.handleFilesSelect _ _ Scenario.throwingCallback "c1" false
               Demo.selection Demo.m0)) =
     Some (mkImportResult false "Batch import failed: reload failed" 0 0
             (Some ["reload failed"]) None None)
  /\ Demo.collectionOf "c1"
       (store (fst (@RegexModal.handleFilesSelect _ _ Scenario.throwingCallback "c1" false
                      Demo.selection Demo.m0))) =
     [("a", ""); ("b", ""); ("c", "")].
Proof.
  split; [reflexivity |]. split; [reflexivity |].
  pose proof (@report_replaced_when_callback_throws _ _ Scenario.throwingCallback
                "c1" false Demo.selection Demo.m0 (ErrorObject "reload failed")
                eq_refl eq_refl) as T.
  cbv zeta in T. destruct T as (_ & Hr & Hst & _).
  split; [exact Hr |]. rewrite Hst. reflexivity.
Defined.

Lemma batch_of_concatenation_witness :
  store (Demo.machine
           (RegexModal.storeAfter "c1" false
              (RegexModal.jsonFilesOf [Demo.one; Demo.two]) (store Demo.m0))) =
  RegexModal.storeAfter "c1" false (RegexModal.jsonFilesOf [Demo.one; Demo.two])
    (store Demo.m0)
  /\ importedCount
       (RegexModal.batchReport "c1" false
          ([Demo.one; Demo.two] ++ [Demo.notes; Demo.three; Demo.four]) Demo.m0) =
     (importedCount (RegexModal.batchReport "c1" false [Demo.one; Demo.two] Demo.m0)
      + importedCount
          (RegexModal.batchReport "c1" false [Demo.notes; Demo.three; Demo.four]
             (Demo.machine
                (RegexModal.storeAfter "c1" false
                   (RegexModal.jsonFilesOf [Demo.one; Demo.two]) (store Demo.m0)))))%Z.
Proof.
  split; [reflexivity |].
  pose proof (batch_of_concatenation "c1" false [Demo.one; Demo.two]
                [Demo.notes; Demo.three; Demo.four] Demo.m0
                (Demo.machine
                   (RegexModal.storeAfter "c1" false
                      (RegexModal.jsonFilesOf [Demo.one; Demo.two]) (store Demo.m0)))
                eq_refl) as T.
  cbv zeta in T. destruct T as (_ & Hi & _). exact Hi.
Defined.

Lemma global_name_of_a_file_witness :
  name Demo.one = "one" ++ ".json"
  /\ includes "one" ".json" = false
  /\ RegexModal.optionsFor true Demo.one = Some (mkImportOptions true "one" "" None).
Proof.
  split; [reflexivity |]. split; [reflexivity |].
  exact (proj1 (global_name_of_a_file Demo.one "one") eq_refl eq_refl).
Defined.

Lemma failed_global_import_keeps_report_witness :
  "none" <> ""
  /\ (forall result,
        @inl Thrown ImportResult (ErrorObject "Global item not found") = inr result ->
        success result = false)
  /\ Demo.importFromGlobal "c1" "none" (store Demo.m0) =
     (Demo.st0, inl (ErrorObject "Global item not found"))
  /\ fst (RegexModal.handleImportFromGlobal "c1" "none" Demo.m0) =
     mkMachine Demo.st0 false None
       [ImportFromGlobal "c1" "none";
        ConsoleError "Import from global failed:" (ErrorObject "Global item not found");
        ToastError "Import failed: Global item not found"]
       Locals.initial.
Proof.
  assert (Hsel : "none" <> "") by discriminate.
  assert (Hfail : forall result,
             @inl Thrown ImportResult (ErrorObject "Global item not found") = inr result ->
             success result = false) by (intros result H; discriminate).
  split; [exact Hsel |]. split; [exact Hfail |]. split; [reflexivity |].
  pose proof (failed_global_import_keeps_report "c1" "none" Demo.m0 Demo.st0
                (inl (ErrorObject "Global item not found")) Hsel Hfail) as T.
  cbv zeta in T. destruct T as (Hregex & _).
  exact (Hregex eq_refl).
Defined.

Lemma global_import_callback_throws_witness :
  "g1" <> ""
  /\ @onImportSuccess _ _ Scenario.throwingCallback
       (Demo.mkStore [("c1", [("a", ""); ("b", "")])] [("g1", [("a", ""); ("b", "")])]) =
     (Demo.mkStore [("c1", [("a", ""); ("b", "")])] [("g1", [("a", ""); ("b", "")])],
      inl (ErrorObject "reload failed"))
  /\ importResult
       (fst (@RegexModal.handleImportFromGlobal _ _ Scenario.throwingCallback
               "c1" "g1" Demo.m0)) =
     Some (mkImportResult true "Import complete" 1 0 (Some []) None None)
  /\ trace (fst (@RegexModal.handleImportFromGlobal _ _ Scenario.throwingCallback
                   "c1" "g1" Demo.m0)) =
     [ImportFromGlobal "c1" "g1"; ToastSuccess "Import complete"; OnImportSuccess;
      ConsoleError "Import from global failed:" (ErrorObject "reload failed");
      ToastError "Import failed: reload failed"].
Proof.
  assert (Hsel : "g1" <> "") by discriminate.
  split; [exact Hsel |]. split; [reflexivity |].
  pose proof (@global_import_callback_throws _ _ Scenario.throwingCallback "c1" "g1"
                Demo.m0
                (Demo.mkStore [("c1", [("a", ""); ("b", "")])]
                              [("g1", [("a", ""); ("b", "")])])
                (Demo.mkStore [("c1", [("a", ""); ("b", "")])]
                              [("g1", [("a", ""); ("b", "")])])
                (mkImportResult true "Import complete" 1 1 (Some []) None None)
                (ErrorObject "reload failed") Hsel eq_refl eq_refl) as T.
  cbv zeta in T. destruct T as (Hregex & _).
  rewrite (Hregex eq_refl). split; reflexivity.
Defined.

Lemma world_book_file_failure_report_witness :
  includes (type Demo.two) "json" = true
  /\ snd (@WorldBookFile.attempt _ _ Demo.collaborators Scenario.worldBook
            "c1" false "" "" Demo.two (store Demo.m0)) =
     inl (ErrorObject "Unexpected token ! in JSON")
  /\ importResult
       (fst (@WorldBookFile.handleFileSelect _ _ Demo.collaborators Scenario.worldBook
               "c1" false "" "" Demo.two Demo.m0)) =
     Some (mkImportResult false "Failed to import: Unexpected token ! in JSON" 0 0
             (Some ["Unexpected token ! in JSON"]) None None).
Proof.
  split; [reflexivity |]. split; [reflexivity |].
  pose proof (@world_book_file_failure_report _ _ Demo.collaborators Scenario.worldBook
                "c1" false "" "" Demo.two Demo.m0
                (ErrorObject "Unexpected token ! in JSON") eq_refl eq_refl) as T.
  cbv zeta in T. destruct T as (Hr & _). exact Hr.
Defined.

Lemma world_book_file_report_is_result_witness :
  includes (type Demo.four) "json" = true
  /\ @WorldBookFile.attempt _ _ Demo.collaborators Scenario.worldBook
       "c1" false "" "" Demo.four (store Demo.m0) =
     (Demo.st0,
      inr (mkImportResult false "Invalid format" 0 0
             (Some ["missing required field"]) None None))
  /\ importResult
       (fst (@WorldBookFile.handleFileSelect _ _ Demo.collaborators Scenario.worldBook
               "c1" false "" "" Demo.four Demo.m0)) =
     Some (mkImportResult false "Invalid format" 0 0
             (Some ["missing required field"]) None None).
Proof.
  split; [reflexivity |]. split; [reflexivity |].
  pose proof (@world_book_file_report_is_result _ _ Demo.collaborators Scenario.worldBook
                "c1" false "" "" Demo.four Demo.m0 Demo.st0
                (mkImportResult false "Invalid format" 0 0
                   (Some ["missing required field"]) None None)
                eq_refl eq_refl) as T.
  cbv zeta in T.
  assert (Hcb : false = true ->
                snd (@onImportSuccess _ _ Demo.collaborators Demo.st0) = inr tt)
    by discriminate.
  destruct (T Hcb) as (Hr & _). exact Hr.
Defined.

Lemma world_book_global_name_witness :
  JSText.trim "  " = ""
  /\ name Demo.one = "one" ++ ".json"
  /\ includes "one" ".json" = false
  /\ WorldBookFile.optionsFor true "  " " lore " Demo.one =
     Some (mkImportOptions true "one" "lore" None)
  /\ WorldBookFile.optionsFor true " My book " "" Demo.one =
     Some (mkImportOptions true "My book" "" None).
Proof.
  split; [reflexivity |]. split; [reflexivity |]. split; [reflexivity |]. split.
  - exact (proj1 (world_book_global_name "  " " lore " Demo.one "one")
             eq_refl eq_refl eq_refl).
  - reflexivity.
Defined.

Lemma delete_clears_own_selection_witness :
  snd (@deleteGlobalRegexScript _ _ Scenario.library "g1" (LibraryTab.store Scenario.p0))
    = inr (DeleteResult.mk true None)
  /\ LibraryTab.selectedGlobalId
       (fst (@LibraryTab.handleDeleteGlobalScript _ _ Scenario.library "g1" Scenario.p0))
     = ""
  /\ LibraryTab.globalRegexScripts
       (fst (@LibraryTab.handleDeleteGlobalScript _ _ Scenario.library "g1" Scenario.p0))
     = [].
Proof.
  split; [reflexivity |].
  pose proof (@delete_clears_own_selection _ _ Scenario.library "g1" Scenario.p0
                (DeleteResult.mk true None) eq_refl eq_refl) as T.
  cbv zeta in T. destruct T as (_ & Hsel & _ & Hrun).
  split; [exact (Hsel eq_refl) |]. rewrite Hrun. reflexivity.
Defined.

Lemma failed_delete_changes_nothing_witness :
  (forall result,
      snd (@deleteGlobalRegexScript _ _ Scenario.library "zz"
             (LibraryTab.store Scenario.p0)) = inr result ->
      DeleteResult.success result = false)
  /\ fst (@LibraryTab.handleDeleteGlobalScript _ _ Scenario.library "zz" Scenario.p0) =
     LibraryTab.mkPanel Demo.st0 ["g1"] "g1" false None
       [LibraryTab.StopPropagation; LibraryTab.PreventDefault;
        LibraryTab.DeleteGlobal "zz";
        LibraryTab.ToastError "regexScriptEditor.failedToDeleteGlobalScript"].
Proof.
  assert (Hfail : forall result,
             snd (@deleteGlobalRegexScript _ _ Scenario.library "zz"
                    (LibraryTab.store Scenario.p0)) = inr result ->
             DeleteResult.success result = false).
  { simpl. intros result H. injection H as <-. reflexivity. }
  split; [exact Hfail |].
  pose proof (@failed_delete_changes_nothing _ _ Scenario.library "zz" Scenario.p0) as T.
  cbv zeta in T. rewrite (T Hfail). reflexivity.
Defined.

Lemma deleted_selection_cannot_be_imported_witness :
  snd (@deleteGlobalRegexScript _ _ Scenario.library
         (LibraryTab.selectedGlobalId Scenario.p0) (LibraryTab.store Scenario.p0))
    = inr (DeleteResult.mk true None)
  /\ RegexModal.handleImportFromGlobal "c1"
       (LibraryTab.selectedGlobalId
          (fst (@LibraryTab.handleDeleteGlobalScript _ _ Scenario.library
                  (LibraryTab.selectedGlobalId Scenario.p0) Scenario.p0)))
       Demo.m0 =
     (mkMachine Demo.st0 false None
        [ToastError "Please select a global regex script"] Locals.initial, inr tt).
Proof.
  split; [reflexivity |].
  exact (@deleted_selection_cannot_be_imported _ _ _ Demo.collaborators Scenario.library
           "c1" Scenario.p0 (DeleteResult.mk true None) Demo.m0 eq_refl eq_refl).
Defined.

(** * Properties of character validation and creation *)

Section CharacterFacts.

Import CharacterCreate.

Lemma pushIf_nil (b : bool) (msg : string) (l : list string) :
  pushIf b msg l = [] <-> b = false /\ l = [].
Proof.
  destruct b; simpl; split.
  - intros H. destruct l; discriminate.
  - intros [H _]. discriminate.
  - auto.
  - tauto.
Qed.

Lemma longer_within (field : option string) (limit : nat) :
  longer field limit = false <-> within field limit.
Proof.
  unfold longer, within, JSUnits.given, JSUnits.textOf.
  destruct field as [[| c rest] |]; simpl.
  - split; [lia | reflexivity].
  - rewrite Nat.ltb_ge. reflexivity.
  - tauto.
Qed.

Lemma trim_empty : JSText.trim "" = "".
Proof. reflexivity. Qed.

Lemma blank_name (s : string) :
  negb (JSUnits.truthy s) || negb (JSUnits.truthy (JSText.trim s)) = true
  <-> JSText.trim s = "".
Proof.
  destruct s as [| c rest].
  - simpl. rewrite trim_empty. tauto.
  - cbn [JSUnits.truthy negb orb].
    destruct (JSText.trim (String c rest)); simpl; split; congruence.
Qed.

(** X19: [validateCharacterData] accepts a request exactly when the trimmed
    name is not empty and has at most 50 UTF-16 code units, the nickname at
    most 30, likes, dislikes and habits at most 500 each, the background at
    most 1000, and the avatar, if there is one, is at most 5 MB (5242880
    bytes) and of one of the five allowed MIME types; absent and empty
    optional fields pass. *)
Theorem validation_accepts_exactly (d : Request.t) :
  isValid (validateCharacterData d) = true <->
  JSText.trim (Request.name d) <> ""
  /\ (JSUnits.length (JSText.trim (Request.name d)) <= 50)%nat
  /\ within (Request.nickname d) 30
  /\ within (Request.likes d) 500
  /\ within (Request.dislikes d) 500
  /\ within (Request.habits d) 500
  /\ within (Request.background d) 1000
  /\ avatarAccepted (Request.avatar d).
Proof.
  unfold validateCharacterData. cbv zeta. cbn [isValid].
  rewrite Nat.eqb_eq, length_zero_iff_nil.
  rewrite <- !longer_within.
  assert (Hname :
    (if negb (JSUnits.truthy (Request.name d))
        || negb (JSUnits.truthy (JSText.trim (Request.name d)))
     then ([] ++ ["角色姓名不能为空"])%list
     else if (50 <? JSUnits.length (JSText.trim (Request.name d)))%nat
          then ([] ++ ["角色姓名不能超过50个字符"])%list
          else []) = []
    <-> JSText.trim (Request.name d) <> ""
        /\ (JSUnits.length (JSText.trim (Request.name d)) <= 50)%nat).
  { pose proof (blank_name (Request.name d)) as Hb.
    destruct (negb (JSUnits.truthy (Request.name d))
              || negb (JSUnits.truthy (JSText.trim (Request.name d)))).
    - simpl. split; [discriminate |]. intros [H _]. destruct H. now apply Hb.
    - destruct (50 <? JSUnits.length (JSText.trim (Request.name d)))%nat eqn:E.
      + simpl. split; [discriminate |]. apply Nat.ltb_lt in E. lia.
      + apply Nat.ltb_ge in E. split; [| reflexivity]. intros _. split; [| exact E].
        intros H. apply Hb in H. discriminate. }
  destruct (Request.avatar d) as [a |]; cbn [avatarAccepted];
    rewrite ?pushIf_nil, Hname.
  - rewrite negb_false_iff, existsb_exists, Z.ltb_ge.
    change (5 * 1024 * 1024)%Z with 5242880%Z.
    split.
    + intros ((x & Hin & Hx) & Hs & Hb & Hh & Hdl & Hl & Hn & Hnm).
      apply String.eqb_eq in Hx. subst x. tauto.
    + intros (Hnm1 & Hnm2 & Hn & Hl & Hdl & Hh & Hb & Hs & Hin).
      repeat split; auto. exists (Avatar.type a). split; [exact Hin |].
      apply String.eqb_refl.
  - tauto.
Qed.

Lemma pushIf_app (b : bool) (msg : string) (l : list string) :
  pushIf b msg l = (l ++ if b then [msg] else [])%list.
Proof. destruct b; simpl; [reflexivity | now rewrite app_nil_r]. Qed.

(** The errors of a request: those about the name, then the rest. *)
Lemma validate_errors (d : Request.t) :
  exists others,
    errors (validateCharacterData d) =
    ((if negb (JSUnits.truthy (Request.name d))
         || negb (JSUnits.truthy (JSText.trim (Request.name d)))
      then ["角色姓名不能为空"]
      else if (50 <? JSUnits.length (JSText.trim (Request.name d)))%nat
           then ["角色姓名不能超过50个字符"]
           else []) ++ others)%list
    /\ (List.length others <= 7)%nat.
Proof.
  unfold validateCharacterData. cbv zeta. cbn [errors].
  set (nameErrors := if negb _ || negb _ then _ else _).
  destruct (Request.avatar d) as [a |]; rewrite !pushIf_app, <- !app_assoc;
    eexists; (split; [reflexivity |]); rewrite !length_app;
    repeat match goal with
           | |- context [if ?b then [_] else []] => destruct b
           end; simpl; lia.
Qed.

(** X20: the first error [validateCharacterData] reports is about the
    name whenever the name is at fault: "角色姓名不能为空" for a name that is
    empty or blank, "角色姓名不能超过50个字符" for a trimmed name of more than
    50 code units, whatever else is wrong with the request; and one request
    never gets more than eight errors. *)
Theorem validation_reports_name_first (d : Request.t) :
  (JSText.trim (Request.name d) = "" ->
   hd_error (errors (validateCharacterData d)) = Some "角色姓名不能为空")
  /\ (JSText.trim (Request.name d) <> "" ->
      (50 < JSUnits.length (JSText.trim (Request.name d)))%nat ->
      hd_error (errors (validateCharacterData d)) = Some "角色姓名不能超过50个字符")
  /\ (List.length (errors (validateCharacterData d)) <= 8)%nat.
Proof.
  pose proof (blank_name (Request.name d)) as Hb.
  destruct (validate_errors d) as (others & -> & Hlen).
  destruct (negb (JSUnits.truthy (Request.name d))
            || negb (JSUnits.truthy (JSText.trim (Request.name d)))) eqn:Hblank.
  - split; [reflexivity |]. split; [| simpl; lia].
    intros H. destruct H. now apply Hb.
  - split; [intros H; apply Hb in H; discriminate |]. split.
    + intros _ Hlong. apply Nat.ltb_lt in Hlong. now rewrite Hlong.
    + destruct (50 <? _)%nat; simpl; lia.
Qed.

(** A request that passes validation has an acceptable avatar, or none. *)
Lemma valid_avatar (d : Request.t) :
  isValid (validateCharacterData d) = true -> avatarAccepted (Request.avatar d).
Proof.
  unfold validateCharacterData. cbv zeta. cbn [isValid].
  rewrite Nat.eqb_eq, length_zero_iff_nil.
  destruct (Request.avatar d) as [a |]; cbn [avatarAccepted]; [| trivial].
  rewrite !pushIf_nil, negb_false_iff, existsb_exists, Z.ltb_ge.
  change (5 * 1024 * 1024)%Z with 5242880%Z.
  intros ((x & Hin & Hx) & Hs & _). apply String.eqb_eq in Hx. subst x. tauto.
Qed.

End CharacterFacts.

Section CreationFacts.

Import CharacterCreate.

Variable Storage : Type.
Variable setBlob : string -> Avatar.t -> Storage -> Storage * (Thrown + unit).
Variable createRecord :
  string -> Raw.t -> string -> Storage -> Storage * (Thrown + string).

#[local] Ltac run_create :=
  unfold createCharacter, CharacterCreate.tryCatch, CharacterCreate.bind,
    CharacterCreate.ret, emit, onStorage in *;
  simpl in *.

(** X21: [createCharacter] refuses a request whose name is empty or blank
    before it touches anything: it returns [success] unset with the error
    "角色姓名不能为空" (the first error [validateCharacterData] gives for the same
    request), saves no blob, creates no record and logs nothing. *)
Theorem creation_refuses_blank_name
    (now : nat) (random : string) (d : Request.t) (w : World Storage) :
  JSText.trim (Request.name d) = "" ->
  createCharacter Storage setBlob createRecord now random d w =
  (w, inr (Response.mk false None None (Some "角色姓名不能为空")))
  /\ hd_error (errors (validateCharacterData d)) = Some "角色姓名不能为空".
Proof.
  intros Hblank. split.
  - apply blank_name in Hblank. unfold createCharacter, CharacterCreate.tryCatch.
    rewrite Hblank. reflexivity.
  - apply blank_name in Hblank.
    destruct (validate_errors d) as (others & -> & _). now rewrite Hblank.
Qed.

Lemma messageOr_not_empty (e : Thrown) (fallback : string) :
  fallback <> "" -> messageOr e fallback <> "".
Proof.
  intros H. unfold messageOr. destruct e as [[| c rest] |]; auto. discriminate.
Qed.

(** X22: [createCharacter] never throws, whatever the storage functions do
    (short of throwing [null] or [undefined], whose [message] cannot be
    read: every [Thrown] value is an [Error] or a value without a
    [message]), and its response is fixed by what they do.  For a blank name
    it is the refusal with the error "角色姓名不能为空".  For any other name: if
    saving the avatar throws, or creating the record throws, the response
    has [success] unset, no id and as error the thrown error's message, or
    "创建角色时发生未知错误" when it has none; if the record is created, the
    response has [success] set, the id that the storage returned for the
    record, the message "角色创建成功" and no error, and the storage is the
    one the record creation left.  So [success] is set exactly when the
    name is not blank and both storage calls returned, and a response
    without [success] always carries an error text that is not empty. *)
Theorem creation_never_throws
    (now : nat) (random : string) (d : Request.t) (w : World Storage) :
  let characterId := "char_" ++ show now ++ "_" ++ random in
  let path :=
    match Request.avatar d with
    | Some a => characterId ++ "." ++ JSUnits.lastSegment (Avatar.name a)
    | None => ""
    end in
  let blobs :=
    match Request.avatar d with
    | Some a => setBlob path a (storage w)
    | None => (storage w, inr tt)
    end in
  let created :=
    createRecord characterId (rawCharacterData characterId path d) path (fst blobs) in
  let failure e :=
    Response.mk false None None (Some (messageOr e "创建角色时发生未知错误")) in
  let out := createCharacter Storage setBlob createRecord now random d w in
  exists r,
    snd out = inr r
    /\ (JSText.trim (Request.name d) = "" ->
        r = Response.mk false None None (Some "角色姓名不能为空"))
    /\ (JSText.trim (Request.name d) <> "" ->
        (forall e, snd blobs = inl e ->
           r = failure e /\ storage (fst out) = fst blobs)
        /\ (snd blobs = inr tt ->
            (forall e, snd created = inl e ->
               r = failure e /\ storage (fst out) = fst created)
            /\ (forall recordId, snd created = inr recordId ->
                  r = Response.mk true (Some recordId) (Some "角色创建成功") None
                  /\ storage (fst out) = fst created)))
    /\ (Response.success r = true <->
        JSText.trim (Request.name d) <> ""
        /\ snd blobs = inr tt
        /\ exists recordId, snd created = inr recordId)
    /\ (Response.success r = false ->
        Response.characterId r = None
        /\ exists msg, Response.error r = Some msg /\ msg <> "").
Proof.
  assert (Hdefault : "创建角色时发生未知错误" <> "") by discriminate.
  cbv zeta. run_create.
  destruct (negb (JSUnits.truthy (Request.name d))
            || negb (JSUnits.truthy (JSText.trim (Request.name d)))) eqn:Hb; simpl.
  { apply blank_name in Hb.
    eexists; split; [reflexivity |]. split; [reflexivity |].
    split; [contradiction |]. simpl. split.
    - split; [discriminate | tauto].
    - intros _. split; [reflexivity |]. eexists; split; [reflexivity | discriminate]. }
  assert (Hname : JSText.trim (Request.name d) <> "").
  { intros H. apply blank_name in H. congruence. }
  destruct (Request.avatar d) as [a |]; simpl.
  - destruct (setBlob _ a (storage w)) as [st [e | []]]; simpl.
    + eexists; split; [reflexivity |]. split; [contradiction |]. split; [| split].
      * intros _. split; [| discriminate].
        intros e0 H. injection H as <-. auto.
      * simpl. split; [discriminate |]. intros (_ & H & _). discriminate.
      * simpl. intros _. split; [reflexivity |]. eexists; split; [reflexivity |].
        now apply messageOr_not_empty.
    + destruct (createRecord _ _ _ st) as [st' [e | recordId]]; simpl.
      * eexists; split; [reflexivity |]. split; [contradiction |]. split; [| split].
        -- intros _. split; [discriminate |]. intros _. split; [| discriminate].
           intros e0 H. injection H as <-. auto.
        -- simpl. split; [discriminate |]. intros (_ & _ & recordId & H). discriminate.
        -- simpl. intros _. split; [reflexivity |]. eexists; split; [reflexivity |].
           now apply messageOr_not_empty.
      * eexists; split; [reflexivity |]. split; [contradiction |]. split; [| split].
        -- intros _. split; [discriminate |]. intros _. split; [discriminate |].
           intros recordId0 H. injection H as <-. auto.
        -- simpl. split; [| reflexivity]. intros _. eauto.
        -- simpl. discriminate.
  - destruct (createRecord _ _ _ (storage w)) as [st' [e | recordId]]; simpl.
    + eexists; split; [reflexivity |]. split; [contradiction |]. split; [| split].
      * intros _. split; [discriminate |]. intros _. split; [| discriminate].
        intros e0 H. injection H as <-. auto.
      * simpl. split; [discriminate |]. intros (_ & _ & recordId & H). discriminate.
      * simpl. intros _. split; [reflexivity |]. eexists; split; [reflexivity |].
        now apply messageOr_not_empty.
    + eexists; split; [reflexivity |]. split; [contradiction |]. split; [| split].
      * intros _. split; [discriminate |]. intros _. split; [discriminate |].
        intros recordId0 H. injection H as <-. auto.
      * simpl. split; [| reflexivity]. intros _. eauto.
      * simpl. discriminate.
Qed.

(** X23: for a request with a name, [createCharacter] saves the avatar
    before it creates the record, under the path made of the new id, a dot
    and what follows the last dot of the avatar's file name, and records
    that same path in the character; when saving the avatar throws, no
    record is created and the response carries the error; without an avatar
    no blob is saved and the recorded path is empty.  The record is created
    under the id ["char_" ++ now ++ "_" ++ random] with the trimmed name. *)
Theorem creation_saves_avatar_first
    (now : nat) (random : string) (d : Request.t) (w : World Storage) :
  JSText.trim (Request.name d) <> "" ->
  let characterId := "char_" ++ show now ++ "_" ++ random in
  let out := createCharacter Storage setBlob createRecord now random d w in
  (forall a, Request.avatar d = Some a ->
     let path := characterId ++ "." ++ JSUnits.lastSegment (Avatar.name a) in
     (forall e, snd (setBlob path a (storage w)) = inl e ->
        events (fst out) =
          (events w ++ [SetBlob path a; CharacterCreate.ConsoleError "创建角色失败:" e])%list
        /\ storage (fst out) = fst (setBlob path a (storage w))
        /\ snd out = inr (Response.mk false None None
                            (Some (messageOr e "创建角色时发生未知错误"))))
     /\ (snd (setBlob path a (storage w)) = inr tt ->
         exists raw rest,
           events (fst out) =
             (events w ++ [SetBlob path a; CreateRecord characterId raw path] ++ rest)%list
           /\ Raw.avatar raw = path
           /\ Raw.id raw = characterId
           /\ Raw.name raw = JSText.trim (Request.name d)))
  /\ (Request.avatar d = None ->
      exists raw rest,
        events (fst out) = (events w ++ [CreateRecord characterId raw ""] ++ rest)%list
        /\ Raw.avatar raw = ""
        /\ Raw.id raw = characterId
        /\ Raw.name raw = JSText.trim (Request.name d)).
Proof.
  intros Hname. cbv zeta.
  assert (Hb : negb (JSUnits.truthy (Request.name d))
               || negb (JSUnits.truthy (JSText.trim (Request.name d))) = false).
  { destruct (negb _ || negb _) eqn:E; [| reflexivity].
    apply blank_name in E. contradiction. }
  run_create. rewrite Hb. simpl.
  split.
  - intros a Ha. rewrite Ha. simpl.
    destruct (setBlob _ a (storage w)) as [st [e | []]]; simpl; split.
    + intros e0 H. injection H as <-. rewrite <- app_assoc. auto.
    + discriminate.
    + discriminate.
    + intros _.
      destruct (createRecord _ _ _ st) as [st' [e | recordId]]; simpl;
        do 2 eexists; rewrite <- !app_assoc; simpl;
        (split; [reflexivity |]); auto.
  - intros Ha. rewrite Ha. simpl.
    destruct (createRecord _ _ _ (storage w)) as [st' [e | recordId]]; simpl;
      do 2 eexists; rewrite <- ?app_assoc; simpl; (split; [reflexivity |]); auto.
Qed.

End CreationFacts.

(** * Properties of the character creation modal *)

Section CreateModalFacts.

Import CreateModal.

Variable Storage : Type.
Variable setBlob : string -> Avatar.t -> Storage -> Storage * (Thrown + unit).
Variable createRecord :
  string -> Raw.t -> string -> Storage -> Storage * (Thrown + string).
Variable onSuccess : Thrown + unit.
Variable onClose : Thrown + unit.
Variable readAsDataURL : Avatar.t -> option string.

#[local] Ltac unfold_modal :=
  unfold handleSubmit, handleAvatarUpload, resetForm, invoke, CreateModal.bind,
    CreateModal.ret, CreateModal.throw, CreateModal.tryCatch, CreateModal.tryFinally,
    CreateModal.call, setFormData, setAvatarPreview, setIsLoading, showErrorToast,
    clearFileInput, onWorld in *.

#[local] Ltac run_modal := unfold_modal; simpl in *.

(** X24: submitting a form that [validateCharacterData] rejects only shows
    the first validation error in the error toast: nothing is stored, no
    record is created, [isLoading] and the form are left as they were and
    the modal is not closed.  For a blank name the toast reads
    "角色姓名不能为空". *)
Theorem submit_of_invalid_form (now : nat) (random : string) (s : Modal Storage) :
  CharacterCreate.isValid
    (CharacterCreate.validateCharacterData (requestOf (formData s))) = false ->
  handleSubmit Storage setBlob createRecord onSuccess onClose now random s =
  (mkModal (formData s) (avatarPreview s) (isLoading s)
     (true, hd_error (CharacterCreate.errors
                        (CharacterCreate.validateCharacterData (requestOf (formData s)))))
     (fileInput s) (world s) (calls s ++ [PreventDefault]), inr tt)
  /\ (JSText.trim (name (formData s)) = "" ->
      hd_error (CharacterCreate.errors
                  (CharacterCreate.validateCharacterData (requestOf (formData s))))
      = Some "角色姓名不能为空").
Proof.
  intros Hinvalid. split.
  - run_modal. rewrite Hinvalid. reflexivity.
  - intros Hblank.
    destruct (validate_errors (requestOf (formData s))) as (others & -> & _).
    apply blank_name in Hblank. cbn [requestOf Request.name]. now rewrite Hblank.
Qed.

(** X25: [handleSubmit] never throws, whatever the storage functions and the
    [onSuccess] and [onClose] props do (short of throwing [null] or
    [undefined], whose [message] cannot be read), and for a form that passes
    validation it always ends with [isLoading] reset. *)
Theorem submit_never_throws (now : nat) (random : string) (s : Modal Storage) :
  let out := handleSubmit Storage setBlob createRecord onSuccess onClose now random s in
  snd out = inr tt
  /\ (CharacterCreate.isValid
        (CharacterCreate.validateCharacterData (requestOf (formData s))) = true ->
      isLoading (fst out) = false).
Proof.
  cbv zeta. unfold_modal. cbn [fst snd calls formData world].
  destruct (CharacterCreate.isValid
              (CharacterCreate.validateCharacterData (requestOf (formData s))));
    cbn [negb]; [| split; [reflexivity | discriminate]].
  cbn [fst snd calls formData world isLoading avatarPreview errorToast fileInput].
  destruct (CharacterCreate.createCharacter Storage setBlob createRecord now random
              (requestOf (formData s)) (world s)) as [w [e | response]];
    simpl; [auto |].
  destruct (Response.success response); simpl; [| auto].
  destruct onSuccess as [e | []]; simpl; [auto |].
  destruct onClose as [e | []]; simpl; auto.
Qed.

(** X26: what a valid submission leaves.  When [createCharacter] reports a
    failure the form is kept as typed, the modal is not closed and the toast
    shows the response's error (or "创建角色失败" when it has none).  When it
    reports success the form is reset, and [onSuccess] then [onClose] are
    called; if [onSuccess] throws, the form has been reset all the same,
    [onClose] is not called and the toast shows the thrown error's
    message. *)
Theorem submit_of_valid_form
    (now : nat) (random : string) (s : Modal Storage)
    (w : CharacterCreate.World Storage) (response : Response.t) :
  CharacterCreate.isValid
    (CharacterCreate.validateCharacterData (requestOf (formData s))) = true ->
  CharacterCreate.createCharacter Storage setBlob createRecord now random
    (requestOf (formData s)) (world s) = (w, inr response) ->
  let out := handleSubmit Storage setBlob createRecord onSuccess onClose now random s in
  let cleared := match fileInput s with Some _ => Some "" | None => None end in
  world (fst out) = w
  /\ (Response.success response = false ->
      let shown := errorOr (Response.error response) "创建角色失败" in
      fst out =
      mkModal (formData s) (avatarPreview s) false (true, Some shown) (fileInput s) w
        (calls s ++ [PreventDefault; LogError "创建角色失败:" (ErrorObject shown)]))
  /\ (Response.success response = true ->
      formData (fst out) = emptyForm
      /\ avatarPreview (fst out) = ""
      /\ fileInput (fst out) = cleared
      /\ (onSuccess = inr tt -> onClose = inr tt ->
          fst out = mkModal emptyForm "" false (errorToast s) cleared w
                      (calls s ++ [PreventDefault; OnSuccess; OnClose]))
      /\ (forall e, onSuccess = inl e ->
          fst out = mkModal emptyForm "" false
                      (true, Some (CharacterCreate.messageOr e "创建角色失败，请重试"))
                      cleared w
                      (calls s ++ [PreventDefault; OnSuccess;
                                   LogError "创建角色失败:" e]))).
Proof.
  intros Hvalid Hcreate. cbv zeta. unfold_modal.
  cbn [fst snd calls formData world isLoading avatarPreview errorToast fileInput].
  rewrite Hvalid. cbn [negb].
  cbn [fst snd calls formData world isLoading avatarPreview errorToast fileInput].
  rewrite Hcreate. simpl. unfold errorOr.
  destruct (Response.success response); simpl.
  - split; [| split; [discriminate |]].
    + destruct onSuccess as [e | []]; simpl; [reflexivity |].
      destruct onClose as [e | []]; reflexivity.
    + intros _.
      destruct onSuccess as [e | []]; simpl.
      * repeat split; try discriminate.
        intros e0 H. injection H as <-. rewrite <- !app_assoc. reflexivity.
      * destruct onClose as [e | []]; simpl; repeat split; try discriminate.
        intros _ _. rewrite <- !app_assoc. reflexivity.
  - split; [reflexivity |]. split; [| discriminate].
    intros _. rewrite <- !app_assoc.
    destruct (Response.error response) as [[| c rest] |]; reflexivity.
Qed.

(** X27: [handleAvatarUpload] takes the first file of the change event and
    keeps it as the form's avatar exactly when its MIME type starts with
    "image/" and it is at most 5 MB; otherwise it shows an error toast and
    leaves the form, and the avatar chosen before, as they were.  Every
    avatar [validateCharacterData] accepts passes this check, but an image of
    a type outside the five allowed ones is kept here and makes the later
    validation fail. *)
Theorem avatar_upload_check (file : Avatar.t) (others : list Avatar.t) (s : Modal Storage) :
  let out := fst (handleAvatarUpload Storage readAsDataURL (file :: others) s) in
  let accepted := String.prefix "image/" (Avatar.type file)
                  && (Avatar.size file <=? 5242880)%Z in
  (accepted = true ->
   formData out =
     mkForm (name (formData s)) (nickname (formData s)) (gender (formData s))
       (likes (formData s)) (dislikes (formData s)) (habits (formData s))
       (background (formData s)) (Some file)
   /\ errorToast out = errorToast s)
  /\ (accepted = false ->
      formData out = formData s
      /\ avatarPreview out = avatarPreview s
      /\ fst (errorToast out) = true)
  /\ (CharacterCreate.avatarAccepted (Some file) -> accepted = true)
  /\ (accepted = true ->
      ~ In (Avatar.type file) CharacterCreate.allowedTypes ->
      CharacterCreate.isValid
        (CharacterCreate.validateCharacterData (requestOf (formData out))) = false).
Proof.
  cbv zeta. split; [| split; [| split]].
  - intros Hacc. apply andb_true_iff in Hacc as [Hty Hsz]. apply Z.leb_le in Hsz.
    run_modal. rewrite Hty. simpl.
    replace (5242880 <? Avatar.size file)%Z with false
      by (symmetry; apply Z.ltb_ge; exact Hsz).
    destruct (readAsDataURL file); simpl; auto.
  - intros Hacc. apply andb_false_iff in Hacc as [Hty | Hsz]; run_modal.
    + rewrite Hty. simpl. auto.
    + apply Z.leb_gt in Hsz. destruct (String.prefix "image/" (Avatar.type file)); simpl;
        [| auto].
      replace (5242880 <? Avatar.size file)%Z with true
        by (symmetry; apply Z.ltb_lt; exact Hsz).
      simpl. auto.
  - intros [Hsz Hin]. apply andb_true_iff. split; [| now apply Z.leb_le].
    simpl in Hin. destruct Hin as [<- | [<- | [<- | [<- | [<- | []]]]]]; reflexivity.
  - intros Hacc Hnot.
    destruct (CharacterCreate.isValid _) eqn:Hv; [| reflexivity].
    apply valid_avatar in Hv. rename Hv into Hav.
    apply andb_true_iff in Hacc as [Hty Hsz]. apply Z.leb_le in Hsz.
    run_modal. rewrite Hty in Hav. simpl in Hav.
    replace (5242880 <? Avatar.size file)%Z with false in Hav
      by (symmetry; apply Z.ltb_ge; exact Hsz).
    destruct (readAsDataURL file); simpl in Hav; destruct Hav as [_ Hin]; tauto.
Qed.

End CreateModalFacts.

(** * Properties of the character status *)

Section StatusFacts.

Import CharacterCards.

Lemma lastFrom_ascii (pre acc : string) (c : ascii) :
  continuation c = false -> lastFrom acc (pre ++ String c EmptyString) = String c EmptyString.
Proof.
  intros Hc. revert acc; induction pre as [| b pre IH]; intros acc; simpl.
  - now rewrite Hc.
  - destruct (continuation b); apply IH.
Qed.

(** X28: the status of a character depends on the last character of its id
    only.  For an id that ends with the decimal digit [d] it is the
    [(d mod 5)]-th of the five status messages, so ids ending in 0 or 5 are
    "在线" and shown green; for the empty id no status is found and the colour
    falls back to "bg-gray-500". *)
Theorem status_from_last_digit (pre : string) (d : nat) :
  (d < 10)%nat ->
  getCharacterStatus (pre ++ digit d) = nth_error statusMessages (d mod 5)
  /\ (exists status, getCharacterStatus (pre ++ digit d) = Some status)
  /\ (d mod 5 = 0 ->
      getStatusColor (getCharacterStatus (pre ++ digit d)) = "bg-green-500")
  /\ getCharacterStatus "" = None
  /\ getStatusColor (getCharacterStatus "") = "bg-gray-500".
Proof.
  intros Hd.
  assert (Hstatus : getCharacterStatus (pre ++ digit d)
                    = nth_error statusMessages (d mod 5)).
  { unfold getCharacterStatus, sliceLast, digit.
    rewrite lastFrom_ascii.
    - do 10 (destruct d as [| d]; [reflexivity |]). lia.
    - do 10 (destruct d as [| d]; [reflexivity |]). lia. }
  rewrite Hstatus. split; [reflexivity |]. split; [| split; [| split; reflexivity]].
  - do 10 (destruct d as [| d]; [eexists; reflexivity |]). lia.
  - intros H0. rewrite H0. reflexivity.
Qed.

End StatusFacts.

(** * The character properties on concrete runs *)

Lemma creation_refuses_blank_name_witness :
  CharacterCreate.createCharacter Scenario.Storage Scenario.setBlob Scenario.createRecord
    17 "k3x9q2a1b" Scenario.blank Scenario.w0 =
  (Scenario.w0, inr (Response.mk false None None (Some "角色姓名不能为空"))).
Proof.
  pose proof (creation_refuses_blank_name Scenario.Storage Scenario.setBlob
                Scenario.createRecord 17 "k3x9q2a1b" Scenario.blank
                Scenario.w0 eq_refl) as T.
  exact (proj1 T).
Defined.

Lemma creation_never_throws_witness :
  snd (CharacterCreate.createCharacter Scenario.Storage Scenario.setBlob
         Scenario.createRecord 17 "k3x9q2a1b" Scenario.alice Scenario.w0) =
  inr (Response.mk true (Some "char_17_k3x9q2a1b") (Some "角色创建成功") None).
Proof.
  pose proof (creation_never_throws Scenario.Storage Scenario.setBlob
                Scenario.createRecord 17 "k3x9q2a1b" Scenario.alice Scenario.w0) as T.
  cbv zeta in T. destruct T as (r & Hr & _ & Hnamed & _).
  assert (Hname : JSText.trim (Request.name Scenario.alice) <> "")
    by (vm_compute; discriminate).
  destruct (Hnamed Hname) as (_ & Hsaved).
  destruct (Hsaved eq_refl) as (_ & Hcreated).
  destruct (Hcreated "char_17_k3x9q2a1b" eq_refl) as (Hresponse & _).
  rewrite Hr, Hresponse. reflexivity.
Defined.

Lemma creation_saves_avatar_first_witness :
  let out := CharacterCreate.createCharacter Scenario.Storage Scenario.fullBlobs
               Scenario.createRecord 17 "k3x9q2a1b" Scenario.alice Scenario.w0 in
  CharacterCreate.storage (fst out) = []
  /\ snd out = inr (Response.mk false None None (Some "quota exceeded")).
Proof.
  cbv zeta.
  assert (Hname : JSText.trim (Request.name Scenario.alice) <> "")
    by (vm_compute; discriminate).
  pose proof (creation_saves_avatar_first Scenario.Storage Scenario.fullBlobs
                Scenario.createRecord 17 "k3x9q2a1b" Scenario.alice Scenario.w0
                Hname) as T.
  cbv zeta in T. destruct T as [T _].
  destruct (T Scenario.portrait eq_refl) as [T1 _].
  destruct (T1 (ErrorObject "quota exceeded") eq_refl) as (_ & Hst & Hout).
  split; [exact Hst | exact Hout].
Defined.

Lemma submit_of_invalid_form_witness :
  CreateModal.handleSubmit Scenario.Storage Scenario.setBlob Scenario.createRecord
    (inr tt) (inr tt) 17 "k3x9q2a1b" (Scenario.modalOf Scenario.blankForm) =
  (CreateModal.mkModal Scenario.blankForm "data:image/png;base64," false
     (true, Some "角色姓名不能为空") (Some "alice.v2.png") Scenario.w0
     [CreateModal.PreventDefault], inr tt).
Proof.
  pose proof (submit_of_invalid_form Scenario.Storage Scenario.setBlob
                Scenario.createRecord (inr tt) (inr tt) 17 "k3x9q2a1b"
                (Scenario.modalOf Scenario.blankForm) eq_refl) as T.
  exact (proj1 T).
Defined.

Lemma submit_of_valid_form_witness :
  fst (CreateModal.handleSubmit Scenario.Storage Scenario.setBlob Scenario.createRecord
         (inr tt) (inr tt) 17 "k3x9q2a1b" (Scenario.modalOf Scenario.aliceForm)) =
  CreateModal.mkModal CreateModal.emptyForm "" false (false, None) (Some "")
    (fst (CharacterCreate.createCharacter Scenario.Storage Scenario.setBlob
            Scenario.createRecord 17 "k3x9q2a1b"
            (CreateModal.requestOf Scenario.aliceForm) Scenario.w0))
    [CreateModal.PreventDefault; CreateModal.OnSuccess;
     CreateModal.OnClose].
Proof.
  pose proof (submit_of_valid_form Scenario.Storage Scenario.setBlob
                Scenario.createRecord (inr tt) (inr tt) 17 "k3x9q2a1b"
                (Scenario.modalOf Scenario.aliceForm) _ _ eq_refl eq_refl) as T.
  cbv zeta in T. destruct T as (_ & _ & T).
  destruct (T eq_refl) as (_ & _ & _ & Hboth & _).
  exact (Hboth eq_refl eq_refl).
Defined.

Lemma status_from_last_digit_witness :
  CharacterCards.getCharacterStatus "char_1700000000000_k3x9q2a17" = Some "忙碌中".
Proof.
  pose proof (status_from_last_digit "char_1700000000000_k3x9q2a1" 7) as T.
  assert (H : (7 < 10)%nat) by lia.
  exact (proj1 (T H)).
Defined.
